(** * Vocabulary-learning bot: the adaptive session core

    A shallow embedding of [src/core/models.py], [src/core/adaptive_learning.py],
    [src/core/learning_session.py], [src/core/session_persistence.py],
    [src/core/progress_tracker.py] and the JSON and temporary-session
    helpers of [src/utils/file_helpers.py], followed by the properties of
    the specification that concern them and by further properties of the
    code.

    Conventions of the embedding:
    - a Python [int] is a [Z] (unbounded, no wrap-around);
    - a Python [float] is the rational it stands for ([Q]), and an
      operation on floats rounds its exact result to the nearest double,
      ties to even ([round_double]); an overflow of the range of a double is
      not modelled;
    - a [datetime] is a number of microseconds ([Z]), so that a difference of
      two of them is exact;
    - a [dict] whose iteration order the code depends on is an association
      list in insertion order ([PyDict]); a [dict] that is only looked up is
      a [gmap];
    - code that can raise runs in the [result] monad, and a [try]/[except
      Exception] is [try_except]. *)

From Stdlib Require Import ZArith QArith Qround Qpower List Bool Lia Lqa.
From stdpp Require Import gmap strings list fin_maps pretty.
Import ListNotations.

Local Open Scope string_scope.
Local Open Scope Z_scope.

(** ** Exceptions *)

Inductive exn : Type :=
  | AttributeError
  | KeyError
  | TypeError
  | ValueError
  | ValidationError.

Inductive result (A : Type) : Type :=
  | Ok (a : A)
  | Raise (e : exn).

Arguments Ok {A} a.
Arguments Raise {A} e.

#[global] Instance result_ret : MRet result := fun _ a => Ok a.

#[global] Instance result_bind : MBind result := fun _ _ k m =>
  match m with
  | Ok a => k a
  | Raise e => Raise e
  end.

(** [try: body except Exception: handler] *)
Definition try_except {A} (body : result A) (handler : exn -> A) : A :=
  match body with
  | Ok a => a
  | Raise e => handler e
  end.

(** [for x in l: body], threading the state [s] and stopping at the first
    exception. *)
Fixpoint for_each {A S} (l : list A) (body : A -> S -> result S) (s : S)
  : result S :=
  match l with
  | [] => Ok s
  | x :: l' => s' ← body x s; for_each l' body s'
  end.

(** ** Python dicts with their insertion order *)

Module PyDict.

Definition t (V : Type) : Type := list (string * V).

Definition keys {V} (d : t V) : list string := map fst d.
Definition values {V} (d : t V) : list V := map snd d.
Definition items {V} (d : t V) : list (string * V) := d.

(** [d.get(k)] *)
Fixpoint get {V} (k : string) (d : t V) : option V :=
  match d with
  | [] => None
  | (k', v) :: d' => if String.eqb k' k then Some v else get k d'
  end.

(** [d[k] = v]: an existing key keeps its position. *)
Fixpoint set {V} (k : string) (v : V) (d : t V) : t V :=
  match d with
  | [] => [(k, v)]
  | (k', v') :: d' =>
      if String.eqb k' k then (k', v) :: d' else (k', v') :: set k v d'
  end.

(** [k in d] *)
Definition mem {V} (k : string) (d : t V) : bool :=
  match get k d with Some _ => true | None => false end.

(** The keys of a dict are pairwise distinct. *)
Definition wf {V} (d : t V) : Prop := NoDup (keys d).

End PyDict.

(** ** [list.sort(key=...)]

    Python's sort is stable and compares keys with [<] only.  The result of a
    stable sort is determined by the input, so a stable insertion sort is
    used: an element goes behind exactly the elements whose key is strictly
    smaller. *)

Section Sort.
Context {A K : Type} (ltb : K -> K -> bool) (key : A -> K).

Fixpoint insert_by (x : A) (l : list A) : list A :=
  match l with
  | [] => [x]
  | y :: l' =>
      if ltb (key y) (key x) then y :: insert_by x l' else x :: y :: l'
  end.

Definition sort_by (l : list A) : list A := fold_right insert_by [] l.
End Sort.

(** [<] on 3-tuples of ints: lexicographic. *)
Definition tuple3_ltb (a b : Z * Z * Z) : bool :=
  let '(a1, a2, a3) := a in
  let '(b1, b2, b3) := b in
  if a1 <? b1 then true
  else if b1 <? a1 then false
  else if a2 <? b2 then true
  else if b2 <? a2 then false
  else a3 <? b3.

(** [int(b)] *)
Definition int_of_bool (b : bool) : Z := if b then 1 else 0.

(** [x < y] on rationals, as a boolean. *)
Definition Qltb (x y : Q) : bool := negb (Qle_bool y x).

(** ** Python floats

    A float is an IEEE 754 double: a number [n * 2 ^ e] with [|n| <= 2 ^ 53]
    and [e >= -1074].  The result of an operation is its exact result
    rounded to the nearest such number, to the one with the even [n] on a
    tie.  A result of [2 ^ 1024] or more raises [OverflowError] in Python;
    that case is left out. *)

(** The integer [l] with [2 ^ l <= x < 2 ^ (l + 1)], for a positive [x]. *)
Definition floor_log2 (x : Q) : Z :=
  if Qle_bool 1 x then Z.log2 (Qfloor x)
  else - Z.log2_up (Qceiling (/ x)).

(** The nearest integer, the even one on a tie. *)
Definition round_half_even (s : Q) : Z :=
  let q := Qfloor s in
  match (s - inject_Z q ?= 1 # 2)%Q with
  | Lt => q
  | Gt => q + 1
  | Eq => if Z.even q then q else q + 1
  end.

(** The exponent of the double nearest to a positive [x]: 53 significant
    bits, and never below the exponent of the subnormal numbers. *)
Definition double_exp (x : Q) : Z := Z.max (floor_log2 x - 52) (-1074).

Definition round_double_pos (x : Q) : Q :=
  (inject_Z (round_half_even (x * 2 ^ (- double_exp x))) * 2 ^ double_exp x)%Q.

(** The double nearest to [x]. *)
Definition round_double (x : Q) : Q :=
  match (x ?= 0)%Q with
  | Eq => 0%Q
  | Gt => round_double_pos x
  | Lt => (- round_double_pos (- x))%Q
  end.

(** [a / b] for two ints, [b] not 0: the quotient, correctly rounded. *)
Definition py_truediv (a b : Z) : Q := round_double (inject_Z a / inject_Z b).

(** [x * y] for two floats (an int operand is converted first, exactly for
    the small ints that occur here). *)
Definition py_fmul (x y : Q) : Q := round_double (x * y).

(** [int(x)] for a float: truncation towards zero. *)
Definition py_int (x : Q) : Z := Z.quot (Qnum x) (Zpos (Qden x)).

Arguments round_double : simpl never.
Arguments py_truediv : simpl never.
Arguments py_fmul : simpl never.

(** ** JSON values, paths and the file store

    A JSON document as Python's [json] module reads and writes it;
    [JNull] is [None]. *)

#[warnings="-register-all"]
Inductive json : Type :=
  | JNull
  | JBool (b : bool)
  | JInt (z : Z)
  | JStr (s : string)
  | JList (l : list json)
  | JObj (o : list (string * json)).

Module Json.

(** [d[k]] for a string [k]: only a dict can be subscripted by a string. *)
Definition subscript (d : json) (k : string) : result json :=
  match d with
  | JObj o =>
      match PyDict.get k o with
      | Some v => Ok v
      | None => Raise KeyError
      end
  | _ => Raise TypeError
  end.

(** [d.get(k, default)]: only a dict has the method. *)
Definition get (d : json) (k : string) (default : json) : result json :=
  match d with
  | JObj o =>
      match PyDict.get k o with
      | Some v => Ok v
      | None => Ok default
      end
  | _ => Raise AttributeError
  end.

(** [k in d], for a dict [d].  The one caller has subscripted [d] with a
    string before, so that no other kind of value arrives here. *)
Definition contains (k : string) (d : json) : result bool :=
  match d with
  | JObj o => Ok (PyDict.mem k o)
  | _ => Raise TypeError
  end.

(** [d.items()] *)
Definition items (d : json) : result (list (string * json)) :=
  match d with
  | JObj o => Ok o
  | _ => Raise AttributeError
  end.

(** The values a [for] loop over [d] visits: the elements of a list, the
    keys of a dict, the characters of a string. *)
Definition iter (d : json) : result (list json) :=
  match d with
  | JList l => Ok l
  | JObj o => Ok (map JStr (PyDict.keys o))
  | JStr s =>
      Ok (map (fun c => JStr (String c EmptyString)) (String.list_ascii_of_string s))
  | _ => Raise TypeError
  end.

(** The value as the typed field that receives it.  A value of another
    JSON type is rejected here (Python would either reject or store it
    as is; no document written by this program contains one). *)
Definition as_int (d : json) : result Z :=
  match d with
  | JInt z => Ok z
  | _ => Raise ValidationError
  end.

Definition as_str (d : json) : result string :=
  match d with
  | JStr s => Ok s
  | _ => Raise ValidationError
  end.

Definition as_bool (d : json) : result bool :=
  match d with
  | JBool b => Ok b
  | _ => Raise ValidationError
  end.

Definition as_opt_str (d : json) : result (option string) :=
  match d with
  | JNull => Ok None
  | JStr s => Ok (Some s)
  | _ => Raise ValidationError
  end.

Definition of_opt_str (o : option string) : json :=
  match o with
  | None => JNull
  | Some s => JStr s
  end.

Definition of_opt_int (o : option Z) : json :=
  match o with
  | None => JNull
  | Some z => JInt z
  end.

(** [bool(d)]: the truth value of a JSON value in a condition. *)
Definition truthy (d : json) : bool :=
  match d with
  | JNull => false
  | JBool b => b
  | JInt z => negb (z =? 0)
  | JStr s => negb (String.eqb s "")
  | JList l => match l with [] => false | _ :: _ => true end
  | JObj o => match o with [] => false | _ :: _ => true end
  end.

(** [d[k] = v] for a string [k]: only a dict takes it. *)
Definition set_item (d : json) (k : string) (v : json) : result json :=
  match d with
  | JObj o => Ok (JObj (PyDict.set k v o))
  | _ => Raise TypeError
  end.

End Json.

(** The argument of the JSON helpers: a [pathlib.Path], or the [str] of
    one. *)
Inductive pathlike : Type :=
  | PathObj (p : string)
  | StrObj (p : string).

Module Path.

(** The files of the data directory, by name, with their parsed
    content. *)
Abbreviation fs := (gmap string json).

(** [str(path)] *)
Definition str (p : pathlike) : pathlike :=
  match p with
  | PathObj s => StrObj s
  | StrObj s => StrObj s
  end.

(** [dir / name] *)
Definition join (dir name : string) : pathlike := PathObj (dir ++ "/" ++ name).

(** The name [open] is given; it takes a path and a string alike. *)
Definition name (p : pathlike) : string :=
  match p with
  | PathObj s => s
  | StrObj s => s
  end.

(** [filepath.parent.mkdir(parents=True, exist_ok=True)]: a [str] has no
    attribute [parent].  Directories are not part of the store. *)
Definition parent_mkdir (p : pathlike) : result unit :=
  match p with
  | PathObj _ => Ok tt
  | StrObj _ => Raise AttributeError
  end.

(** [filepath.exists()]: a [str] has no attribute [exists]. *)
Definition exists_ (p : pathlike) (files : fs) : result bool :=
  match p with
  | PathObj s => Ok (bool_decide (is_Some (files !! s)))
  | StrObj _ => Raise AttributeError
  end.

End Path.

(** ** [file_helpers.py] *)

(** [save_json] *)
Definition save_json (filepath : pathlike) (data : json) (files : Path.fs)
  : bool * Path.fs :=
  try_except
    (_ ← Path.parent_mkdir filepath;
     mret (true, <[Path.name filepath := data]> files))
    (fun _ => (false, files)).

(** [load_json], with [default=None] as every caller here has it. *)
Definition load_json (filepath : pathlike) (files : Path.fs) : json :=
  try_except
    (present ← Path.exists_ filepath files;
     if negb present then mret JNull
     else
       match files !! Path.name filepath with
       | Some data => mret data
       | None => mret JNull
       end)
    (fun _ => JNull).

(** [TEMP_SESSIONS_DIR], below the data directory, and [SESSION_TIMEOUT],
    in seconds. *)
Definition TEMP_SESSIONS_DIR : string := "temp_sessions".
Definition SESSION_TIMEOUT : Z := 3600.

(** [TEMP_SESSIONS_DIR / f"{user_id}.json"] *)
Definition user_session_file (user_id : Z) : pathlike :=
  Path.join TEMP_SESSIONS_DIR (pretty user_id ++ ".json").

(** [save_user_session] at time [now].  A reading of [time.time()] is, like
    a datetime, a number of microseconds, and it is stored as such.  The
    function has no [try] of its own: what the item assignment raises
    reaches the caller. *)
Definition save_user_session (user_id : Z) (session_data : json) (now : Z)
    (files : Path.fs) : result (bool * Path.fs) :=
  session_data ← Json.set_item session_data "timestamp" (JInt now);
  mret (save_json (user_session_file user_id) session_data files).

(** [delete_user_session] *)
Definition delete_user_session (user_id : Z) (files : Path.fs)
  : bool * Path.fs :=
  let session_file := user_session_file user_id in
  try_except
    (present ← Path.exists_ session_file files;
     if (present : bool)
     then mret (true, delete (Path.name session_file) files)
     else mret (false, files))
    (fun _ => (false, files)).

(** [load_user_session] at time [now]: the session data, if any, and the
    files afterwards.  The timestamp has to be a number to be subtracted; a
    JSON boolean counts as the number of seconds 1 or 0. *)
Definition load_user_session (user_id : Z) (now : Z) (files : Path.fs)
  : result (option json * Path.fs) :=
  let session_file := user_session_file user_id in
  let session_data := load_json session_file files in
  match session_data with
  | JNull => mret (None, files)
  | _ =>
      v ← Json.get session_data "timestamp" (JInt 0);
      timestamp ← match v with
                  | JInt z => Ok z
                  | JBool b => Ok (int_of_bool b * 1000000)
                  | _ => Raise TypeError
                  end;
      if now - timestamp >? SESSION_TIMEOUT * 1000000
      then
        let '(_, files) := delete_user_session user_id files in
        mret (None, files)
      else mret (Some session_data, files)
  end.

(** ** [config.settings]

    The embedding does not fix the values of this module; the three
    mastery thresholds it exports are taken as parameters. *)

Record Settings : Type := {
  MASTERY_CONSECUTIVE_CORRECT : Z;
  MASTERY_MIN_ATTEMPTS : Z;
  MASTERY_SUCCESS_RATE : Q
}.

(** Modelled from the spec: the values of the thresholds of
    [config.settings], which the specification gives as defaults (streak 3,
    minimum attempts 3, success rate 0.75) and the docstring of
    [AdaptiveLearning] repeats. *)
Definition default_settings : Settings := {|
  MASTERY_CONSECUTIVE_CORRECT := 3;
  MASTERY_MIN_ATTEMPTS := 3;
  MASTERY_SUCCESS_RATE := 3 # 4
|}.

(** ** [models.py] *)

Module Word.

Record t : Type := mk {
  text : string;
  consecutive_correct : Z;
  total_attempts : Z;
  correct_count : Z;
  incorrect_count : Z;
  is_mastered : bool;
  priority_score : Z
}.

(** [Word(text=text)]: every other field takes its default; [text] has
    [min_length=1]. *)
Definition new (text : string) : result t :=
  if String.eqb text "" then Raise ValidationError
  else Ok (mk text 0 0 0 0 false 100).

Definition set_consecutive_correct (v : Z) (w : t) : t :=
  mk (text w) v (total_attempts w) (correct_count w) (incorrect_count w)
     (is_mastered w) (priority_score w).
Definition set_total_attempts (v : Z) (w : t) : t :=
  mk (text w) (consecutive_correct w) v (correct_count w) (incorrect_count w)
     (is_mastered w) (priority_score w).
Definition set_correct_count (v : Z) (w : t) : t :=
  mk (text w) (consecutive_correct w) (total_attempts w) v (incorrect_count w)
     (is_mastered w) (priority_score w).
Definition set_incorrect_count (v : Z) (w : t) : t :=
  mk (text w) (consecutive_correct w) (total_attempts w) (correct_count w) v
     (is_mastered w) (priority_score w).
Definition set_is_mastered (v : bool) (w : t) : t :=
  mk (text w) (consecutive_correct w) (total_attempts w) (correct_count w)
     (incorrect_count w) v (priority_score w).
Definition set_priority_score (v : Z) (w : t) : t :=
  mk (text w) (consecutive_correct w) (total_attempts w) (correct_count w)
     (incorrect_count w) (is_mastered w) v.

(** The fields the model declares.  Reading any other attribute of a
    [Word] raises [AttributeError]; assigning one raises [ValueError]
    (the model does not allow extra fields). *)
Definition fields : list string :=
  ["text"; "consecutive_correct"; "total_attempts"; "correct_count";
   "incorrect_count"; "is_mastered"; "priority_score"].

Definition has_field (name : string) : bool :=
  existsb (String.eqb name) fields.

(** [word.<name>], read dynamically. *)
Definition getattr (name : string) (w : t) : result json :=
  if String.eqb name "text" then Ok (JStr (text w))
  else if String.eqb name "consecutive_correct" then Ok (JInt (consecutive_correct w))
  else if String.eqb name "total_attempts" then Ok (JInt (total_attempts w))
  else if String.eqb name "correct_count" then Ok (JInt (correct_count w))
  else if String.eqb name "incorrect_count" then Ok (JInt (incorrect_count w))
  else if String.eqb name "is_mastered" then Ok (JBool (is_mastered w))
  else if String.eqb name "priority_score" then Ok (JInt (priority_score w))
  else Raise AttributeError.

(** [word.<name> = v], assigned dynamically. *)
Definition setattr (name : string) (v : json) (w : t) : result t :=
  if String.eqb name "text" then
    x ← Json.as_str v; mret (mk x (consecutive_correct w) (total_attempts w)
      (correct_count w) (incorrect_count w) (is_mastered w) (priority_score w))
  else if String.eqb name "consecutive_correct" then
    x ← Json.as_int v; mret (set_consecutive_correct x w)
  else if String.eqb name "total_attempts" then
    x ← Json.as_int v; mret (set_total_attempts x w)
  else if String.eqb name "correct_count" then
    x ← Json.as_int v; mret (set_correct_count x w)
  else if String.eqb name "incorrect_count" then
    x ← Json.as_int v; mret (set_incorrect_count x w)
  else if String.eqb name "is_mastered" then
    x ← Json.as_bool v; mret (set_is_mastered x w)
  else if String.eqb name "priority_score" then
    x ← Json.as_int v; mret (set_priority_score x w)
  else Raise ValueError.

End Word.

Module SessionStats.

Record t : Type := mk {
  session_id : string;
  user_id : Z;
  dict_id : string;
  dict_name : string;
  started_at : Z;
  ended_at : option Z;
  total_words : Z;
  correct_answers : Z;
  incorrect_answers : Z;
  words_mastered : Z;
  words_mastered_list : list string
}.

(** [SessionStats(session_id=..., ..., started_at=..., total_words=...)]:
    [total_words] has [ge=1]; the counters start at 0, the list empty and
    [ended_at] unset. *)
Definition new (session_id : string) (user_id : Z) (dict_id dict_name : string)
    (started_at : Z) (total_words : Z) : result t :=
  if total_words <? 1 then Raise ValidationError
  else Ok (mk session_id user_id dict_id dict_name started_at None
              total_words 0 0 0 []).

Definition set_ended_at (v : option Z) (s : t) : t :=
  mk (session_id s) (user_id s) (dict_id s) (dict_name s) (started_at s) v
     (total_words s) (correct_answers s) (incorrect_answers s)
     (words_mastered s) (words_mastered_list s).
Definition set_correct_answers (v : Z) (s : t) : t :=
  mk (session_id s) (user_id s) (dict_id s) (dict_name s) (started_at s)
     (ended_at s) (total_words s) v (incorrect_answers s)
     (words_mastered s) (words_mastered_list s).
Definition set_incorrect_answers (v : Z) (s : t) : t :=
  mk (session_id s) (user_id s) (dict_id s) (dict_name s) (started_at s)
     (ended_at s) (total_words s) (correct_answers s) v
     (words_mastered s) (words_mastered_list s).
Definition set_words_mastered (v : Z) (s : t) : t :=
  mk (session_id s) (user_id s) (dict_id s) (dict_name s) (started_at s)
     (ended_at s) (total_words s) (correct_answers s) (incorrect_answers s)
     v (words_mastered_list s).
Definition set_words_mastered_list (v : list string) (s : t) : t :=
  mk (session_id s) (user_id s) (dict_id s) (dict_name s) (started_at s)
     (ended_at s) (total_words s) (correct_answers s) (incorrect_answers s)
     (words_mastered s) v.

(** [stats.model_dump(mode='json')]; a datetime is dumped as its number
    of microseconds. *)
Definition model_dump (s : t) : json :=
  JObj [("session_id", JStr (session_id s));
        ("user_id", JInt (user_id s));
        ("dict_id", JStr (dict_id s));
        ("dict_name", JStr (dict_name s));
        ("started_at", JInt (started_at s));
        ("ended_at", Json.of_opt_int (ended_at s));
        ("total_words", JInt (total_words s));
        ("correct_answers", JInt (correct_answers s));
        ("incorrect_answers", JInt (incorrect_answers s));
        ("words_mastered", JInt (words_mastered s));
        ("words_mastered_list", JList (map JStr (words_mastered_list s)))].

(** [SessionStats.duration_seconds]: [total_seconds()] divides the
    microseconds between the two datetimes by [10 ** 6], and [int(...)]
    truncates the float towards zero. *)
Definition duration_seconds (self : t) : Z :=
  match ended_at self with
  | None => 0
  | Some ended => py_int (py_truediv (ended - started_at self) 1000000)
  end.

(** [SessionStats.success_rate] *)
Definition success_rate (self : t) : Q :=
  let total := correct_answers self + incorrect_answers self in
  if total =? 0 then 0%Q
  else py_fmul (py_truediv (correct_answers self) total) 100.

(** [SessionStats.is_complete] *)
Definition is_complete (self : t) : bool :=
  words_mastered self >=? total_words self.

End SessionStats.

Module WordProgress.

Record t : Type := mk {
  word : string;
  total_correct : Z;
  total_incorrect : Z;
  times_mastered : Z;
  last_attempted : option Z
}.

(** [WordProgress(word=word)] *)
Definition new (word : string) : t := mk word 0 0 0 None.

Definition set_total_correct (v : Z) (p : t) : t :=
  mk (word p) v (total_incorrect p) (times_mastered p) (last_attempted p).
Definition set_total_incorrect (v : Z) (p : t) : t :=
  mk (word p) (total_correct p) v (times_mastered p) (last_attempted p).
Definition set_times_mastered (v : Z) (p : t) : t :=
  mk (word p) (total_correct p) (total_incorrect p) v (last_attempted p).
Definition set_last_attempted (v : option Z) (p : t) : t :=
  mk (word p) (total_correct p) (total_incorrect p) (times_mastered p) v.

Definition model_dump (p : t) : json :=
  JObj [("word", JStr (word p));
        ("total_correct", JInt (total_correct p));
        ("total_incorrect", JInt (total_incorrect p));
        ("times_mastered", JInt (times_mastered p));
        ("last_attempted", Json.of_opt_int (last_attempted p))].

End WordProgress.

Module UserProgress.

Record t : Type := mk {
  user_id : Z;
  total_words_learned : Z;
  total_sessions : Z;
  total_attempts : Z;
  total_correct : Z;
  total_incorrect : Z;
  dictionaries_progress : gmap string (gmap string WordProgress.t);
  created_at : Z;
  last_activity : option Z
}.

(** [UserProgress(user_id=user_id)], created at time [now]. *)
Definition new (user_id : Z) (now : Z) : t := mk user_id 0 0 0 0 0 ∅ now None.

Definition set_total_words_learned (v : Z) (p : t) : t :=
  mk (user_id p) v (total_sessions p) (total_attempts p) (total_correct p)
     (total_incorrect p) (dictionaries_progress p) (created_at p) (last_activity p).
Definition set_total_sessions (v : Z) (p : t) : t :=
  mk (user_id p) (total_words_learned p) v (total_attempts p) (total_correct p)
     (total_incorrect p) (dictionaries_progress p) (created_at p) (last_activity p).
Definition set_total_attempts (v : Z) (p : t) : t :=
  mk (user_id p) (total_words_learned p) (total_sessions p) v (total_correct p)
     (total_incorrect p) (dictionaries_progress p) (created_at p) (last_activity p).
Definition set_total_correct (v : Z) (p : t) : t :=
  mk (user_id p) (total_words_learned p) (total_sessions p) (total_attempts p) v
     (total_incorrect p) (dictionaries_progress p) (created_at p) (last_activity p).
Definition set_total_incorrect (v : Z) (p : t) : t :=
  mk (user_id p) (total_words_learned p) (total_sessions p) (total_attempts p)
     (total_correct p) v (dictionaries_progress p) (created_at p) (last_activity p).
Definition set_dictionaries_progress
    (v : gmap string (gmap string WordProgress.t)) (p : t) : t :=
  mk (user_id p) (total_words_learned p) (total_sessions p) (total_attempts p)
     (total_correct p) (total_incorrect p) v (created_at p) (last_activity p).
Definition set_last_activity (v : option Z) (p : t) : t :=
  mk (user_id p) (total_words_learned p) (total_sessions p) (total_attempts p)
     (total_correct p) (total_incorrect p) (dictionaries_progress p)
     (created_at p) v.

Definition model_dump (p : t) : json :=
  JObj [("user_id", JInt (user_id p));
        ("total_words_learned", JInt (total_words_learned p));
        ("total_sessions", JInt (total_sessions p));
        ("total_attempts", JInt (total_attempts p));
        ("total_correct", JInt (total_correct p));
        ("total_incorrect", JInt (total_incorrect p));
        ("dictionaries_progress",
          JObj (map_to_list
                  ((fun d : gmap string WordProgress.t =>
                      JObj (map_to_list (WordProgress.model_dump <$> d)))
                   <$> dictionaries_progress p)));
        ("created_at", JInt (created_at p));
        ("last_activity", Json.of_opt_int (last_activity p))].

End UserProgress.

(** ** [adaptive_learning.py] *)

Module AdaptiveLearning.
Import Word.

Section WithSettings.
Variable cfg : Settings.

(** [AdaptiveLearning.is_word_mastered] *)
Definition is_word_mastered (word : Word.t) : bool :=
  if consecutive_correct word <? MASTERY_CONSECUTIVE_CORRECT cfg then false
  else if total_attempts word <? MASTERY_MIN_ATTEMPTS cfg then false
  else if correct_count word <? MASTERY_MIN_ATTEMPTS cfg then false
  else
    let success_rate : Q :=
      if total_attempts word >? 0
      then py_truediv (correct_count word) (total_attempts word)
      else 0%Q in
    if Qltb success_rate (MASTERY_SUCCESS_RATE cfg) then false
    else true.

(** [AdaptiveLearning.update_word_status]: the word after the update and
    the returned flag.  The one operation of the body that can raise is
    the division in [is_word_mastered], and only by an overflow of the
    range of a float, for a [correct_count] of more than [2 ^ 1023] times
    [total_attempts]; short of that the [except] branch is never taken. *)
Definition update_word_status (word : Word.t) (is_correct : bool)
  : Word.t * bool :=
  if is_correct then
    let word := set_consecutive_correct (consecutive_correct word + 1) word in
    let word := set_correct_count (correct_count word + 1) word in
    let word := set_total_attempts (total_attempts word + 1) word in
    let word :=
      if is_word_mastered word then set_is_mastered true word else word in
    let word := set_priority_score (Z.max 1 (priority_score word - 20)) word in
    (word, true)
  else
    let word := set_consecutive_correct 0 word in
    let word := set_incorrect_count (incorrect_count word + 1) word in
    let word := set_total_attempts (total_attempts word + 1) word in
    let word := set_is_mastered false word in
    let word := set_priority_score (Z.min 100 (priority_score word + 30)) word in
    (word, true).

End WithSettings.

(** The local function [sort_key] of [get_next_word_by_priority]. *)
Definition sort_key (item : string * Word.t) : Z * Z * Z :=
  let '(text, word) := item in
  let has_recent_error :=
    (incorrect_count word >? 0) && (consecutive_correct word =? 0) in
  (- int_of_bool has_recent_error, - priority_score word, total_attempts word).

(** [AdaptiveLearning.get_next_word_by_priority].  The function calls
    itself on a smaller dict in its defensive branch; [fuel] bounds the
    depth of these calls, and running out of it is the outer [None]. *)
Fixpoint get_next_word_by_priority_fuel (fuel : nat) (words : PyDict.t Word.t)
  : option (option string) :=
  match fuel with
  | O => None
  | S fuel' =>
      let unmastered_words :=
        List.filter (fun '(text, word) => negb (is_mastered word))
                    (PyDict.items words) in
      match sort_by tuple3_ltb sort_key unmastered_words with
      | [] => Some None
      | (selected_word, selected_obj) :: _ =>
          if is_mastered selected_obj then
            let words_filtered :=
              List.filter (fun '(k, v) => negb (String.eqb k selected_word))
                          (PyDict.items words) in
            match words_filtered with
            | [] => Some None
            | _ :: _ => get_next_word_by_priority_fuel fuel' words_filtered
            end
          else Some (Some selected_word)
      end
  end.

(** Each nested call drops at least the selected key, so one more unit of
    fuel than there are words is enough for any run. *)
Definition get_next_word_by_priority (words : PyDict.t Word.t)
  : option (option string) :=
  get_next_word_by_priority_fuel (S (length words)) words.

(** [AdaptiveLearning.is_session_complete] *)
Definition is_session_complete (words : PyDict.t Word.t) : bool :=
  match words with
  | [] => true
  | _ :: _ => forallb is_mastered (PyDict.values words)
  end.

(** The dict [{"easy": N, "medium": N, "hard": N}] of
    [get_difficulty_level]. *)
Record difficulty : Type := mk_difficulty {
  easy : Z;
  medium : Z;
  hard : Z
}.

(** [AdaptiveLearning.get_difficulty_level] *)
Definition get_difficulty_level (incorrect_count : Z) : difficulty :=
  if incorrect_count >=? 3 then mk_difficulty 1 2 0
  else if incorrect_count =? 0 then mk_difficulty 0 0 3
  else if incorrect_count =? 1 then mk_difficulty 0 1 2
  else if incorrect_count =? 2 then mk_difficulty 0 1 2
  else mk_difficulty 0 0 3.

(** The dict that [get_session_progress] returns. *)
Record session_progress : Type := mk_session_progress {
  mastered : Z;
  total : Z;
  with_errors : Z;
  without_errors : Z;
  remaining : Z
}.

(** [sum(1 for x in l if f(x))] *)
Definition count_if {A} (f : A -> bool) (l : list A) : Z :=
  fold_right Z.add 0 (map (fun x => 1) (List.filter f l)).

(** [AdaptiveLearning.get_session_progress]; counting and subtracting ints
    cannot raise. *)
Definition get_session_progress (words : PyDict.t Word.t) : session_progress :=
  let mastered := count_if is_mastered (PyDict.values words) in
  let total := Z.of_nat (length words) in
  let with_errors :=
    count_if (fun word => incorrect_count word >? 0) (PyDict.values words) in
  let without_errors := total - with_errors in
  mk_session_progress mastered total with_errors without_errors
                      (total - mastered).

End AdaptiveLearning.

(** ** [learning_session.py] *)

Module LearningSession.

Record t : Type := mk {
  user_id : Z;
  dict_id : string;
  dict_name : string;
  session_id : string;
  words : PyDict.t Word.t;
  current_word : option string;
  total_words_shown : Z;
  stats : SessionStats.t
}.

Definition set_session_id (v : string) (s : t) : t :=
  mk (user_id s) (dict_id s) (dict_name s) v (words s) (current_word s)
     (total_words_shown s) (stats s).
Definition set_words (v : PyDict.t Word.t) (s : t) : t :=
  mk (user_id s) (dict_id s) (dict_name s) (session_id s) v (current_word s)
     (total_words_shown s) (stats s).
Definition set_current_word (v : option string) (s : t) : t :=
  mk (user_id s) (dict_id s) (dict_name s) (session_id s) (words s) v
     (total_words_shown s) (stats s).
Definition set_total_words_shown (v : Z) (s : t) : t :=
  mk (user_id s) (dict_id s) (dict_name s) (session_id s) (words s)
     (current_word s) v (stats s).
Definition set_stats (v : SessionStats.t) (s : t) : t :=
  mk (user_id s) (dict_id s) (dict_name s) (session_id s) (words s)
     (current_word s) (total_words_shown s) v.

(** [LearningSession.__init__].  The eight characters of a fresh uuid and
    the current time are inputs: [uuid8] and [now]. *)
Definition init (user_id : Z) (dict_id dict_name : string)
    (words_list : list string) (uuid8 : string) (now : Z) : result t :=
  words ← for_each words_list
             (fun word d => w ← Word.new word; mret (PyDict.set word w d)) [];
  stats ← SessionStats.new uuid8 user_id dict_id dict_name now
             (Z.of_nat (length words_list));
  mret (mk user_id dict_id dict_name uuid8 words None 0 stats).

Section WithSettings.
Variable cfg : Settings.

(** [LearningSession.get_next_word]; the outer [None] is the selection
    running out of fuel. *)
Definition get_next_word (self : t) : option (t * option string) :=
  if AdaptiveLearning.is_session_complete (words self)
  then Some (self, None)
  else
    match AdaptiveLearning.get_next_word_by_priority (words self) with
    | None => None
    | Some None => Some (self, None)
    | Some (Some next_word) =>
        let self := set_current_word (Some next_word) self in
        let self := set_total_words_shown (total_words_shown self + 1) self in
        Some (self, Some next_word)
    end.

(** [LearningSession.record_answer]: the session after the call and the
    returned flag.  The word object is shared with [self.words], so its
    update is written back under its key. *)
Definition record_answer (self : t) (word : string) (is_correct : bool)
  : t * bool :=
  match PyDict.get word (words self) with
  | None => (self, false)
  | Some word_obj =>
      let word_obj :=
        fst (AdaptiveLearning.update_word_status cfg word_obj is_correct) in
      let self := set_words (PyDict.set word word_obj (words self)) self in
      let self :=
        if is_correct
        then set_stats (SessionStats.set_correct_answers
               (SessionStats.correct_answers (stats self) + 1) (stats self)) self
        else set_stats (SessionStats.set_incorrect_answers
               (SessionStats.incorrect_answers (stats self) + 1) (stats self)) self in
      let self :=
        if Word.is_mastered word_obj then
          if negb (existsb (String.eqb word)
                     (SessionStats.words_mastered_list (stats self)))
          then
            let st := stats self in
            let st := SessionStats.set_words_mastered_list
                        (SessionStats.words_mastered_list st ++ [word]) st in
            let st := SessionStats.set_words_mastered
                        (SessionStats.words_mastered st + 1) st in
            set_stats st self
          else self
        else self in
      (self, true)
  end.

End WithSettings.

(** [LearningSession.is_complete] *)
Definition is_complete (self : t) : bool :=
  AdaptiveLearning.is_session_complete (words self).

(** [LearningSession.finish_session] at time [now]. *)
Definition finish_session (self : t) (now : Z) : t * SessionStats.t :=
  let self := set_stats (SessionStats.set_ended_at (Some now) (stats self)) self in
  (self, stats self).

(** [LearningSession.get_current_word] *)
Definition get_current_word (self : t) : option string := current_word self.

(** [LearningSession.get_word_data] *)
Definition get_word_data (self : t) (word : string) : option Word.t :=
  PyDict.get word (words self).

(** [LearningSession.get_difficulty_for_word] *)
Definition get_difficulty_for_word (self : t) (word : string)
  : AdaptiveLearning.difficulty :=
  match PyDict.get word (words self) with
  | None => AdaptiveLearning.mk_difficulty 0 0 3
  | Some word_obj =>
      AdaptiveLearning.get_difficulty_level (Word.incorrect_count word_obj)
  end.

(** [LearningSession.get_mastered_count] *)
Definition get_mastered_count (self : t) : Z :=
  Z.of_nat (length (List.filter Word.is_mastered (PyDict.values (words self)))).

(** [LearningSession.get_current_position] *)
Definition get_current_position (self : t) : Z := total_words_shown self.

(** [range(0, stop, 3)], with [fuel] bounding the number of its
    elements. *)
Fixpoint range3 (fuel : nat) (start stop : nat) : list nat :=
  match fuel with
  | O => []
  | S fuel' =>
      if (start <? stop)%nat then start :: range3 fuel' (start + 3) stop
      else []
  end.

(** The chunks [words[i:i+3]] that [_format_mastered_words] joins, one per
    line. *)
Definition mastered_chunks (words : list string) : list (list string) :=
  map (fun i => firstn 3 (skipn i words))
      (range3 (length words) 0 (length words)).

(** [sep.join(l)] *)
Fixpoint join (sep : string) (l : list string) : string :=
  match l with
  | [] => ""
  | [x] => x
  | x :: l' => x ++ sep ++ join sep l'
  end.

(** [LearningSession._format_mastered_words]; slicing and joining strings
    cannot raise. *)
Definition _format_mastered_words (self : t) : string :=
  match SessionStats.words_mastered_list (stats self) with
  | [] => "Нет"
  | _ :: _ =>
      let words := SessionStats.words_mastered_list (stats self) in
      let lines := map (fun chunk => " • " ++ join ", " chunk)
                       (mastered_chunks words) in
      join (String (Ascii.ascii_of_nat 10) "") lines
  end.

End LearningSession.

(** ** [session_persistence.py] *)

Module SessionPersistence.

(** [SESSIONS_DIR], below the data directory. *)
Definition SESSIONS_DIR : string := "temp_sessions".

(** [SESSIONS_DIR / f"{user_id}_{session_id}.json"] *)
Definition session_file (user_id : Z) (session_id : string) : pathlike :=
  Path.join SESSIONS_DIR (pretty user_id ++ "_" ++ session_id ++ ".json").

(** One value of the dict comprehension of [save_session]: the record of
    [word_obj].  The entries are evaluated in the order they are
    written. *)
Definition word_stats (word_obj : Word.t) : result json :=
  correct_count ← Word.getattr "correct_count" word_obj;
  incorrect_count ← Word.getattr "incorrect_count" word_obj;
  total_attempts ← Word.getattr "total_attempts" word_obj;
  times_mastered ← Word.getattr "times_mastered" word_obj;
  is_mastered ← Word.getattr "is_mastered" word_obj;
  last_attempted ←
    (if Word.has_field "last_attempted"
     then Word.getattr "last_attempted" word_obj
     else mret JNull);
  mret (JObj [("correct_count", correct_count);
              ("incorrect_count", incorrect_count);
              ("total_attempts", total_attempts);
              ("times_mastered", times_mastered);
              ("is_mastered", is_mastered);
              ("last_attempted", last_attempted)]).

(** The dict comprehension [{word: {...} for word, word_obj in
    session.words.items()}]. *)
Definition words_stats (words : PyDict.t Word.t) : result json :=
  o ← for_each (PyDict.items words)
        (fun '(word, word_obj) acc =>
           v ← word_stats word_obj; mret (PyDict.set word v acc)) [];
  mret (JObj o).

(** The dict [session_data] that [save_session] builds. *)
Definition session_data (user_id : Z) (session : LearningSession.t)
  : result json :=
  ws ← words_stats (LearningSession.words session);
  mret (JObj
    [("user_id", JInt user_id);
     ("session_id", JStr (LearningSession.session_id session));
     ("dict_id", JStr (LearningSession.dict_id session));
     ("dict_name", JStr (LearningSession.dict_name session));
     ("words_list", JList (map JStr (PyDict.keys (LearningSession.words session))));
     ("current_word", Json.of_opt_str (LearningSession.current_word session));
     ("stats", SessionStats.model_dump (LearningSession.stats session));
     ("words_stats", ws)]).

(** [SessionPersistence.save_session]: the returned flag and the files
    afterwards.  The result of [save_json] is not looked at. *)
Definition save_session (user_id : Z) (session : LearningSession.t)
    (files : Path.fs) : bool * Path.fs :=
  try_except
    (let session_file := session_file user_id (LearningSession.session_id session) in
     data ← session_data user_id session;
     let '(_, files) := save_json (Path.str session_file) data files in
     mret (true, files))
    (fun _ => (false, files)).

(** The body of the loop of [load_session] over the saved word records. *)
Definition restore_word (word : string) (stats_data : json)
    (words : PyDict.t Word.t) : result (PyDict.t Word.t) :=
  match PyDict.get word words with
  | None => mret words
  | Some word_obj =>
      v ← Json.get stats_data "correct_count" (JInt 0);
      word_obj ← Word.setattr "correct_count" v word_obj;
      v ← Json.get stats_data "incorrect_count" (JInt 0);
      word_obj ← Word.setattr "incorrect_count" v word_obj;
      v ← Json.get stats_data "total_attempts" (JInt 0);
      word_obj ← Word.setattr "total_attempts" v word_obj;
      v ← Json.get stats_data "times_mastered" (JInt 0);
      word_obj ← Word.setattr "times_mastered" v word_obj;
      v ← Json.get stats_data "is_mastered" (JBool false);
      word_obj ← Word.setattr "is_mastered" v word_obj;
      mret (PyDict.set word word_obj words)
  end.

(** [SessionPersistence.load_session]; [uuid8] and [now] are what the
    constructor of the session draws. *)
Definition load_session (user_id : Z) (session_id : string)
    (uuid8 : string) (now : Z) (files : Path.fs)
  : option LearningSession.t :=
  try_except
    (let session_file := session_file user_id session_id in
     present ← Path.exists_ session_file files;
     if negb present then mret None
     else
       let session_data := load_json (Path.str session_file) files in
       v ← Json.subscript session_data "user_id";
     a_user_id ← Json.as_int v;
     v ← Json.subscript session_data "dict_id";
     a_dict_id ← Json.as_str v;
     v ← Json.subscript session_data "dict_name";
     a_dict_name ← Json.as_str v;
     v ← Json.subscript session_data "words_list";
     l ← Json.iter v;
     a_words_list ← mapM Json.as_str l;
     session ← LearningSession.init a_user_id a_dict_id a_dict_name
                 a_words_list uuid8 now;
     v ← Json.subscript session_data "session_id";
     v ← Json.as_str v;
     let session := LearningSession.set_session_id v session in
     v ← Json.get session_data "current_word" JNull;
     v ← Json.as_opt_str v;
     let session := LearningSession.set_current_word v session in
     has_stats ← Json.contains "words_stats" session_data;
       session ←
         (if (has_stats : bool) then
            v ← Json.subscript session_data "words_stats";
            entries ← Json.items v;
            words ← for_each entries
                      (fun '(word, stats_data) words =>
                         restore_word word stats_data words)
                      (LearningSession.words session);
            mret (LearningSession.set_words words session)
          else mret session);
       mret (Some session))
    (fun _ => None).

(** [SessionPersistence.delete_session] *)
Definition delete_session (user_id : Z) (session_id : string)
    (files : Path.fs) : bool * Path.fs :=
  try_except
    (let session_file := session_file user_id session_id in
     present ← Path.exists_ session_file files;
     if (present : bool)
     then mret (true, delete (Path.name session_file) files)
     else mret (false, files))
    (fun _ => (false, files)).

End SessionPersistence.

(** ** [progress_tracker.py] *)

Module ProgressTracker.

Record t : Type := mk {
  user_id : Z;
  progress : UserProgress.t
}.

Definition set_progress (v : UserProgress.t) (self : t) : t :=
  mk (user_id self) v.

(** [self.progress_file] *)
Definition progress_file (self : t) : pathlike :=
  Path.join ("users/" ++ pretty (user_id self)) "progress.json".

(** [ProgressTracker._save_progress] at time [now].  The result of
    [save_json] is not looked at. *)
Definition _save_progress (self : t) (now : Z) (files : Path.fs)
  : bool * t * Path.fs :=
  let self := set_progress
                (UserProgress.set_last_activity (Some now) (progress self)) self in
  let progress_dict := UserProgress.model_dump (progress self) in
  let '(_, files) := save_json (Path.str (progress_file self)) progress_dict files in
  (true, self, files).

(** [ProgressTracker.update_word_progress]; [now] is the time of the
    attempt and [now'] the time of the save.  The word record and the dict
    it lives in are shared with [self.progress], so the updates are written
    back. *)
Definition update_word_progress (self : t) (dict_id word : string)
    (is_correct is_mastered : bool) (now now' : Z) (files : Path.fs)
  : bool * t * Path.fs :=
  let p := progress self in
  let dict_progress := default ∅ (UserProgress.dictionaries_progress p !! dict_id) in
  let word_progress := default (WordProgress.new word) (dict_progress !! word) in
  let word_progress :=
    if is_correct
    then WordProgress.set_total_correct
           (WordProgress.total_correct word_progress + 1) word_progress
    else WordProgress.set_total_incorrect
           (WordProgress.total_incorrect word_progress + 1) word_progress in
  let word_progress := WordProgress.set_last_attempted (Some now) word_progress in
  let word_progress :=
    if is_mastered && (WordProgress.times_mastered word_progress =? 0)
    then WordProgress.set_times_mastered 1 word_progress
    else if is_mastered
    then WordProgress.set_times_mastered
           (WordProgress.times_mastered word_progress + 1) word_progress
    else word_progress in
  let p := UserProgress.set_dictionaries_progress
             (<[dict_id := <[word := word_progress]> dict_progress]>
                (UserProgress.dictionaries_progress p)) p in
  let p := UserProgress.set_total_attempts (UserProgress.total_attempts p + 1) p in
  let p :=
    if is_correct
    then UserProgress.set_total_correct (UserProgress.total_correct p + 1) p
    else UserProgress.set_total_incorrect (UserProgress.total_incorrect p + 1) p in
  let p :=
    if is_mastered && (WordProgress.times_mastered word_progress =? 1)
    then UserProgress.set_total_words_learned
           (UserProgress.total_words_learned p + 1) p
    else p in
  _save_progress (set_progress p self) now' files.

(** The body of the loop of [update_session_stats] over [words_mastered]. *)
Definition count_mastered_word (dict_progress : gmap string WordProgress.t)
    (p : UserProgress.t) (word : string) : UserProgress.t :=
  match dict_progress !! word with
  | Some word_progress =>
      if WordProgress.times_mastered word_progress =? 1
      then UserProgress.set_total_words_learned
             (UserProgress.total_words_learned p + 1) p
      else p
  | None => p
  end.

(** [ProgressTracker.update_session_stats] at time [now] *)
Definition update_session_stats (self : t) (dict_id : string)
    (correct_count incorrect_count : Z) (words_mastered : list string)
    (now : Z) (files : Path.fs) : bool * t * Path.fs :=
  let p := progress self in
  let p := UserProgress.set_total_sessions (UserProgress.total_sessions p + 1) p in
  let p := UserProgress.set_total_correct
             (UserProgress.total_correct p + correct_count) p in
  let p := UserProgress.set_total_incorrect
             (UserProgress.total_incorrect p + incorrect_count) p in
  let dict_progress := default ∅ (UserProgress.dictionaries_progress p !! dict_id) in
  let p := fold_left (count_mastered_word dict_progress) words_mastered p in
  _save_progress (set_progress p self) now files.

Section LoadProgress.
(** What [_load_progress] does with a loaded, non-empty document: the
    conversion of its word records and the validation of the whole by the
    constructor of [UserProgress].  It is left open here. *)
Variable user_progress_of_data : json -> result UserProgress.t.

(** [ProgressTracker._load_progress] for the tracker of [user_id], at time
    [now]. *)
Definition _load_progress (user_id : Z) (now : Z) (files : Path.fs)
  : UserProgress.t :=
  let progress_file := progress_file (mk user_id (UserProgress.new user_id now)) in
  try_except
    (present ← Path.exists_ progress_file files;
     if (present : bool) then
       let data := load_json (Path.str progress_file) files in
       if Json.truthy data then user_progress_of_data data
       else mret (UserProgress.new user_id now)
     else mret (UserProgress.new user_id now))
    (fun _ => UserProgress.new user_id now).

(** [ProgressTracker.__init__] *)
Definition init (user_id : Z) (now : Z) (files : Path.fs) : t :=
  mk user_id (_load_progress user_id now files).

End LoadProgress.

(** [ProgressTracker.get_word_progress]; looking up a missing key with
    [get] cannot raise. *)
Definition get_word_progress (self : t) (dict_id word : string)
  : option WordProgress.t :=
  default ∅ (UserProgress.dictionaries_progress (progress self) !! dict_id)
    !! word.

(** The dict that [get_dictionary_progress] returns. *)
Record dictionary_progress : Type := mk_dictionary_progress {
  dp_total_words : Z;
  dp_words_mastered : Z;
  dp_success_rate : Q;
  dp_total_attempts : Z;
  dp_total_correct : Z;
  dp_total_incorrect : Z;
  dp_last_activity : option Z
}.

(** [sum(f(x) for x in l)] *)
Definition sum_of {A} (f : A -> Z) (l : list A) : Z :=
  fold_right Z.add 0 (map f l).

(** [max(l, default=None)] over the set times. *)
Definition max_time (l : list Z) : option Z :=
  match l with
  | [] => None
  | x :: l' => Some (fold_left Z.max l' x)
  end.

(** [ProgressTracker.get_dictionary_progress] *)
Definition get_dictionary_progress (self : t) (dict_id : string)
  : dictionary_progress :=
  let dict_progress :=
    default ∅ (UserProgress.dictionaries_progress (progress self) !! dict_id) in
  let values := map snd (map_to_list dict_progress) in
  match values with
  | [] => mk_dictionary_progress 0 0 0%Q 0 0 0 None
  | _ :: _ =>
      let total_words := Z.of_nat (length values) in
      let words_mastered :=
        sum_of (fun wp => 1)
          (List.filter (fun wp => WordProgress.times_mastered wp >? 0) values) in
      let total_attempts :=
        sum_of (fun wp => WordProgress.total_correct wp
                          + WordProgress.total_incorrect wp) values in
      let total_correct := sum_of WordProgress.total_correct values in
      let total_incorrect := sum_of WordProgress.total_incorrect values in
      let success_rate :=
        if total_attempts >? 0
        then py_fmul (py_truediv total_correct total_attempts) 100
        else 0%Q in
      mk_dictionary_progress total_words words_mastered success_rate
        total_attempts total_correct total_incorrect
        (max_time (omap WordProgress.last_attempted values))
  end.

(** The dict that [get_total_progress] returns. *)
Record total_progress : Type := mk_total_progress {
  tp_total_sessions : Z;
  tp_total_words_learned : Z;
  tp_total_attempts : Z;
  tp_total_correct : Z;
  tp_total_incorrect : Z;
  tp_success_rate : Q;
  tp_last_activity : option Z
}.

(** [ProgressTracker.get_total_progress] *)
Definition get_total_progress (self : t) : total_progress :=
  let total_attempts := UserProgress.total_attempts (progress self) in
  let total_correct := UserProgress.total_correct (progress self) in
  let success_rate :=
    if total_attempts >? 0
    then py_fmul (py_truediv total_correct total_attempts) 100
    else 0%Q in
  mk_total_progress
    (UserProgress.total_sessions (progress self))
    (UserProgress.total_words_learned (progress self))
    total_attempts total_correct
    (UserProgress.total_incorrect (progress self))
    success_rate
    (UserProgress.last_activity (progress self)).

End ProgressTracker.

(** ** The specification's wording of the mastery predicate and of the
    state of an item *)

(** The success ratio of an item: [correctCount / totalAttempts], taken as 0
    when there was no attempt. *)
Definition spec_success_ratio (w : Word.t) : Q :=
  if Word.total_attempts w =? 0 then 0%Q
  else (inject_Z (Word.correct_count w) / inject_Z (Word.total_attempts w))%Q.

(** The success ratio as the code computes it: the double nearest to
    [correctCount / totalAttempts], and 0 when there was no attempt. *)
Definition float_success_ratio (w : Word.t) : Q :=
  if Word.total_attempts w =? 0 then 0%Q
  else py_truediv (Word.correct_count w) (Word.total_attempts w).

(** The four-part mastery condition with the ratio computed in floating
    point. *)
Definition float_mastery_condition (cfg : Settings) (w : Word.t) : Prop :=
  MASTERY_CONSECUTIVE_CORRECT cfg <= Word.consecutive_correct w /\
  MASTERY_MIN_ATTEMPTS cfg <= Word.total_attempts w /\
  MASTERY_MIN_ATTEMPTS cfg <= Word.correct_count w /\
  (MASTERY_SUCCESS_RATE cfg <= float_success_ratio w)%Q.

(** The four-part mastery condition. *)
Definition spec_mastery_condition (cfg : Settings) (w : Word.t) : Prop :=
  MASTERY_CONSECUTIVE_CORRECT cfg <= Word.consecutive_correct w /\
  MASTERY_MIN_ATTEMPTS cfg <= Word.total_attempts w /\
  MASTERY_MIN_ATTEMPTS cfg <= Word.correct_count w /\
  (MASTERY_SUCCESS_RATE cfg <= spec_success_ratio w)%Q.

(** The state invariant of an item. *)
Definition word_invariant (w : Word.t) : Prop :=
  Word.total_attempts w = Word.correct_count w + Word.incorrect_count w /\
  0 <= Word.consecutive_correct w /\
  0 <= Word.total_attempts w /\
  0 <= Word.correct_count w /\
  0 <= Word.incorrect_count w /\
  1 <= Word.priority_score w <= 100.

(** The item after a sequence of answers, oldest first. *)
Definition apply_answers (cfg : Settings) (w : Word.t) (answers : list bool)
  : Word.t :=
  fold_left (fun w a => fst (AdaptiveLearning.update_word_status cfg w a))
            answers w.

(** The pool of a session: a mapping from the text of an item to the
    item, with pairwise distinct keys. *)
Definition pool_wf (words : PyDict.t Word.t) : Prop :=
  PyDict.wf words /\ forall k w, In (k, w) words -> Word.text w = k.

(** An item has a recent error when it has errors and no running streak. *)
Definition has_recent_error (w : Word.t) : bool :=
  (Word.incorrect_count w >? 0) && (Word.consecutive_correct w =? 0).

(** [a] comes no later than [b] in the specification's order of the
    candidates: a recent error first, then the higher priority, then the
    fewer attempts. *)
Definition spec_no_later (a b : Word.t) : Prop :=
  (has_recent_error a = true /\ has_recent_error b = false)
  \/ (has_recent_error a = has_recent_error b /\
      (Word.priority_score a > Word.priority_score b
       \/ (Word.priority_score a = Word.priority_score b /\
           Word.total_attempts a <= Word.total_attempts b))).

(** The unmastered items in the order [get_next_word_by_priority] sorts
    them. *)
Definition candidates (words : PyDict.t Word.t) : list (string * Word.t) :=
  sort_by tuple3_ltb AdaptiveLearning.sort_key
    (List.filter (fun '(text, word) => negb (Word.is_mastered word))
                 (PyDict.items words)).

(** ** Runs of a session *)

(** [sum(f(word) for word in words.values())] *)
Definition pool_sum (f : Word.t -> Z) (words : PyDict.t Word.t) : Z :=
  fold_right Z.add 0 (map f (PyDict.values words)).

(** The sessions a run can reach: the constructor on [words_list], then any
    sequence of [get_next_word] and [record_answer]. *)
Inductive reachable (cfg : Settings) (words_list : list string)
  : LearningSession.t -> Prop :=
  | reach_init user_id dict_id dict_name uuid8 now s :
      LearningSession.init user_id dict_id dict_name words_list uuid8 now = Ok s ->
      reachable cfg words_list s
  | reach_next s s' r :
      reachable cfg words_list s ->
      LearningSession.get_next_word s = Some (s', r) ->
      reachable cfg words_list s'
  | reach_answer s word is_correct :
      reachable cfg words_list s ->
      reachable cfg words_list
        (fst (LearningSession.record_answer cfg s word is_correct)).

(** What a run keeps true of a session. *)
Record session_inv (words_list : list string) (s : LearningSession.t)
  : Prop := {
  inv_pool : pool_wf (LearningSession.words s);
  inv_keys : forall k, In k (PyDict.keys (LearningSession.words s))
                       <-> In k words_list;
  inv_items : forall k w, In (k, w) (LearningSession.words s) ->
                          word_invariant w;
  inv_total : SessionStats.total_words (LearningSession.stats s)
              = Z.of_nat (length words_list);
  inv_count : SessionStats.words_mastered (LearningSession.stats s)
              = Z.of_nat (length (SessionStats.words_mastered_list
                                    (LearningSession.stats s)));
  inv_nodup : NoDup (SessionStats.words_mastered_list (LearningSession.stats s));
  inv_listed : forall k w, In (k, w) (LearningSession.words s) ->
                           Word.is_mastered w = true ->
                           In k (SessionStats.words_mastered_list
                                   (LearningSession.stats s));
  inv_list_keys : forall k, In k (SessionStats.words_mastered_list
                                    (LearningSession.stats s)) ->
                            In k (PyDict.keys (LearningSession.words s));
  inv_correct : SessionStats.correct_answers (LearningSession.stats s)
                = pool_sum Word.correct_count (LearningSession.words s);
  inv_incorrect : SessionStats.incorrect_answers (LearningSession.stats s)
                  = pool_sum Word.incorrect_count (LearningSession.words s)
}.

(** The item [a] sorts strictly before the item [b] in
    [get_next_word_by_priority]. *)
Definition sorts_before (a b : string * Word.t) : Prop :=
  tuple3_ltb (AdaptiveLearning.sort_key a) (AdaptiveLearning.sort_key b) = true.

(** The record of [word] after [update_word_progress], from the record
    before. *)
Definition word_progress_after (old : WordProgress.t)
    (is_correct is_mastered : bool) (now : Z) : WordProgress.t :=
  WordProgress.mk (WordProgress.word old)
    (WordProgress.total_correct old + (if is_correct then 1 else 0))
    (WordProgress.total_incorrect old + (if is_correct then 0 else 1))
    (if is_mastered
     then (if WordProgress.times_mastered old =? 0 then 1
           else WordProgress.times_mastered old + 1)
     else WordProgress.times_mastered old)
    (Some now).

(** ** Sample data *)

(** A session over the words "a" and "b" after its first call of
    [get_next_word]. *)
Definition example_session : LearningSession.t :=
  LearningSession.mk 1 "d1" "Dict" "0000abcd"
    [("a", Word.mk "a" 0 0 0 0 false 100);
     ("b", Word.mk "b" 0 0 0 0 false 100)]
    (Some "a") 1
    (SessionStats.mk "0000abcd" 1 "d1" "Dict" 0 None 2 0 0 0 []).

(** The same session after a correct answer for "a". *)
Definition example_session_answered : LearningSession.t :=
  fst (LearningSession.record_answer default_settings example_session "a" true).

(** An item with a streak of 3 whose ratio of correct answers is just below
    three quarters: 299999999999999999 of 400000000000000000. *)
Definition example_word_rounding : Word.t :=
  Word.mk "a" 3 400000000000000000 299999999999999999 100000000000000001
          false 100.

(** Session statistics with one correct and one incorrect answer. *)
Definition example_stats : SessionStats.t :=
  SessionStats.mk "0000abcd" 1 "d1" "Dict" 0 None 2 1 1 0 [].

(** Session statistics with one correct and two incorrect answers. *)
Definition example_stats_third : SessionStats.t :=
  SessionStats.mk "0000abcd" 1 "d1" "Dict" 0 None 3 1 2 0 [].

(** A tracker with a new profile, and the same after one call of
    [update_word_progress] for a correct, mastering answer on "a". *)
Definition example_tracker_new : ProgressTracker.t :=
  ProgressTracker.mk 1 (UserProgress.new 1 0).

Definition example_tracker : ProgressTracker.t :=
  snd (fst (ProgressTracker.update_word_progress example_tracker_new
              "d1" "a" true true 1 2 ∅)).

(** * Properties *)

(** ** Rounding to the nearest double *)

Section Rounding.
Local Open Scope Q_scope.

Lemma two_pos (e : Z) : 0 < 2 ^ e.
Proof. apply Qpower_0_lt. reflexivity. Qed.

Lemma two_plus (a b : Z) : 2 ^ (a + b) == 2 ^ a * 2 ^ b.
Proof. apply Qpower_plus. discriminate. Qed.

Lemma two_le (a b : Z) : (a <= b)%Z -> 2 ^ a <= 2 ^ b.
Proof. intros H. apply Qpower_le_compat_l; [exact H | discriminate]. Qed.

Lemma two_cancel (e : Z) : 2 ^ (- e) * 2 ^ e == 1.
Proof. rewrite <- two_plus. replace (- e + e)%Z with 0%Z by lia. reflexivity. Qed.

Lemma two_inject (n : Z) : (0 <= n)%Z -> inject_Z (2 ^ n) == 2 ^ n.
Proof. intros H. apply (Zpower_Qpower 2 n H). Qed.

Lemma floor_log2_spec (x : Q) :
  0 < x -> 2 ^ floor_log2 x <= x /\ x < 2 ^ (floor_log2 x + 1).
Proof.
  intros Hx. unfold floor_log2.
  destruct (Qle_bool 1 x) eqn:H1.
  - apply Qle_bool_iff in H1.
    assert (Hn : (1 <= Qfloor x)%Z).
    { change 1%Z with (Qfloor 1). apply Qfloor_resp_le, H1. }
    pose proof (Z.log2_spec (Qfloor x) ltac:(lia)) as [Hlo Hhi].
    pose proof (Z.log2_nonneg (Qfloor x)) as Hnn.
    split.
    + rewrite <- two_inject by exact Hnn.
      eapply Qle_trans; [| apply Qfloor_le]. rewrite <- Zle_Qle. exact Hlo.
    + rewrite <- two_inject by lia.
      eapply Qlt_le_trans; [apply Qlt_floor |]. rewrite <- Zle_Qle.
      change (Z.succ (Z.log2 (Qfloor x))) with (Z.log2 (Qfloor x) + 1)%Z in Hhi.
      lia.
  - assert (Hlt : x < 1).
    { apply Qnot_le_lt. intros H. apply Qle_bool_iff in H. congruence. }
    assert (Hinv : 1 < / x).
    { apply Qmult_lt_l with (z := x); [exact Hx |].
      rewrite Qmult_inv_r, Qmult_1_r; [exact Hlt |].
      intros E. rewrite E in Hx. discriminate. }
    assert (Hinvpos : 0 < / x) by (apply Qinv_lt_0_compat, Hx).
    set (m := Qceiling (/ x)).
    assert (Hm : (1 < m)%Z).
    { apply Z.lt_nge. intros Hle. rewrite Zle_Qle in Hle.
      pose proof (Qle_ceiling (/ x)).
      apply (Qlt_irrefl 1). eapply Qlt_le_trans; [exact Hinv |].
      eapply Qle_trans; eassumption. }
    pose proof (Z.log2_up_spec m Hm) as [Hlo Hhi].
    set (K := Z.log2_up m) in *.
    assert (HK : (0 < K)%Z) by (apply Z.log2_up_pos, Hm).
    assert (Hx0 : ~ x == 0) by (intros E; rewrite E in Hx; discriminate).
    split.
    + rewrite Qpower_opp.
      assert (Hle : / x <= 2 ^ K).
      { eapply Qle_trans; [apply Qle_ceiling |]. fold m.
        rewrite <- two_inject by lia. rewrite <- Zle_Qle. exact Hhi. }
      apply Qmult_le_l with (z := / x); [exact Hinvpos |].
      rewrite (Qmult_comm (/ x) x), Qmult_inv_r by exact Hx0.
      apply Qmult_le_r with (z := 2 ^ K); [apply two_pos |].
      rewrite <- Qmult_assoc, (Qmult_comm (/ 2 ^ K)), Qmult_inv_r, Qmult_1_r, Qmult_1_l;
        [exact Hle |].
      intros E. pose proof (two_pos K) as Hp. rewrite E in Hp. discriminate.
    + replace (- K + 1)%Z with (- (K - 1))%Z by lia. rewrite Qpower_opp.
      assert (Hgt : 2 ^ (K - 1) < / x).
      { rewrite <- two_inject by lia.
        eapply Qle_lt_trans; [| apply (Qceiling_lt (/ x))]. fold m.
        rewrite <- Zle_Qle.
        change (Z.pred K) with (K - 1)%Z in Hlo. lia. }
      apply Qmult_lt_l with (z := / x); [exact Hinvpos |].
      rewrite (Qmult_comm (/ x) x), Qmult_inv_r by exact Hx0.
      apply Qmult_lt_r with (z := 2 ^ (K - 1)); [apply two_pos |].
      rewrite <- Qmult_assoc, (Qmult_comm (/ 2 ^ (K - 1))), Qmult_inv_r,
        Qmult_1_r, Qmult_1_l; [exact Hgt |].
      intros E. pose proof (two_pos (K - 1)) as Hp. rewrite E in Hp. discriminate.
Qed.

Lemma two_lt_inv (a b : Z) : 2 ^ a < 2 ^ b -> (a < b)%Z.
Proof.
  intros H. apply Z.lt_nge. intros Hle.
  apply (Qlt_irrefl (2 ^ a)). eapply Qlt_le_trans; [exact H | apply two_le, Hle].
Qed.

Lemma floor_log2_mono (x y : Q) :
  0 < x -> x <= y -> (floor_log2 x <= floor_log2 y)%Z.
Proof.
  intros Hx Hxy.
  assert (Hy : 0 < y) by (eapply Qlt_le_trans; eassumption).
  destruct (floor_log2_spec x Hx) as [Hlo _].
  destruct (floor_log2_spec y Hy) as [_ Hhi].
  assert (H : 2 ^ floor_log2 x < 2 ^ (floor_log2 y + 1)).
  { eapply Qle_lt_trans; [exact Hlo |].
    eapply Qle_lt_trans; [exact Hxy | exact Hhi]. }
  apply two_lt_inv in H. lia.
Qed.

Lemma round_half_even_bounds (s : Q) :
  (Qfloor s <= round_half_even s <= Qfloor s + 1)%Z.
Proof.
  unfold round_half_even.
  destruct (s - inject_Z (Qfloor s) ?= 1 # 2); try lia.
  destruct (Z.even (Qfloor s)); lia.
Qed.

Lemma round_half_even_mono (s t : Q) :
  s <= t -> (round_half_even s <= round_half_even t)%Z.
Proof.
  intros Hst. pose proof (Qfloor_resp_le s t Hst) as Hfl.
  destruct (Z.eq_dec (Qfloor s) (Qfloor t)) as [E | NE].
  - unfold round_half_even. rewrite <- E.
    assert (Hf : s - inject_Z (Qfloor s) <= t - inject_Z (Qfloor s)).
    { apply Qplus_le_l with (z := inject_Z (Qfloor s)). ring_simplify. exact Hst. }
    destruct (Qcompare_spec (s - inject_Z (Qfloor s)) (1 # 2)) as [Es | Ls | Gs];
      destruct (Qcompare_spec (t - inject_Z (Qfloor s)) (1 # 2)) as [Et | Lt' | Gt'];
      try destruct (Z.even (Qfloor s)); try lia; exfalso; lra.
  - pose proof (round_half_even_bounds s). pose proof (round_half_even_bounds t).
    lia.
Qed.

Lemma round_half_even_Z (k : Z) : round_half_even (inject_Z k) = k.
Proof.
  unfold round_half_even. rewrite Qfloor_Z.
  destruct (Qcompare_spec (inject_Z k - inject_Z k) (1 # 2)) as [E | L | G].
  - exfalso. lra.
  - reflexivity.
  - exfalso. lra.
Qed.

Lemma round_half_even_le (s : Q) (k : Z) :
  s <= inject_Z k -> (round_half_even s <= k)%Z.
Proof.
  intros H. rewrite <- (round_half_even_Z k). apply round_half_even_mono, H.
Qed.

Lemma round_half_even_ge (s : Q) (k : Z) :
  inject_Z k <= s -> (k <= round_half_even s)%Z.
Proof.
  intros H. rewrite <- (round_half_even_Z k). apply round_half_even_mono, H.
Qed.

Lemma scaled_lt (x : Q) :
  0 < x -> x * 2 ^ (- double_exp x) < inject_Z (2 ^ 53).
Proof.
  intros Hx. destruct (floor_log2_spec x Hx) as [_ Hhi].
  set (L := floor_log2 x) in *. unfold double_exp. fold L.
  set (e := Z.max (L - 52) (-1074)).
  apply Qlt_le_trans with (y := 2 ^ (L + 1) * 2 ^ (- e)).
  - apply Qmult_lt_compat_r; [apply two_pos | exact Hhi].
  - rewrite <- two_plus, two_inject by lia. apply two_le. lia.
Qed.

Lemma scaled_ge (x : Q) :
  0 < x -> (-1074 < double_exp x)%Z ->
  inject_Z (2 ^ 52) <= x * 2 ^ (- double_exp x).
Proof.
  intros Hx He. destruct (floor_log2_spec x Hx) as [Hlo _].
  set (L := floor_log2 x) in *. unfold double_exp in *. fold L in He |- *.
  replace (Z.max (L - 52) (-1074)) with (L - 52)%Z in * by lia.
  apply Qle_trans with (y := 2 ^ L * 2 ^ (- (L - 52))).
  - rewrite <- two_plus, two_inject by lia. apply two_le. lia.
  - apply Qmult_le_compat_r; [exact Hlo | apply Qlt_le_weak, two_pos].
Qed.

Lemma round_double_pos_unfold (x : Q) :
  round_double_pos x
  = inject_Z (round_half_even (x * 2 ^ (- double_exp x))) * 2 ^ double_exp x.
Proof. reflexivity. Qed.

Lemma round_double_pos_nonneg (x : Q) : 0 < x -> 0 <= round_double_pos x.
Proof.
  intros Hx. rewrite round_double_pos_unfold.
  apply Qmult_le_0_compat; [| apply Qlt_le_weak, two_pos].
  change 0 with (inject_Z 0). rewrite <- Zle_Qle.
  apply round_half_even_ge. change (inject_Z 0) with 0.
  apply Qmult_le_0_compat; [apply Qlt_le_weak, Hx | apply Qlt_le_weak, two_pos].
Qed.

Lemma round_double_pos_mono (x y : Q) :
  0 < x -> x <= y -> round_double_pos x <= round_double_pos y.
Proof.
  intros Hx Hxy.
  assert (Hy : 0 < y) by (eapply Qlt_le_trans; eassumption).
  rewrite !round_double_pos_unfold.
  assert (He : (double_exp x <= double_exp y)%Z).
  { unfold double_exp. pose proof (floor_log2_mono x y Hx Hxy). lia. }
  destruct (Z.eq_dec (double_exp x) (double_exp y)) as [E | NE].
  - rewrite <- E. apply Qmult_le_compat_r; [| apply Qlt_le_weak, two_pos].
    rewrite <- Zle_Qle. apply round_half_even_mono.
    apply Qmult_le_compat_r; [exact Hxy | apply Qlt_le_weak, two_pos].
  - assert (Hlt : (double_exp x < double_exp y)%Z) by lia.
    assert (Hey : (-1074 < double_exp y)%Z) by (unfold double_exp in *; lia).
    pose proof (round_half_even_le _ _ (Qlt_le_weak _ _ (scaled_lt x Hx))) as Hnx.
    pose proof (round_half_even_ge _ _ (scaled_ge y Hy Hey)) as Hny.
    apply Qle_trans with (y := inject_Z (2 ^ 53) * 2 ^ double_exp x).
    + apply Qmult_le_compat_r; [| apply Qlt_le_weak, two_pos].
      rewrite <- Zle_Qle. exact Hnx.
    + apply Qle_trans with (y := inject_Z (2 ^ 52) * 2 ^ double_exp y).
      * rewrite !two_inject by lia. rewrite <- !two_plus. apply two_le. lia.
      * apply Qmult_le_compat_r; [| apply Qlt_le_weak, two_pos].
        rewrite <- Zle_Qle. exact Hny.
Qed.

Lemma round_double_mono (x y : Q) :
  x <= y -> round_double x <= round_double y.
Proof.
  intros Hxy. unfold round_double.
  destruct (Qcompare_spec x 0) as [Ex | Lx | Gx];
    destruct (Qcompare_spec y 0) as [Ey | Ly | Gy].
  - apply Qle_refl.
  - exfalso. lra.
  - apply round_double_pos_nonneg, Gy.
  - apply (Qopp_le_compat 0), round_double_pos_nonneg. lra.
  - apply Qopp_le_compat, round_double_pos_mono; lra.
  - apply Qle_trans with (y := 0).
    + apply (Qopp_le_compat 0), round_double_pos_nonneg. lra.
    + apply round_double_pos_nonneg, Gy.
  - exfalso. lra.
  - exfalso. lra.
  - apply round_double_pos_mono; assumption.
Qed.

Lemma round_double_compat (x y : Q) : x == y -> round_double x == round_double y.
Proof.
  intros E. apply Qle_antisym; apply round_double_mono; rewrite E; apply Qle_refl.
Qed.

Lemma py_truediv_mono (a b c d : Z) :
  (0 < b)%Z -> (0 < d)%Z -> (a * d <= c * b)%Z ->
  py_truediv a b <= py_truediv c d.
Proof.
  intros Hb Hd H. apply round_double_mono.
  destruct b as [| pb | pb]; try lia. destruct d as [| pd | pd]; try lia.
  unfold Qle, Qdiv, Qmult, Qinv, inject_Z. cbn. nia.
Qed.

End Rounding.

Lemma py_truediv_same (n : Z) : 0 < n -> (py_truediv n n == 1)%Q.
Proof.
  intros Hn. apply Qle_antisym.
  - apply Qle_trans with (y := py_truediv 1 1);
      [apply py_truediv_mono; lia | vm_compute; discriminate].
  - apply Qle_trans with (y := py_truediv 1 1);
      [vm_compute; discriminate | apply py_truediv_mono; lia].
Qed.

Lemma py_truediv_unit_interval (a b : Z) :
  0 <= a <= b -> 0 < b -> (0 <= py_truediv a b <= 1)%Q.
Proof.
  intros Ha Hb. split.
  - apply Qle_trans with (y := py_truediv 0 1);
      [vm_compute; discriminate | apply py_truediv_mono; lia].
  - apply Qle_trans with (y := py_truediv 1 1);
      [apply py_truediv_mono; lia | vm_compute; discriminate].
Qed.

(** With at most [2 ^ 51] attempts, rounding the ratio does not move it
    across three quarters. *)
Lemma py_truediv_three_quarters (a b : Z) :
  0 < b <= 2 ^ 51 ->
  ((3 # 4) <= py_truediv a b)%Q <-> ((3 # 4) <= inject_Z a / inject_Z b)%Q.
Proof.
  intros Hb.
  assert (Hq : forall n d : Z, 0 < d ->
            ((n # Z.to_pos d) == inject_Z n / inject_Z d)%Q).
  { intros n d Hd. destruct d as [| pd | pd]; try lia.
    unfold Qeq, Qdiv, Qmult, Qinv, inject_Z. cbn. lia. }
  assert (Hexact : ((3 # 4) <= inject_Z a / inject_Z b)%Q <-> 3 * b <= 4 * a).
  { destruct b as [| pb | pb]; try lia.
    unfold Qle, Qdiv, Qmult, Qinv, inject_Z. cbn. lia. }
  rewrite Hexact. split.
  - intros Hr. apply Z.le_ngt. intros Hlt.
    assert (Hle : (py_truediv a b
                   <= py_truediv (3 * 2 ^ 51 - 1) (2 ^ 53))%Q)
      by (apply py_truediv_mono; lia).
    assert (Hp : (py_truediv (3 * 2 ^ 51 - 1) (2 ^ 53) < 3 # 4)%Q)
      by (vm_compute; reflexivity).
    apply (Qlt_irrefl (3 # 4)).
    eapply Qle_lt_trans; [exact Hr |]. eapply Qle_lt_trans; eassumption.
  - intros Hge.
    apply Qle_trans with (y := py_truediv 3 4);
      [vm_compute; discriminate | apply py_truediv_mono; lia].
Qed.

(** ** The mastery predicate *)

Lemma Qltb_false_iff (x y : Q) : Qltb x y = false <-> (y <= x)%Q.
Proof.
  unfold Qltb. rewrite negb_false_iff. apply Qle_bool_iff.
Qed.

Lemma success_rate_agrees (w : Word.t) :
  0 <= Word.total_attempts w ->
  (if Word.total_attempts w >? 0
   then py_truediv (Word.correct_count w) (Word.total_attempts w)
   else 0%Q) = float_success_ratio w.
Proof.
  intros Hta. unfold float_success_ratio.
  destruct (Z.gtb_spec (Word.total_attempts w) 0) as [Hgt | Hle];
    destruct (Z.eqb_spec (Word.total_attempts w) 0) as [Heq | Hne];
    try reflexivity; lia.
Qed.

Lemma is_word_mastered_float_iff (cfg : Settings) (w : Word.t) :
  0 <= Word.total_attempts w ->
  AdaptiveLearning.is_word_mastered cfg w = true
  <-> float_mastery_condition cfg w.
Proof.
  intros Hta.
  unfold AdaptiveLearning.is_word_mastered, float_mastery_condition.
  rewrite (success_rate_agrees w Hta).
  destruct (Z.ltb_spec (Word.consecutive_correct w)
                       (MASTERY_CONSECUTIVE_CORRECT cfg)) as [H1 | H1].
  { split; [discriminate | intros (H & _); lia]. }
  destruct (Z.ltb_spec (Word.total_attempts w) (MASTERY_MIN_ATTEMPTS cfg))
    as [H2 | H2].
  { split; [discriminate | intros (_ & H & _); lia]. }
  destruct (Z.ltb_spec (Word.correct_count w) (MASTERY_MIN_ATTEMPTS cfg))
    as [H3 | H3].
  { split; [discriminate | intros (_ & _ & H & _); lia]. }
  destruct (Qltb (float_success_ratio w) (MASTERY_SUCCESS_RATE cfg)) eqn:H4.
  - split; [discriminate |].
    intros (_ & _ & _ & H). apply Qltb_false_iff in H. congruence.
  - apply Qltb_false_iff in H4. split; [| reflexivity].
    intros _. repeat split; assumption.
Qed.

(** C1, as stated, fails: with a streak of 3 and 299999999999999999 correct
    answers in 400000000000000000 attempts the ratio is below three
    quarters, yet the predicate returns [True], because the quotient
    rounds to the float 0.75. *)
Lemma C1_counterexample :
  word_invariant example_word_rounding /\
  AdaptiveLearning.is_word_mastered default_settings example_word_rounding
  = true /\
  ~ spec_mastery_condition default_settings example_word_rounding.
Proof.
  split; [unfold word_invariant; cbn; lia |].
  split; [vm_compute; reflexivity |].
  intros (_ & _ & _ & H). vm_compute in H. apply H. reflexivity.
Qed.

(** C1, amended. For every item whose correct answers are between 0 and
    its attempts, [is_word_mastered] returns [true] exactly when the four
    conditions hold together, the ratio being the float the division
    yields: the streak and both counts reach their thresholds and the
    double nearest to [correct_count / total_attempts] (0 without
    attempts) reaches the required rate; it returns [false] as soon as one
    of them fails.  When the required rate is three quarters and there are
    at most [2 ^ 51] attempts, the rounding makes no difference and the
    condition is the one on the exact ratio. *)
Theorem C1_is_word_mastered_iff (cfg : Settings) (w : Word.t) :
  0 <= Word.correct_count w <= Word.total_attempts w ->
  (AdaptiveLearning.is_word_mastered cfg w = true
   <-> float_mastery_condition cfg w)
  /\ (~ float_mastery_condition cfg w ->
      AdaptiveLearning.is_word_mastered cfg w = false)
  /\ ((MASTERY_SUCCESS_RATE cfg == 3 # 4)%Q ->
      Word.total_attempts w <= 2 ^ 51 ->
      (AdaptiveLearning.is_word_mastered cfg w = true
       <-> spec_mastery_condition cfg w)).
Proof.
  intros Hc.
  assert (Hta : 0 <= Word.total_attempts w) by lia.
  pose proof (is_word_mastered_float_iff cfg w Hta) as Hiff.
  split; [exact Hiff |]. split.
  - intros Hn. destruct (AdaptiveLearning.is_word_mastered cfg w) eqn:E;
      [| reflexivity].
    exfalso. apply Hn, Hiff. reflexivity.
  - intros Hrate Hsmall. rewrite Hiff.
    unfold float_mastery_condition, spec_mastery_condition,
      float_success_ratio, spec_success_ratio.
    destruct (Z.eqb_spec (Word.total_attempts w) 0) as [E0 | N0];
      [reflexivity |].
    rewrite !Hrate.
    rewrite (py_truediv_three_quarters (Word.correct_count w)
               (Word.total_attempts w)) by lia.
    reflexivity.
Qed.

Lemma C1_is_word_mastered_iff_witness :
  let w := Word.mk "a" 3 4 3 1 false 40 in
  0 <= Word.correct_count w <= Word.total_attempts w /\
  (AdaptiveLearning.is_word_mastered default_settings w = true
   <-> float_mastery_condition default_settings w) /\
  (AdaptiveLearning.is_word_mastered default_settings w = true
   <-> spec_mastery_condition default_settings w).
Proof.
  intros w.
  assert (H : 0 <= Word.correct_count w <= Word.total_attempts w)
    by (cbn; lia).
  destruct (C1_is_word_mastered_iff default_settings w H) as (H1 & _ & H3).
  split; [exact H |]. split; [exact H1 |].
  apply H3; [reflexivity | cbn; lia].
Defined.

(** ** The answer update *)

(** C3. After an incorrect answer the streak is 0, the error and attempt
    counts have grown by one, the mastery flag is off whatever it was, the
    priority is [min(100, priority + 30)], and the text and the count of
    correct answers are as before.  An item mastered with streak 3, 3
    attempts and 3 correct answers ends with streak 0, 4 attempts, 1 error
    and no mastery. *)
Theorem C3_incorrect_answer (cfg : Settings) (w : Word.t) :
  let w' := fst (AdaptiveLearning.update_word_status cfg w false) in
  (Word.consecutive_correct w' = 0 /\
   Word.incorrect_count w' = Word.incorrect_count w + 1 /\
   Word.total_attempts w' = Word.total_attempts w + 1 /\
   Word.is_mastered w' = false /\
   Word.priority_score w' = Z.min 100 (Word.priority_score w + 30) /\
   Word.correct_count w' = Word.correct_count w /\
   Word.text w' = Word.text w /\
   snd (AdaptiveLearning.update_word_status cfg w false) = true)
  /\ (forall (text : string) (p : Z),
        AdaptiveLearning.is_word_mastered default_settings
          (Word.mk text 3 3 3 0 true p) = true /\
        fst (AdaptiveLearning.update_word_status cfg
               (Word.mk text 3 3 3 0 true p) false)
        = Word.mk text 0 4 3 1 false (Z.min 100 (p + 30))).
Proof.
  split.
  - repeat split.
  - intros text p. split; reflexivity.
Qed.

(** ** The state invariant *)

Lemma update_word_status_invariant (cfg : Settings) (w : Word.t) (a : bool) :
  word_invariant w ->
  word_invariant (fst (AdaptiveLearning.update_word_status cfg w a)).
Proof.
  unfold word_invariant, AdaptiveLearning.update_word_status.
  intros (Hsum & Hcc & Hta & Hc & Hi & Hlo & Hhi).
  destruct a; cbn [fst].
  - match goal with
    | |- context [if ?b then _ else _] => destruct b
    end; cbn; lia.
  - cbn; lia.
Qed.

Lemma apply_answers_invariant (cfg : Settings) (answers : list bool) :
  forall w, word_invariant w -> word_invariant (apply_answers cfg w answers).
Proof.
  unfold apply_answers.
  induction answers as [| a answers IH]; intros w Hw; cbn [fold_left].
  - exact Hw.
  - apply IH, update_word_status_invariant, Hw.
Qed.

(** C7. Every item reached from a freshly created one by a sequence of
    answer updates satisfies the state invariant: the attempts are the sum
    of the correct and incorrect answers, no counter is negative, and the
    priority lies between 1 and 100. *)
Theorem C7_reachable_invariant (cfg : Settings) (text : string) (w0 : Word.t)
    (answers : list bool) :
  Word.new text = Ok w0 ->
  word_invariant (apply_answers cfg w0 answers).
Proof.
  unfold Word.new. intros Hnew.
  destruct (String.eqb text ""); [discriminate |].
  injection Hnew as <-.
  apply apply_answers_invariant.
  unfold word_invariant; cbn. lia.
Qed.

Lemma C7_reachable_invariant_witness :
  Word.new "a" = Ok (Word.mk "a" 0 0 0 0 false 100) /\
  word_invariant
    (apply_answers default_settings (Word.mk "a" 0 0 0 0 false 100)
       [true; false; true; true; true]).
Proof.
  split; [reflexivity |].
  apply (C7_reachable_invariant default_settings "a"). reflexivity.
Defined.

(** ** Sorting by a key *)

Section SortFacts.
Context {A K : Type} (ltb : K -> K -> bool) (key : A -> K).

Hypothesis ltb_irrefl : forall a, ltb a a = false.
Hypothesis ltb_asym : forall a b, ltb a b = true -> ltb b a = false.
Hypothesis ltb_negtrans :
  forall a b c, ltb a b = false -> ltb b c = false -> ltb a c = false.

Lemma insert_by_In (x y : A) (l : list A) :
  In y (insert_by ltb key x l) <-> y = x \/ In y l.
Proof.
  induction l as [| h l IH]; cbn.
  - intuition congruence.
  - destruct (ltb (key h) (key x)); cbn; rewrite ?IH; intuition congruence.
Qed.

Lemma sort_by_In (y : A) (l : list A) :
  In y (sort_by ltb key l) <-> In y l.
Proof.
  induction l as [| x l IH].
  - reflexivity.
  - change (sort_by ltb key (x :: l))
      with (insert_by ltb key x (sort_by ltb key l)).
    rewrite insert_by_In, IH. cbn. intuition congruence.
Qed.

Lemma sort_by_nil (l : list A) : sort_by ltb key l = [] -> l = [].
Proof.
  destruct l as [| x l]; [reflexivity |].
  intros H. exfalso.
  assert (Hin : In x (sort_by ltb key (x :: l))).
  { apply sort_by_In. left. reflexivity. }
  rewrite H in Hin. destruct Hin.
Qed.

(** The head of the sorted list has a key that no other key is strictly
    below. *)
Lemma sort_by_head_minimal (l : list A) :
  forall m rest, sort_by ltb key l = m :: rest ->
  forall y, In y l -> ltb (key y) (key m) = false.
Proof.
  induction l as [| x l IH]; intros m rest Hs y Hy.
  - destruct Hy.
  - change (sort_by ltb key (x :: l))
      with (insert_by ltb key x (sort_by ltb key l)) in Hs.
    destruct (sort_by ltb key l) as [| h t] eqn:Hl.
    + apply sort_by_nil in Hl. subst l.
      cbn in Hs. injection Hs as <- <-.
      destruct Hy as [<- | []]. apply ltb_irrefl.
    + cbn in Hs. specialize (IH h t eq_refl).
      destruct (ltb (key h) (key x)) eqn:Hhx.
      * injection Hs as <- <-.
        destruct Hy as [<- | Hy]; [apply ltb_asym, Hhx | apply IH, Hy].
      * injection Hs as <- <-.
        destruct Hy as [<- | Hy]; [apply ltb_irrefl |].
        apply ltb_negtrans with (b := key h); [apply IH, Hy | exact Hhx].
Qed.
End SortFacts.

Lemma tuple3_ltb_irrefl (a : Z * Z * Z) : tuple3_ltb a a = false.
Proof.
  destruct a as [[a1 a2] a3]. unfold tuple3_ltb.
  rewrite !Z.ltb_irrefl. reflexivity.
Qed.

Ltac case_ltb :=
  repeat match goal with
  | |- context [?a <? ?b] => destruct (Z.ltb_spec a b)
  | H : context [?a <? ?b] |- _ => destruct (Z.ltb_spec a b)
  end.

Lemma tuple3_ltb_asym (a b : Z * Z * Z) :
  tuple3_ltb a b = true -> tuple3_ltb b a = false.
Proof.
  destruct a as [[a1 a2] a3], b as [[b1 b2] b3]. unfold tuple3_ltb.
  case_ltb; intros; try reflexivity; try discriminate; lia.
Qed.

Lemma tuple3_ltb_negtrans (a b c : Z * Z * Z) :
  tuple3_ltb a b = false -> tuple3_ltb b c = false -> tuple3_ltb a c = false.
Proof.
  destruct a as [[a1 a2] a3], b as [[b1 b2] b3], c as [[c1 c2] c3].
  unfold tuple3_ltb.
  case_ltb; intros; try reflexivity; try discriminate; lia.
Qed.

(** ** Selection of the next word *)

Lemma candidates_In (words : PyDict.t Word.t) (k : string) (w : Word.t) :
  In (k, w) (candidates words) <-> In (k, w) words /\ Word.is_mastered w = false.
Proof.
  unfold candidates, PyDict.items.
  rewrite sort_by_In, filter_In, negb_true_iff. reflexivity.
Qed.

Lemma candidates_nil (words : PyDict.t Word.t) :
  candidates words = [] <->
  forall w, In w (PyDict.values words) -> Word.is_mastered w = true.
Proof.
  split.
  - intros Hnil w Hw. unfold PyDict.values in Hw.
    apply in_map_iff in Hw as ([k w'] & <- & Hin). cbn.
    destruct (Word.is_mastered w') eqn:E; [reflexivity | exfalso].
    assert (Hc : In (k, w') (candidates words)) by (apply candidates_In; auto).
    rewrite Hnil in Hc. destruct Hc.
  - intros Hall. destruct (candidates words) as [| [k w] rest] eqn:E;
      [reflexivity | exfalso].
    assert (Hc : In (k, w) (candidates words)) by (rewrite E; left; reflexivity).
    apply candidates_In in Hc as [Hin Hm].
    rewrite (Hall w) in Hm; [discriminate |].
    unfold PyDict.values. apply in_map_iff. exists (k, w). auto.
Qed.

(** The defensive branch is never entered: the head of the candidates is
    unmastered, and any positive amount of fuel gives the result. *)
Lemma get_next_word_by_priority_fuel_eq (fuel : nat) (words : PyDict.t Word.t) :
  AdaptiveLearning.get_next_word_by_priority_fuel (S fuel) words
  = Some match candidates words with
         | [] => None
         | (selected_word, _) :: _ => Some selected_word
         end.
Proof.
  cbn [AdaptiveLearning.get_next_word_by_priority_fuel].
  fold (candidates words).
  destruct (candidates words) as [| [k w] rest] eqn:E; [reflexivity |].
  assert (Hc : In (k, w) (candidates words)) by (rewrite E; left; reflexivity).
  apply candidates_In in Hc as [_ Hm]. rewrite Hm. reflexivity.
Qed.

Lemma get_next_word_by_priority_eq (words : PyDict.t Word.t) :
  AdaptiveLearning.get_next_word_by_priority words
  = Some match candidates words with
         | [] => None
         | (selected_word, _) :: _ => Some selected_word
         end.
Proof. apply get_next_word_by_priority_fuel_eq. Qed.

Lemma wf_unique_value {V} (d : PyDict.t V) (k : string) (a b : V) :
  PyDict.wf d -> In (k, a) d -> In (k, b) d -> a = b.
Proof.
  unfold PyDict.wf, PyDict.keys.
  induction d as [| [k' v] d IH]; intros Hnd Ha Hb; [destruct Ha |].
  cbn in Hnd. apply NoDup_cons in Hnd as [Hnotin Hnd].
  rewrite list_elem_of_In in Hnotin.
  assert (Hkey : forall x, In (k', x) d -> False).
  { intros x Hx. apply Hnotin. apply in_map_iff. exists (k', x). auto. }
  destruct Ha as [Ha | Ha], Hb as [Hb | Hb].
  - congruence.
  - injection Ha as -> ->. exfalso. eapply Hkey, Hb.
  - injection Hb as -> ->. exfalso. eapply Hkey, Ha.
  - apply IH; assumption.
Qed.

(** C2. On a pool keyed by the texts of its items the selection returns a
    result, the result is never the text of a mastered item, and it is
    [None] exactly when every item of the pool is mastered. *)
Theorem C2_never_selects_mastered (words : PyDict.t Word.t) :
  pool_wf words ->
  exists r : option string,
    AdaptiveLearning.get_next_word_by_priority words = Some r /\
    (forall k, r = Some k ->
       forall w, In w (PyDict.values words) -> Word.text w = k ->
                 Word.is_mastered w = false) /\
    (r = None <->
       forall w, In w (PyDict.values words) -> Word.is_mastered w = true).
Proof.
  intros [Hwf Htext].
  rewrite get_next_word_by_priority_eq. eexists. split; [reflexivity |].
  destruct (candidates words) as [| [k0 w0] rest] eqn:E.
  - split; [discriminate |].
    split; [intros _; apply candidates_nil, E | reflexivity].
  - assert (Hc : In (k0, w0) (candidates words)) by (rewrite E; left; reflexivity).
    apply candidates_In in Hc as [Hin0 Hm0].
    split.
    + intros k [= <-] w Hw Ht.
      unfold PyDict.values in Hw. apply in_map_iff in Hw as ([k' w'] & Hw' & Hin).
      cbn in Hw'. subst w'.
      rewrite (Htext _ _ Hin) in Ht. subst k'.
      rewrite (wf_unique_value words k0 w w0 Hwf Hin Hin0). exact Hm0.
    + split; [discriminate |].
      intros Hall. apply candidates_nil in Hall. congruence.
Qed.

Lemma C2_never_selects_mastered_witness :
  let words := [("a", Word.mk "a" 3 3 3 0 true 40);
                ("b", Word.mk "b" 0 1 0 1 false 100);
                ("c", Word.mk "c" 0 0 0 0 false 100)] in
  pool_wf words /\
  exists r : option string,
    AdaptiveLearning.get_next_word_by_priority words = Some r /\
    (forall k, r = Some k ->
       forall w, In w (PyDict.values words) -> Word.text w = k ->
                 Word.is_mastered w = false) /\
    (r = None <->
       forall w, In w (PyDict.values words) -> Word.is_mastered w = true).
Proof.
  intros words.
  assert (Hwf : pool_wf words).
  { split.
    - unfold PyDict.wf. cbn.
      repeat (apply NoDup_cons; split;
              [rewrite list_elem_of_In; cbn; intuition discriminate |]).
      apply NoDup_nil_2.
    - intros k w Hin. cbn in Hin.
      repeat destruct Hin as [Hin | Hin]; try (injection Hin as <- <-; reflexivity).
      destruct Hin. }
  split; [exact Hwf |].
  exact (C2_never_selects_mastered words Hwf).
Defined.

Lemma sort_key_no_later (a b : string * Word.t) :
  tuple3_ltb (AdaptiveLearning.sort_key b) (AdaptiveLearning.sort_key a) = false ->
  spec_no_later (snd a) (snd b).
Proof.
  destruct a as [ka a], b as [kb b].
  unfold AdaptiveLearning.sort_key, tuple3_ltb, spec_no_later. cbn [snd].
  fold (has_recent_error a). fold (has_recent_error b).
  destruct (has_recent_error a), (has_recent_error b); cbn [int_of_bool];
    case_ltb; intros; try discriminate; try lia;
    solve [ left; split; reflexivity
          | right; split; [reflexivity | lia] ].
Qed.

(** C8. When the pool has an unmastered item, the selection returns the key
    of an unmastered item that comes no later than every unmastered item
    in the order: recent error first, then higher priority, then fewer
    attempts. *)
Theorem C8_selects_minimal (words : PyDict.t Word.t) :
  (exists k w, In (k, w) words /\ Word.is_mastered w = false) ->
  exists k w,
    AdaptiveLearning.get_next_word_by_priority words = Some (Some k) /\
    In (k, w) words /\ Word.is_mastered w = false /\
    forall k' w', In (k', w') words -> Word.is_mastered w' = false ->
                  spec_no_later w w'.
Proof.
  intros (k1 & w1 & Hin1 & Hm1).
  rewrite get_next_word_by_priority_eq.
  destruct (candidates words) as [| [k0 w0] rest] eqn:E.
  - exfalso.
    assert (Hc : In (k1, w1) (candidates words)) by (apply candidates_In; auto).
    rewrite E in Hc. destruct Hc.
  - exists k0, w0.
    assert (Hc : In (k0, w0) (candidates words)) by (rewrite E; left; reflexivity).
    apply candidates_In in Hc as [Hin0 Hm0].
    repeat split; try assumption.
    intros k' w' Hin' Hm'.
    apply (sort_key_no_later (k0, w0) (k', w')).
    unfold candidates in E.
    eapply (sort_by_head_minimal tuple3_ltb AdaptiveLearning.sort_key
              tuple3_ltb_irrefl tuple3_ltb_asym tuple3_ltb_negtrans _ _ _ E).
    apply filter_In. rewrite Hm'. auto.
Qed.

Lemma C8_selects_minimal_witness :
  let words := [("a", Word.mk "a" 3 3 3 0 true 40);
                ("b", Word.mk "b" 1 1 1 0 false 80);
                ("c", Word.mk "c" 0 2 1 1 false 100);
                ("d", Word.mk "d" 0 0 0 0 false 100)] in
  (exists k w, In (k, w) words /\ Word.is_mastered w = false) /\
  exists k w,
    AdaptiveLearning.get_next_word_by_priority words = Some (Some k) /\
    In (k, w) words /\ Word.is_mastered w = false /\
    forall k' w', In (k', w') words -> Word.is_mastered w' = false ->
                  spec_no_later w w'.
Proof.
  intros words.
  assert (H : exists k w, In (k, w) words /\ Word.is_mastered w = false).
  { exists "d", (Word.mk "d" 0 0 0 0 false 100). split; [| reflexivity].
    cbn. auto. }
  split; [exact H |].
  exact (C8_selects_minimal words H).
Defined.

(** ** Recording an answer *)

Lemma example_session_reachable :
  exists s0,
    LearningSession.init 1 "d1" "Dict" ["a"; "b"] "0000abcd" 0 = Ok s0 /\
    LearningSession.get_next_word s0 = Some (example_session, Some "a").
Proof. eexists. split; reflexivity. Qed.

(** What a call of [record_answer] for a word of the pool leaves behind. *)
Lemma record_answer_unfold (cfg : Settings) (s : LearningSession.t)
    (word : string) (is_correct : bool) (w : Word.t) :
  PyDict.get word (LearningSession.words s) = Some w ->
  let w' := fst (AdaptiveLearning.update_word_status cfg w is_correct) in
  let s' := fst (LearningSession.record_answer cfg s word is_correct) in
  let st := LearningSession.stats s in
  let st' := LearningSession.stats s' in
  let newly :=
    Word.is_mastered w'
    && negb (existsb (String.eqb word) (SessionStats.words_mastered_list st)) in
  LearningSession.words s' = PyDict.set word w' (LearningSession.words s) /\
  LearningSession.current_word s' = LearningSession.current_word s /\
  LearningSession.total_words_shown s' = LearningSession.total_words_shown s /\
  LearningSession.session_id s' = LearningSession.session_id s /\
  SessionStats.total_words st' = SessionStats.total_words st /\
  SessionStats.correct_answers st'
  = SessionStats.correct_answers st + (if is_correct then 1 else 0) /\
  SessionStats.incorrect_answers st'
  = SessionStats.incorrect_answers st + (if is_correct then 0 else 1) /\
  SessionStats.words_mastered_list st'
  = (if newly then SessionStats.words_mastered_list st ++ [word]
     else SessionStats.words_mastered_list st)%list /\
  SessionStats.words_mastered st'
  = SessionStats.words_mastered st + (if newly then 1 else 0).
Proof.
  intros Hget. cbn zeta. unfold LearningSession.record_answer. rewrite Hget.
  cbn [fst].
  destruct is_correct;
    destruct (Word.is_mastered _); cbn;
    try destruct (existsb _ _); cbn;
    repeat split; lia.
Qed.

(** C5, as stated, fails: in a session whose current word is "a", an answer
    for the other word "b" of the pool is accepted and recorded. *)
Lemma C5_counterexample :
  LearningSession.current_word example_session <> Some "b" /\
  PyDict.get "b" (LearningSession.words example_session) <> None /\
  LearningSession.record_answer default_settings example_session "b" true
  <> (example_session, false).
Proof. repeat split; discriminate. Qed.

(** C5, amended. [record_answer] returns [False] exactly when the word is
    not a key of the pool, and then the session is left as it was.  For a
    word of the pool, whether or not it is the current word, it returns
    [True] and records the answer: the word is replaced in the pool by its
    update through [update_word_status], the counter of correct or of
    incorrect answers of the statistics goes up by one, a word that is
    mastered after the update and not yet in the list of mastered words is
    appended to it and counted, and the current word and the number of
    words shown stay as they were. *)
Theorem C5_record_answer_unknown_word (cfg : Settings) (s : LearningSession.t)
    (text : string) (correct : bool) :
  (PyDict.get text (LearningSession.words s) = None ->
   LearningSession.record_answer cfg s text correct = (s, false))
  /\ (snd (LearningSession.record_answer cfg s text correct) = false
      <-> PyDict.get text (LearningSession.words s) = None)
  /\ (forall w : Word.t,
        PyDict.get text (LearningSession.words s) = Some w ->
        let w' := fst (AdaptiveLearning.update_word_status cfg w correct) in
        let s' := fst (LearningSession.record_answer cfg s text correct) in
        let st := LearningSession.stats s in
        let st' := LearningSession.stats s' in
        let newly :=
          Word.is_mastered w'
          && negb (existsb (String.eqb text)
                     (SessionStats.words_mastered_list st)) in
        snd (LearningSession.record_answer cfg s text correct) = true /\
        LearningSession.words s' = PyDict.set text w' (LearningSession.words s) /\
        LearningSession.current_word s' = LearningSession.current_word s /\
        LearningSession.total_words_shown s'
        = LearningSession.total_words_shown s /\
        SessionStats.correct_answers st'
        = SessionStats.correct_answers st + (if correct then 1 else 0) /\
        SessionStats.incorrect_answers st'
        = SessionStats.incorrect_answers st + (if correct then 0 else 1) /\
        SessionStats.words_mastered_list st'
        = (if newly then SessionStats.words_mastered_list st ++ [text]
           else SessionStats.words_mastered_list st)%list /\
        SessionStats.words_mastered st'
        = SessionStats.words_mastered st + (if newly then 1 else 0)).
Proof.
  split; [| split].
  - intros Hget. unfold LearningSession.record_answer. rewrite Hget.
    reflexivity.
  - unfold LearningSession.record_answer.
    destruct (PyDict.get text (LearningSession.words s)) as [word_obj |].
    + split; discriminate.
    + split; reflexivity.
  - intros w Hget.
    destruct (record_answer_unfold cfg s text correct w Hget)
      as (Hw & Hcur & Hshown & _ & _ & Hc & Hi & Hl & Hm).
    cbn zeta. split.
    + unfold LearningSession.record_answer. rewrite Hget. reflexivity.
    + repeat (split; [assumption |]). assumption.
Qed.

Lemma C5_record_answer_unknown_word_witness :
  PyDict.get "z" (LearningSession.words example_session) = None /\
  LearningSession.record_answer default_settings example_session "z" true
  = (example_session, false) /\
  PyDict.get "b" (LearningSession.words example_session)
  = Some (Word.mk "b" 0 0 0 0 false 100) /\
  LearningSession.record_answer default_settings example_session "b" false
  = (LearningSession.set_stats
       (SessionStats.set_incorrect_answers 1
          (LearningSession.stats example_session))
       (LearningSession.set_words
          [("a", Word.mk "a" 0 0 0 0 false 100);
           ("b", Word.mk "b" 0 1 0 1 false 100)]
          example_session),
     true).
Proof.
  split; [reflexivity |].
  split.
  - apply (C5_record_answer_unknown_word default_settings example_session
             "z" true).
    reflexivity.
  - split; [reflexivity |].
    destruct (C5_record_answer_unknown_word default_settings example_session
                "b" false) as (_ & _ & H).
    destruct (H (Word.mk "b" 0 0 0 0 false 100) eq_refl) as (Hret & _).
    reflexivity.
Defined.

(** ** Derived statistics *)

(** C9, as stated, fails: with one correct and one incorrect answer the
    success rate is 50, not the ratio 1/2. *)
Lemma C9_counterexample :
  (SessionStats.success_rate example_stats == 50)%Q /\
  ~ (SessionStats.success_rate example_stats
     == inject_Z (SessionStats.correct_answers example_stats)
        / inject_Z (SessionStats.correct_answers example_stats
                    + SessionStats.incorrect_answers example_stats))%Q.
Proof. split; [vm_compute; reflexivity | vm_compute; discriminate]. Qed.

(** The rate is computed in floating point: with one correct and two
    incorrect answers it is the double 33.33333333333333, which is neither
    the ratio 1/3 nor the exact percentage 100/3. *)
Lemma success_rate_third :
  (SessionStats.success_rate example_stats_third
   == 4691249611844266 # 140737488355328)%Q /\
  ~ (SessionStats.success_rate example_stats_third == 1 # 3)%Q /\
  ~ (SessionStats.success_rate example_stats_third == 100 # 3)%Q.
Proof.
  split; [vm_compute; reflexivity |].
  split; vm_compute; discriminate.
Qed.

(** With counters that are not negative the rate is a percentage: the
    quotient is between 0 and 1, so that neither operation leaves the range
    of a double. *)
Lemma success_rate_bounds (s : SessionStats.t) :
  0 <= SessionStats.correct_answers s ->
  0 <= SessionStats.incorrect_answers s ->
  (0 <= SessionStats.success_rate s <= 100)%Q.
Proof.
  intros Hc Hi. unfold SessionStats.success_rate.
  destruct (Z.eqb_spec (SessionStats.correct_answers s
                        + SessionStats.incorrect_answers s) 0) as [E | N].
  - split; discriminate.
  - destruct (py_truediv_unit_interval (SessionStats.correct_answers s)
                (SessionStats.correct_answers s
                 + SessionStats.incorrect_answers s)) as [H0 H1]; try lia.
    unfold py_fmul. split.
    + apply Qle_trans with (y := round_double 0);
        [vm_compute; discriminate | apply round_double_mono; lra].
    + apply Qle_trans with (y := round_double 100);
        [apply round_double_mono; lra | vm_compute; discriminate].
Qed.

(** C9, amended. The success rate is 0 when there is no answer yet;
    otherwise, for counters that are not negative, it is the float that
    [(correct / (correct + incorrect)) * 100] yields: the quotient of the
    two integers rounded to the nearest double, multiplied by 100 and
    rounded again.  The duration is 0 as long as the end time is unset. *)
Theorem C9_derived_stats (s : SessionStats.t) :
  let total := SessionStats.correct_answers s + SessionStats.incorrect_answers s in
  (total = 0 -> SessionStats.success_rate s = 0%Q)
  /\ (0 <= SessionStats.correct_answers s ->
      0 <= SessionStats.incorrect_answers s ->
      total <> 0 ->
      SessionStats.success_rate s
      = round_double
          (round_double (inject_Z (SessionStats.correct_answers s)
                         / inject_Z total) * 100)%Q)
  /\ (SessionStats.ended_at s = None -> SessionStats.duration_seconds s = 0).
Proof.
  cbn zeta. unfold SessionStats.success_rate, SessionStats.duration_seconds.
  split; [| split].
  - intros ->. reflexivity.
  - intros _ _ Hne.
    destruct (Z.eqb_spec (SessionStats.correct_answers s
                          + SessionStats.incorrect_answers s) 0); [lia |].
    reflexivity.
  - intros ->. reflexivity.
Qed.

Lemma C9_derived_stats_witness :
  0 <= SessionStats.correct_answers example_stats /\
  0 <= SessionStats.incorrect_answers example_stats /\
  SessionStats.correct_answers example_stats
    + SessionStats.incorrect_answers example_stats <> 0 /\
  SessionStats.ended_at example_stats = None /\
  (SessionStats.success_rate example_stats == 50)%Q /\
  SessionStats.duration_seconds example_stats = 0.
Proof.
  pose proof (C9_derived_stats example_stats) as (_ & Hrate & Hdur).
  split; [discriminate |]. split; [discriminate |].
  split; [discriminate |]. split; [reflexivity |]. split.
  - rewrite Hrate by discriminate. vm_compute. reflexivity.
  - apply Hdur. reflexivity.
Defined.

(** ** The JSON helpers called with a [str] *)

Lemma save_json_str (p : pathlike) (data : json) (files : Path.fs) :
  save_json (Path.str p) data files = (false, files).
Proof. destruct p; reflexivity. Qed.

Lemma load_json_str (p : pathlike) (files : Path.fs) :
  load_json (Path.str p) files = JNull.
Proof. destruct p; reflexivity. Qed.

(** ** Saving and loading a session *)

Lemma word_stats_raises (word_obj : Word.t) :
  SessionPersistence.word_stats word_obj = Raise AttributeError.
Proof. reflexivity. Qed.

Lemma words_stats_raises (words : PyDict.t Word.t) :
  words <> [] -> SessionPersistence.words_stats words = Raise AttributeError.
Proof.
  destruct words as [| [word word_obj] rest]; [congruence | intros _].
  unfold SessionPersistence.words_stats, PyDict.items.
  cbn [for_each]. rewrite word_stats_raises. reflexivity.
Qed.

(** Whatever the session, [save_session] leaves the files as they are. *)
Lemma save_session_files (user_id : Z) (session : LearningSession.t)
    (files : Path.fs) :
  snd (SessionPersistence.save_session user_id session files) = files.
Proof.
  unfold SessionPersistence.save_session.
  destruct (SessionPersistence.session_data user_id session) as [data | e];
    [| reflexivity].
  change (snd (let '(_, files') :=
                 save_json (Path.str (SessionPersistence.session_file user_id
                              (LearningSession.session_id session))) data files
               in (true, files')) = files).
  rewrite save_json_str. reflexivity.
Qed.

(** Whatever the files, [load_session] returns [None]. *)
Lemma load_session_none (user_id : Z) (session_id uuid8 : string) (now : Z)
    (files : Path.fs) :
  SessionPersistence.load_session user_id session_id uuid8 now files = None.
Proof.
  unfold SessionPersistence.load_session.
  rewrite load_json_str.
  unfold SessionPersistence.session_file, Path.join. cbn [Path.exists_].
  cbn. destruct (bool_decide _); reflexivity.
Qed.

(** The loop body of [load_session] restores nothing: on a word of the
    pool it raises at the assignment of [times_mastered], which a [Word]
    does not accept, and a word outside the pool is skipped. *)
Lemma restore_word_ok (word : string) (stats_data : json)
    (words words' : PyDict.t Word.t) :
  SessionPersistence.restore_word word stats_data words = Ok words' ->
  PyDict.get word words = None /\ words' = words.
Proof.
  unfold SessionPersistence.restore_word.
  destruct (PyDict.get word words) as [word_obj |].
  - intros H. exfalso.
    destruct stats_data as [| b | z | str | l | o]; try discriminate H.
    cbn in H.
    repeat match type of H with
    | context [PyDict.get ?k o] => destruct (PyDict.get k o) as [[]|]; cbn in H
    end; discriminate H.
  - intros [= <-]. split; reflexivity.
Qed.

(** C10. For a session with a non-empty pool [save_session] returns [False]
    and the files are what they were: the record of the first word reads
    [times_mastered], which a [Word] does not have. *)
Theorem C10_save_session_fails (user_id : Z) (session : LearningSession.t)
    (files : Path.fs) :
  LearningSession.words session <> [] ->
  SessionPersistence.words_stats (LearningSession.words session)
    = Raise AttributeError /\
  SessionPersistence.save_session user_id session files = (false, files).
Proof.
  intros Hne. pose proof (words_stats_raises _ Hne) as Hraise.
  split; [exact Hraise |].
  unfold SessionPersistence.save_session, SessionPersistence.session_data.
  rewrite Hraise. reflexivity.
Qed.

Lemma C10_save_session_fails_witness :
  LearningSession.words example_session <> [] /\
  SessionPersistence.save_session 1 example_session ∅ = (false, ∅).
Proof.
  split; [discriminate |].
  apply (C10_save_session_fails 1 example_session ∅). discriminate.
Defined.

(** ** Aggregation of a finished session *)

(** The number of the words of the list that [update_session_stats]
    counts. *)
Lemma count_mastered_word_fold (dict_progress : gmap string WordProgress.t)
    (words_mastered : list string) :
  forall p,
    let p' := fold_left (ProgressTracker.count_mastered_word dict_progress)
                        words_mastered p in
    UserProgress.dictionaries_progress p' = UserProgress.dictionaries_progress p /\
    UserProgress.total_words_learned p'
    = UserProgress.total_words_learned p
      + Z.of_nat (length (List.filter
          (fun word => match dict_progress !! word with
                       | Some wp => WordProgress.times_mastered wp =? 1
                       | None => false
                       end) words_mastered)).
Proof.
  induction words_mastered as [| word rest IH]; intros p; cbn zeta.
  - cbn. split; [reflexivity | lia].
  - cbn [fold_left List.filter].
    specialize (IH (ProgressTracker.count_mastered_word dict_progress p word)).
    cbn zeta in IH. destruct IH as [IHd IHn]. rewrite IHd, IHn.
    unfold ProgressTracker.count_mastered_word.
    destruct (dict_progress !! word) as [wp |]; [| split; [reflexivity | lia]].
    destruct (WordProgress.times_mastered wp =? 1); cbn [length];
      split; try reflexivity; cbn; lia.
Qed.

(** C6 at a profile in which "a" has been mastered once: each of two calls
    of [update_session_stats] with the list ["a"] adds one to the number of
    words learned, so that the single word of the list is counted twice. *)
Theorem C6_counted_twice (now now' : Z) (files : Path.fs) :
  let t1 := snd (fst (ProgressTracker.update_session_stats example_tracker
                        "d1" 3 0 ["a"] now files)) in
  let t2 := snd (fst (ProgressTracker.update_session_stats t1
                        "d1" 3 0 ["a"] now' files)) in
  UserProgress.total_words_learned (ProgressTracker.progress example_tracker) = 1 /\
  UserProgress.total_words_learned (ProgressTracker.progress t1) = 2 /\
  UserProgress.total_words_learned (ProgressTracker.progress t2) = 3.
Proof. cbn zeta. repeat split; vm_compute; reflexivity. Qed.

(** The count of words learned after a call of [update_session_stats]: the
    per-word records are not touched, so a repeated call counts the same
    words again. *)
Lemma update_session_stats_total_words_learned (self : ProgressTracker.t)
    (dict_id : string) (correct_count incorrect_count : Z)
    (words_mastered : list string) (now : Z) (files : Path.fs) :
  let self' := snd (fst (ProgressTracker.update_session_stats self dict_id
                           correct_count incorrect_count words_mastered
                           now files)) in
  let p := ProgressTracker.progress self in
  let p' := ProgressTracker.progress self' in
  let dict_progress :=
    default ∅ (UserProgress.dictionaries_progress p !! dict_id) in
  UserProgress.dictionaries_progress p' = UserProgress.dictionaries_progress p /\
  UserProgress.total_words_learned p'
  = UserProgress.total_words_learned p
    + Z.of_nat (length (List.filter
        (fun word => match dict_progress !! word with
                     | Some wp => WordProgress.times_mastered wp =? 1
                     | None => false
                     end) words_mastered)).
Proof.
  cbn zeta. unfold ProgressTracker.update_session_stats.
  set (p0 := UserProgress.set_total_incorrect _ _).
  set (dp := default ∅ (UserProgress.dictionaries_progress p0 !! dict_id)).
  pose proof (count_mastered_word_fold dp words_mastered p0) as H.
  cbn zeta in H. destruct H as [Hd Hn].
  unfold ProgressTracker._save_progress.
  destruct (save_json _ _ _) as [ok files']. cbn.
  rewrite Hd, Hn. split; reflexivity.
Qed.

(** ** The pool of a session is keyed by the texts of its items *)

Lemma PyDict_get_In {V} (d : PyDict.t V) (k : string) (v : V) :
  PyDict.get k d = Some v -> In (k, v) d.
Proof.
  induction d as [| [k' v'] d IH]; cbn; [discriminate |].
  destruct (String.eqb_spec k' k) as [-> | Hne].
  - intros [= ->]. left. reflexivity.
  - intros H. right. apply IH, H.
Qed.

Lemma PyDict_set_In {V} (d : PyDict.t V) (k k' : string) (v v' : V) :
  In (k', v') (PyDict.set k v d) -> (k' = k /\ v' = v) \/ In (k', v') d.
Proof.
  induction d as [| [k0 v0] d IH]; cbn.
  - intros [[= <- <-] | []]. left. split; reflexivity.
  - destruct (String.eqb_spec k0 k) as [-> | Hne]; cbn.
    + intros [[= <- <-] | H]; [left; split; reflexivity | right; right; exact H].
    + intros [H | H]; [right; left; exact H |].
      destruct (IH H) as [Heq | Hin]; [left; exact Heq | right; right; exact Hin].
Qed.

Lemma PyDict_set_wf {V} (d : PyDict.t V) (k : string) (v : V) :
  PyDict.wf d -> PyDict.wf (PyDict.set k v d).
Proof.
  unfold PyDict.wf, PyDict.keys.
  induction d as [| [k0 v0] d IH]; cbn; intros Hnd.
  - apply NoDup_singleton.
  - apply NoDup_cons in Hnd as [Hnotin Hnd].
    destruct (String.eqb_spec k0 k) as [-> | Hne]; cbn.
    + apply NoDup_cons. split; assumption.
    + apply NoDup_cons. split; [| apply IH, Hnd].
      rewrite list_elem_of_In in *. intros Hin.
      apply in_map_iff in Hin as ([k1 v1] & Hk & Hin). cbn in Hk. subst k1.
      apply PyDict_set_In in Hin as [[Heq _] | Hin]; [congruence |].
      apply Hnotin, in_map_iff. exists (k0, v1). auto.
Qed.

Lemma PyDict_set_pool_wf (words : PyDict.t Word.t) (k : string) (w : Word.t) :
  pool_wf words -> Word.text w = k -> pool_wf (PyDict.set k w words).
Proof.
  intros [Hwf Htext] Hw. split; [apply PyDict_set_wf, Hwf |].
  intros k' w' Hin.
  apply PyDict_set_In in Hin as [[-> ->] | Hin]; [exact Hw | apply Htext, Hin].
Qed.

Lemma for_each_invariant {A S} (P : S -> Prop) (body : A -> S -> result S)
    (l : list A) :
  (forall x s s', P s -> body x s = Ok s' -> P s') ->
  forall s s', P s -> for_each l body s = Ok s' -> P s'.
Proof.
  intros Hbody. induction l as [| x l IH]; intros s s' Hs Hrun; cbn in Hrun.
  - injection Hrun as <-. exact Hs.
  - destruct (body x s) as [s1 | e] eqn:Hx; cbn in Hrun; [| discriminate].
    eapply IH; [eapply Hbody; eassumption | exact Hrun].
Qed.

(** Every session the constructor builds has a well-formed pool. *)
Lemma init_pool_wf (user_id : Z) (dict_id dict_name : string)
    (words_list : list string) (uuid8 : string) (now : Z)
    (s : LearningSession.t) :
  LearningSession.init user_id dict_id dict_name words_list uuid8 now = Ok s ->
  pool_wf (LearningSession.words s).
Proof.
  unfold LearningSession.init. intros Hinit.
  destruct (for_each _ _ _) as [words | e] eqn:Hwords;
    cbn in Hinit; [| discriminate].
  destruct (SessionStats.new _ _ _ _ _ _) as [st | e]; cbn in Hinit;
    [| discriminate].
  injection Hinit as <-. cbn.
  eapply (for_each_invariant pool_wf); [| | exact Hwords].
  - intros word d d' Hd Hbody. unfold Word.new in Hbody.
    destruct (String.eqb word ""); cbn in Hbody; [discriminate |].
    injection Hbody as <-. apply PyDict_set_pool_wf; [exact Hd | reflexivity].
  - split; [apply NoDup_nil_2 | intros k w []].
Qed.

Lemma update_word_status_text (cfg : Settings) (w : Word.t) (a : bool) :
  Word.text (fst (AdaptiveLearning.update_word_status cfg w a)) = Word.text w.
Proof.
  unfold AdaptiveLearning.update_word_status. destruct a; cbn [fst].
  - match goal with
    | |- context [if ?b then _ else _] => destruct b
    end; reflexivity.
  - reflexivity.
Qed.

(** Recording an answer keeps the pool well formed. *)
Lemma record_answer_pool_wf (cfg : Settings) (s : LearningSession.t)
    (word : string) (is_correct : bool) :
  pool_wf (LearningSession.words s) ->
  pool_wf (LearningSession.words
             (fst (LearningSession.record_answer cfg s word is_correct))).
Proof.
  intros Hwf. unfold LearningSession.record_answer.
  destruct (PyDict.get word (LearningSession.words s)) as [word_obj |] eqn:Hget;
    [| exact Hwf].
  assert (Hp : pool_wf (PyDict.set word
                 (fst (AdaptiveLearning.update_word_status cfg word_obj is_correct))
                 (LearningSession.words s))).
  { apply PyDict_set_pool_wf; [exact Hwf |].
    rewrite update_word_status_text.
    destruct Hwf as [_ Htext]. apply Htext, PyDict_get_In, Hget. }
  cbn [fst].
  destruct is_correct;
    destruct (Word.is_mastered _); try destruct (negb _); exact Hp.
Qed.

(** ** The mastery flag follows the mastery predicate *)

(** The rate [is_word_mastered] computes. *)
Lemma is_word_mastered_unfold (cfg : Settings) (w : Word.t) :
  AdaptiveLearning.is_word_mastered cfg w
  = negb (Word.consecutive_correct w <? MASTERY_CONSECUTIVE_CORRECT cfg)
    && negb (Word.total_attempts w <? MASTERY_MIN_ATTEMPTS cfg)
    && negb (Word.correct_count w <? MASTERY_MIN_ATTEMPTS cfg)
    && Qle_bool (MASTERY_SUCCESS_RATE cfg)
         (if Word.total_attempts w >? 0
          then py_truediv (Word.correct_count w) (Word.total_attempts w)
          else 0%Q).
Proof.
  unfold AdaptiveLearning.is_word_mastered, Qltb.
  destruct (_ <? MASTERY_CONSECUTIVE_CORRECT cfg); [reflexivity |].
  destruct (_ <? MASTERY_MIN_ATTEMPTS cfg); [reflexivity |].
  destruct (_ <? MASTERY_MIN_ATTEMPTS cfg); [reflexivity |].
  cbn [negb andb]. destruct (Qle_bool _ _); reflexivity.
Qed.

(** A correct answer does not undo mastery. *)
Lemma is_word_mastered_after_correct (cfg : Settings) (w w' : Word.t) :
  word_invariant w ->
  Word.consecutive_correct w' = Word.consecutive_correct w + 1 ->
  Word.correct_count w' = Word.correct_count w + 1 ->
  Word.total_attempts w' = Word.total_attempts w + 1 ->
  AdaptiveLearning.is_word_mastered cfg w = true ->
  AdaptiveLearning.is_word_mastered cfg w' = true.
Proof.
  intros (Hsum & Hcc & Hta & Hc & Hi & _) Ecc Ec Eta.
  rewrite !is_word_mastered_unfold, Ecc, Ec, Eta.
  rewrite !andb_true_iff, !negb_true_iff, !Z.ltb_ge, !Qle_bool_iff.
  intros (((H1 & H2) & H3) & H4).
  repeat split; try lia.
  eapply Qle_trans; [exact H4 |].
  destruct (Z.gtb_spec (Word.total_attempts w) 0) as [Hpos | Hzero];
    destruct (Z.gtb_spec (Word.total_attempts w + 1) 0) as [Hpos' | Hzero'];
    try lia.
  - apply py_truediv_mono; lia.
  - assert (Word.total_attempts w = 0) as -> by lia.
    assert (Word.correct_count w = 0) as -> by lia.
    vm_compute. discriminate.
Qed.

Lemma update_word_status_flag (cfg : Settings) (w : Word.t) (a : bool) :
  0 < MASTERY_CONSECUTIVE_CORRECT cfg ->
  word_invariant w ->
  Word.is_mastered w = AdaptiveLearning.is_word_mastered cfg w ->
  let w' := fst (AdaptiveLearning.update_word_status cfg w a) in
  Word.is_mastered w' = AdaptiveLearning.is_word_mastered cfg w'.
Proof.
  intros Hk Hinv Hflag. cbn zeta.
  unfold AdaptiveLearning.update_word_status. destruct a; cbn [fst].
  - set (w1 := Word.set_total_attempts _ _).
    destruct (AdaptiveLearning.is_word_mastered cfg w1) eqn:E1.
    + change (true = AdaptiveLearning.is_word_mastered cfg w1).
      symmetry. exact E1.
    + change (Word.is_mastered w = AdaptiveLearning.is_word_mastered cfg w1).
      rewrite E1, Hflag.
      destruct (AdaptiveLearning.is_word_mastered cfg w) eqn:E0; [| reflexivity].
      rewrite (is_word_mastered_after_correct cfg w w1 Hinv) in E1;
        [discriminate | reflexivity | reflexivity | reflexivity | exact E0].
  - cbn. unfold AdaptiveLearning.is_word_mastered. cbn.
    destruct (Z.ltb_spec 0 (MASTERY_CONSECUTIVE_CORRECT cfg)); [reflexivity | lia].
Qed.

Lemma apply_answers_flag (cfg : Settings) (answers : list bool) :
  0 < MASTERY_CONSECUTIVE_CORRECT cfg ->
  forall w,
    word_invariant w ->
    Word.is_mastered w = AdaptiveLearning.is_word_mastered cfg w ->
    Word.is_mastered (apply_answers cfg w answers)
    = AdaptiveLearning.is_word_mastered cfg (apply_answers cfg w answers).
Proof.
  intros Hk. unfold apply_answers.
  induction answers as [| a answers IH]; intros w Hinv Hflag; cbn [fold_left].
  - exact Hflag.
  - apply IH.
    + apply update_word_status_invariant, Hinv.
    + apply update_word_status_flag; assumption.
Qed.

Lemma new_word_flag (cfg : Settings) (text : string) (w0 : Word.t) :
  0 < MASTERY_CONSECUTIVE_CORRECT cfg ->
  Word.new text = Ok w0 ->
  w0 = Word.mk text 0 0 0 0 false 100 /\
  word_invariant w0 /\
  Word.is_mastered w0 = AdaptiveLearning.is_word_mastered cfg w0.
Proof.
  intros Hk Hnew.
  unfold Word.new in Hnew. destruct (String.eqb text ""); [discriminate |].
  injection Hnew as <-. split; [reflexivity |].
  split; [unfold word_invariant; cbn; lia |].
  unfold AdaptiveLearning.is_word_mastered. cbn.
  destruct (Z.ltb_spec 0 (MASTERY_CONSECUTIVE_CORRECT cfg)); [reflexivity | lia].
Qed.

(** X1. With a positive streak threshold, on every item reached from a
    freshly created one by answer updates the stored flag [is_mastered] is
    the value of the predicate [is_word_mastered]. *)
Theorem X1_flag_is_predicate (cfg : Settings) (text : string) (w0 : Word.t)
    (answers : list bool) :
  0 < MASTERY_CONSECUTIVE_CORRECT cfg ->
  Word.new text = Ok w0 ->
  Word.is_mastered (apply_answers cfg w0 answers)
  = AdaptiveLearning.is_word_mastered cfg (apply_answers cfg w0 answers).
Proof.
  intros Hk Hnew.
  destruct (new_word_flag cfg text w0 Hk Hnew) as (_ & Hinv & Hflag).
  apply apply_answers_flag; assumption.
Qed.

Lemma X1_flag_is_predicate_witness :
  let w := apply_answers default_settings (Word.mk "a" 0 0 0 0 false 100)
             [false; true; true; true] in
  0 < MASTERY_CONSECUTIVE_CORRECT default_settings /\
  Word.new "a" = Ok (Word.mk "a" 0 0 0 0 false 100) /\
  Word.is_mastered w = AdaptiveLearning.is_word_mastered default_settings w.
Proof.
  intros w. split; [reflexivity |]. split; [reflexivity |].
  apply (X1_flag_is_predicate default_settings "a"); reflexivity.
Defined.

Lemma apply_correct_counters (cfg : Settings) (n : nat) :
  forall w,
    1 <= Word.priority_score w ->
    let w' := apply_answers cfg w (repeat true n) in
    Word.text w' = Word.text w /\
    Word.consecutive_correct w' = Word.consecutive_correct w + Z.of_nat n /\
    Word.total_attempts w' = Word.total_attempts w + Z.of_nat n /\
    Word.correct_count w' = Word.correct_count w + Z.of_nat n /\
    Word.incorrect_count w' = Word.incorrect_count w /\
    Word.priority_score w' = Z.max 1 (Word.priority_score w - 20 * Z.of_nat n).
Proof.
  unfold apply_answers.
  induction n as [| n IH]; intros w Hp; cbn zeta.
  - cbn. repeat split; lia.
  - cbn [repeat fold_left].
    set (w1 := fst (AdaptiveLearning.update_word_status cfg w true)).
    assert (H1 : Word.text w1 = Word.text w /\
                 Word.consecutive_correct w1 = Word.consecutive_correct w + 1 /\
                 Word.total_attempts w1 = Word.total_attempts w + 1 /\
                 Word.correct_count w1 = Word.correct_count w + 1 /\
                 Word.incorrect_count w1 = Word.incorrect_count w /\
                 Word.priority_score w1 = Z.max 1 (Word.priority_score w - 20)).
    { unfold w1, AdaptiveLearning.update_word_status. cbn [fst].
      match goal with
      | |- context [if ?b then _ else _] => destruct b
      end; repeat split. }
    destruct H1 as (Et & Ecc & Eta & Ec & Ei & Ep).
    destruct (IH w1 ltac:(lia)) as (Ht & Hcc & Hta & Hc & Hi & Hpr).
    rewrite Ht, Hcc, Hta, Hc, Hi, Hpr, Et, Ecc, Eta, Ec, Ei, Ep.
    repeat split; lia.
Qed.

(** X2. With a positive streak threshold and a required rate of at most 1,
    a fresh word answered correctly [n] times in a row has streak, attempts
    and correct answers [n], no error, the priority [max(1, 100 - 20 n)],
    and is mastered exactly when [n] reaches both the streak threshold and
    the minimum of attempts. *)
Theorem X2_correct_run (cfg : Settings) (text : string) (w0 : Word.t)
    (n : nat) :
  0 < MASTERY_CONSECUTIVE_CORRECT cfg ->
  (MASTERY_SUCCESS_RATE cfg <= 1)%Q ->
  Word.new text = Ok w0 ->
  let w := apply_answers cfg w0 (repeat true n) in
  Word.consecutive_correct w = Z.of_nat n /\
  Word.total_attempts w = Z.of_nat n /\
  Word.correct_count w = Z.of_nat n /\
  Word.incorrect_count w = 0 /\
  Word.priority_score w = Z.max 1 (100 - 20 * Z.of_nat n) /\
  (Word.is_mastered w = true <->
   MASTERY_CONSECUTIVE_CORRECT cfg <= Z.of_nat n /\
   MASTERY_MIN_ATTEMPTS cfg <= Z.of_nat n).
Proof.
  intros Hk Hrate Hnew. cbn zeta.
  destruct (new_word_flag cfg text w0 Hk Hnew) as (-> & Hinv & Hflag).
  pose proof (apply_answers_flag cfg (repeat true n) Hk _ Hinv Hflag) as Hf.
  destruct (apply_correct_counters cfg n (Word.mk text 0 0 0 0 false 100)
              ltac:(cbn; lia)) as (_ & Hcc & Hta & Hc & Hi & Hp).
  cbn [Word.consecutive_correct Word.total_attempts Word.correct_count
       Word.incorrect_count Word.priority_score] in Hcc, Hta, Hc, Hi, Hp.
  rewrite Z.add_0_l in Hcc, Hta, Hc.
  split; [exact Hcc |]. split; [exact Hta |]. split; [exact Hc |].
  split; [exact Hi |]. split; [exact Hp |].
  split.
  - rewrite Hf, is_word_mastered_unfold.
    rewrite !andb_true_iff, !negb_true_iff, !Z.ltb_ge. rewrite Hcc, Hta.
    intros (((H1 & H2) & _) & _). split; assumption.
  - intros [H1 H2]. rewrite Hf, is_word_mastered_unfold.
    rewrite !andb_true_iff, !negb_true_iff, !Z.ltb_ge, Qle_bool_iff.
    rewrite Hcc, Hta, Hc. repeat split; try assumption.
    destruct (Z.gtb_spec (Z.of_nat n) 0) as [Hpos | Hzero]; [| lia].
    eapply Qle_trans; [exact Hrate |].
    apply Qle_lteq. right. apply Qeq_sym, py_truediv_same. lia.
Qed.

Lemma X2_correct_run_witness :
  let w := apply_answers default_settings (Word.mk "a" 0 0 0 0 false 100)
             (repeat true 3) in
  0 < MASTERY_CONSECUTIVE_CORRECT default_settings /\
  (MASTERY_SUCCESS_RATE default_settings <= 1)%Q /\
  Word.new "a" = Ok (Word.mk "a" 0 0 0 0 false 100) /\
  Word.priority_score w = 40 /\
  Word.is_mastered w = true.
Proof.
  intros w.
  assert (Hk : 0 < MASTERY_CONSECUTIVE_CORRECT default_settings) by reflexivity.
  assert (Hr : (MASTERY_SUCCESS_RATE default_settings <= 1)%Q)
    by (cbn; unfold Qle; cbn; lia).
  assert (Hn : Word.new "a" = Ok (Word.mk "a" 0 0 0 0 false 100)) by reflexivity.
  destruct (X2_correct_run default_settings "a" _ 3 Hk Hr Hn)
    as (_ & _ & _ & _ & Hp & Hm).
  split; [exact Hk |]. split; [exact Hr |]. split; [exact Hn |].
  split; [exact Hp |].
  apply Hm. cbn. lia.
Defined.

(** ** More on the selection *)

(** X3. The defensive branch of [get_next_word_by_priority] is never
    entered: with any positive bound on the depth of its nested calls the
    function returns, and returns what it returns with the bound it is run
    with. *)
Theorem X3_selection_needs_no_nested_call (fuel : nat)
    (words : PyDict.t Word.t) :
  AdaptiveLearning.get_next_word_by_priority_fuel (S fuel) words
  = AdaptiveLearning.get_next_word_by_priority words
  /\ AdaptiveLearning.get_next_word_by_priority words <> None.
Proof.
  rewrite get_next_word_by_priority_eq, get_next_word_by_priority_fuel_eq.
  split; [reflexivity | discriminate].
Qed.

Section SortStable.
Context {A K : Type} (ltb : K -> K -> bool) (key : A -> K).

Hypothesis ltb_irrefl : forall a, ltb a a = false.
Hypothesis ltb_asym : forall a b, ltb a b = true -> ltb b a = false.
Hypothesis ltb_negtrans :
  forall a b c, ltb a b = false -> ltb b c = false -> ltb a c = false.

(** The head of the sorted list is the first of the elements with the
    least key: everything before it in the input has a strictly greater
    key. *)
Lemma sort_by_head_first (l : list A) :
  forall m rest, sort_by ltb key l = m :: rest ->
  exists l1 l2 : list A, l = (l1 ++ m :: l2)%list /\
    (forall y, In y l1 -> ltb (key m) (key y) = true) /\
    (forall y, In y l2 -> ltb (key y) (key m) = false).
Proof.
  induction l as [| x l IH]; intros m rest Hs; [discriminate |].
  change (sort_by ltb key (x :: l))
    with (insert_by ltb key x (sort_by ltb key l)) in Hs.
  destruct (sort_by ltb key l) as [| h t] eqn:Hl.
  - apply sort_by_nil in Hl. subst l. cbn in Hs. injection Hs as <- <-.
    exists [], []. split; [reflexivity |]. split; intros y [].
  - cbn in Hs. destruct (ltb (key h) (key x)) eqn:Hhx.
    + injection Hs as <- <-.
      destruct (IH h t eq_refl) as (l1 & l2 & -> & Hbefore & Hafter).
      exists (x :: l1), l2. split; [reflexivity |]. split; [| exact Hafter].
      intros y [<- | Hy]; [exact Hhx | apply Hbefore, Hy].
    + injection Hs as <- <-.
      exists [], l. split; [reflexivity |]. split; [intros y [] |].
      intros y Hy.
      apply ltb_negtrans with (b := key h); [| exact Hhx].
      eapply (sort_by_head_minimal ltb key ltb_irrefl ltb_asym ltb_negtrans);
        [rewrite <- Hl; reflexivity | exact Hy].
Qed.
End SortStable.

Lemma filter_split {A} (f : A -> bool) (l : list A) :
  forall (a : list A) x b, List.filter f l = (a ++ x :: b)%list ->
  exists l1 l2 : list A, l = (l1 ++ x :: l2)%list /\
                List.filter f l1 = a /\ List.filter f l2 = b.
Proof.
  induction l as [| y l IH]; intros a x b H; cbn in H.
  - destruct a; discriminate.
  - destruct (f y) eqn:Hy.
    + destruct a as [| a0 a].
      * cbn in H. injection H as <- <-.
        exists [], l. repeat split.
      * cbn in H. injection H as <- H.
        destruct (IH a x b H) as (l1 & l2 & -> & H1 & H2).
        exists (y :: l1), l2. cbn. rewrite Hy, H1. repeat split. exact H2.
    + destruct (IH a x b H) as (l1 & l2 & -> & H1 & H2).
      exists (y :: l1), l2. cbn. rewrite Hy. repeat split; assumption.
Qed.

(** X4. Ties are broken by the order of the pool: the selected word is the
    first unmastered item that no unmastered item sorts strictly before, so
    every unmastered item in front of it in the dict sorts strictly after
    it. *)
Theorem X4_selection_first_minimal (words : PyDict.t Word.t) (k : string) :
  AdaptiveLearning.get_next_word_by_priority words = Some (Some k) ->
  exists (l1 : PyDict.t Word.t) w l2,
    words = (l1 ++ (k, w) :: l2)%list /\
    Word.is_mastered w = false /\
    (forall item, In item l1 -> Word.is_mastered (snd item) = false ->
                  sorts_before (k, w) item) /\
    (forall item, In item l2 -> Word.is_mastered (snd item) = false ->
                  ~ sorts_before item (k, w)).
Proof.
  rewrite get_next_word_by_priority_eq.
  destruct (candidates words) as [| [k0 w0] rest] eqn:E; [discriminate |].
  intros [= <-].
  unfold candidates in E.
  destruct (sort_by_head_first tuple3_ltb AdaptiveLearning.sort_key
              tuple3_ltb_irrefl tuple3_ltb_asym tuple3_ltb_negtrans _ _ _ E)
    as (a & b & Hsplit & Hbefore & Hafter).
  destruct (filter_split _ _ _ _ _ Hsplit) as (l1 & l2 & Hw & Ha & Hb).
  exists l1, w0, l2. unfold PyDict.items in Hw. split; [exact Hw |].
  assert (Hin : In (k0, w0) (List.filter
                  (fun '(_, word) => negb (Word.is_mastered word))
                  (PyDict.items words))).
  { rewrite Hsplit. apply in_or_app. right. left. reflexivity. }
  apply filter_In in Hin as [_ Hm]. apply negb_true_iff in Hm.
  split; [exact Hm |]. split.
  - intros [k' w'] Hi Hm'. apply Hbefore. rewrite <- Ha.
    apply filter_In. cbn in Hm'. rewrite Hm'. auto.
  - intros [k' w'] Hi Hm' Hs. unfold sorts_before in Hs.
    rewrite Hafter in Hs; [discriminate |].
    rewrite <- Hb. apply filter_In. cbn in Hm'. rewrite Hm'. auto.
Qed.

Lemma X4_selection_first_minimal_witness :
  let words := [("a", Word.mk "a" 3 3 3 0 true 40);
                ("b", Word.mk "b" 0 0 0 0 false 100);
                ("c", Word.mk "c" 0 0 0 0 false 100)] in
  AdaptiveLearning.get_next_word_by_priority words = Some (Some "b") /\
  exists (l1 : PyDict.t Word.t) w l2,
    words = (l1 ++ ("b", w) :: l2)%list /\
    Word.is_mastered w = false /\
    (forall item, In item l1 -> Word.is_mastered (snd item) = false ->
                  sorts_before ("b", w) item) /\
    (forall item, In item l2 -> Word.is_mastered (snd item) = false ->
                  ~ sorts_before item ("b", w)).
Proof.
  intros words. split; [reflexivity |].
  apply (X4_selection_first_minimal words "b"). reflexivity.
Defined.

(** ** Completion and progress of a pool *)

Lemma is_session_complete_iff (words : PyDict.t Word.t) :
  AdaptiveLearning.is_session_complete words = true <->
  forall w, In w (PyDict.values words) -> Word.is_mastered w = true.
Proof.
  unfold AdaptiveLearning.is_session_complete.
  destruct words as [| item words].
  - split; [intros _ w [] | reflexivity].
  - apply forallb_forall.
Qed.

Lemma count_if_length {A} (f : A -> bool) (l : list A) :
  AdaptiveLearning.count_if f l = Z.of_nat (length (List.filter f l)).
Proof.
  unfold AdaptiveLearning.count_if.
  induction (List.filter f l) as [| x l' IH]; cbn [map fold_right length].
  - reflexivity.
  - rewrite IH. lia.
Qed.

Lemma filter_length_bound {A} (f : A -> bool) (l : list A) :
  (length (List.filter f l) <= length l)%nat /\
  (length (List.filter f l) = length l <-> forall x, In x l -> f x = true).
Proof.
  induction l as [| x l [IHle IHeq]]; cbn.
  - split; [lia |]. split; [intros _ y [] | reflexivity].
  - destruct (f x) eqn:Hx; cbn.
    + split; [lia |]. split.
      * intros H y [<- | Hy]; [exact Hx |]. apply IHeq; [lia | exact Hy].
      * intros H. f_equal. apply IHeq. intros y Hy. apply H. right. exact Hy.
    + split; [lia |]. split; [lia |].
      intros H. rewrite (H x) in Hx; [discriminate | left; reflexivity].
Qed.

(** X5. [get_next_word] returns [None] exactly when the session is
    complete, and then changes nothing; otherwise it returns the key of an
    unmastered word, makes it the current word and counts one more word
    shown.  The pool and the statistics are never touched. *)
Theorem X5_get_next_word (s : LearningSession.t) :
  exists s' r,
    LearningSession.get_next_word s = Some (s', r) /\
    LearningSession.words s' = LearningSession.words s /\
    LearningSession.stats s' = LearningSession.stats s /\
    (r = None <-> LearningSession.is_complete s = true) /\
    (r = None -> s' = s) /\
    (forall k, r = Some k ->
       LearningSession.current_word s' = Some k /\
       LearningSession.total_words_shown s'
       = LearningSession.total_words_shown s + 1 /\
       exists w, In (k, w) (LearningSession.words s) /\
                 Word.is_mastered w = false).
Proof.
  unfold LearningSession.get_next_word, LearningSession.is_complete.
  destruct (AdaptiveLearning.is_session_complete (LearningSession.words s))
    eqn:Hc.
  - exists s, None. split; [reflexivity |].
    split; [reflexivity |]. split; [reflexivity |].
    split; [split; reflexivity |]. split; [reflexivity |].
    intros k H. discriminate H.
  - rewrite get_next_word_by_priority_eq.
    destruct (candidates (LearningSession.words s)) as [| [k0 w0] rest] eqn:E.
    + exfalso. pose proof (proj1 (candidates_nil _) E) as Hall.
      apply is_session_complete_iff in Hall. congruence.
    + eexists _, (Some k0). split; [reflexivity |].
      split; [reflexivity |]. split; [reflexivity |].
      split; [split; discriminate |]. split; [discriminate |].
      intros k [= <-]. split; [reflexivity |]. split; [reflexivity |].
      exists w0. apply candidates_In. rewrite E. left. reflexivity.
Qed.

(** X6. In the progress of a pool the mastered and the remaining words, and
    the words with and without errors, add up to the total; the counts lie
    between 0 and the total; and the pool is complete exactly when the
    mastered count equals the total. *)
Theorem X6_session_progress (words : PyDict.t Word.t) :
  let p := AdaptiveLearning.get_session_progress words in
  AdaptiveLearning.total p = Z.of_nat (length words) /\
  0 <= AdaptiveLearning.mastered p <= AdaptiveLearning.total p /\
  0 <= AdaptiveLearning.with_errors p <= AdaptiveLearning.total p /\
  AdaptiveLearning.mastered p + AdaptiveLearning.remaining p
  = AdaptiveLearning.total p /\
  AdaptiveLearning.with_errors p + AdaptiveLearning.without_errors p
  = AdaptiveLearning.total p /\
  (AdaptiveLearning.is_session_complete words = true <->
   AdaptiveLearning.mastered p = AdaptiveLearning.total p).
Proof.
  cbn zeta. unfold AdaptiveLearning.get_session_progress. cbn.
  rewrite !count_if_length.
  assert (Hlen : length (PyDict.values words) = length words)
    by apply length_map.
  destruct (filter_length_bound Word.is_mastered (PyDict.values words))
    as [Hm Hmeq].
  destruct (filter_length_bound (fun word => Word.incorrect_count word >? 0)
              (PyDict.values words)) as [He _].
  repeat split; try lia.
  - intros Hc. pose proof (proj1 (is_session_complete_iff _) Hc) as Hall.
    pose proof (proj2 Hmeq Hall). lia.
  - intros Heq. apply is_session_complete_iff, Hmeq. lia.
Qed.

(** X7. [get_mastered_count] is the mastered count of the progress of the
    pool, and it reaches the number of words exactly when the session is
    complete. *)
Theorem X7_mastered_count (s : LearningSession.t) :
  LearningSession.get_mastered_count s
  = AdaptiveLearning.mastered
      (AdaptiveLearning.get_session_progress (LearningSession.words s))
  /\ (LearningSession.is_complete s = true <->
      LearningSession.get_mastered_count s
      = Z.of_nat (length (LearningSession.words s))).
Proof.
  unfold LearningSession.get_mastered_count, LearningSession.is_complete.
  unfold AdaptiveLearning.get_session_progress. cbn.
  rewrite count_if_length. split; [reflexivity |].
  destruct (filter_length_bound Word.is_mastered
              (PyDict.values (LearningSession.words s))) as [_ Hmeq].
  assert (Hlen : length (PyDict.values (LearningSession.words s))
                 = length (LearningSession.words s)) by apply length_map.
  rewrite is_session_complete_iff, <- Hmeq. lia.
Qed.

Lemma difficulty_level_facts (incorrect_count : Z) :
  let d := AdaptiveLearning.get_difficulty_level incorrect_count in
  AdaptiveLearning.easy d + AdaptiveLearning.medium d + AdaptiveLearning.hard d = 3 /\
  0 <= AdaptiveLearning.easy d /\ 0 <= AdaptiveLearning.medium d /\
  0 <= AdaptiveLearning.hard d /\
  (AdaptiveLearning.hard d = 3 <-> incorrect_count <= 0) /\
  (AdaptiveLearning.easy d = 1 <-> 3 <= incorrect_count) /\
  (0 < AdaptiveLearning.medium d <-> 1 <= incorrect_count).
Proof.
  cbn zeta. unfold AdaptiveLearning.get_difficulty_level.
  destruct (Z.geb_spec incorrect_count 3); [cbn; lia |].
  destruct (Z.eqb_spec incorrect_count 0); [cbn; lia |].
  destruct (Z.eqb_spec incorrect_count 1); [cbn; lia |].
  destruct (Z.eqb_spec incorrect_count 2); cbn; lia.
Qed.

(** X8. The difficulty of the variants always hands out three of them,
    whatever the number of errors and whether or not the word is in the
    session: three hard ones exactly when there is no error, one easy one
    exactly from the third error on, a medium one as soon as there is an
    error; a word that is not in the session gets three hard ones. *)
Theorem X8_difficulty_level (incorrect_count : Z) (s : LearningSession.t)
    (word : string) :
  (let d := AdaptiveLearning.get_difficulty_level incorrect_count in
   AdaptiveLearning.easy d + AdaptiveLearning.medium d + AdaptiveLearning.hard d = 3 /\
   0 <= AdaptiveLearning.easy d /\ 0 <= AdaptiveLearning.medium d /\
   0 <= AdaptiveLearning.hard d /\
   (AdaptiveLearning.hard d = 3 <-> incorrect_count <= 0) /\
   (AdaptiveLearning.easy d = 1 <-> 3 <= incorrect_count) /\
   (0 < AdaptiveLearning.medium d <-> 1 <= incorrect_count)) /\
  (let d := LearningSession.get_difficulty_for_word s word in
   AdaptiveLearning.easy d + AdaptiveLearning.medium d + AdaptiveLearning.hard d = 3 /\
   (LearningSession.get_word_data s word = None ->
    d = AdaptiveLearning.mk_difficulty 0 0 3)).
Proof.
  split; [apply difficulty_level_facts |]. cbn zeta.
  unfold LearningSession.get_difficulty_for_word, LearningSession.get_word_data.
  destruct (PyDict.get word (LearningSession.words s)) as [word_obj |].
  - split; [apply difficulty_level_facts | discriminate].
  - split; reflexivity.
Qed.

(** ** Lookups and updates of a dict *)

Lemma PyDict_get_set_same {V} (d : PyDict.t V) (k : string) (v : V) :
  PyDict.get k (PyDict.set k v d) = Some v.
Proof.
  induction d as [| [k0 v0] d IH]; cbn.
  - rewrite String.eqb_refl. reflexivity.
  - destruct (String.eqb k0 k) eqn:E; cbn; rewrite E; [reflexivity | exact IH].
Qed.

Lemma PyDict_get_set_other {V} (d : PyDict.t V) (k k' : string) (v : V) :
  k' <> k -> PyDict.get k' (PyDict.set k v d) = PyDict.get k' d.
Proof.
  intros Hne. induction d as [| [k0 v0] d IH]; cbn.
  - destruct (String.eqb_spec k k'); [congruence | reflexivity].
  - destruct (String.eqb_spec k0 k) as [-> | Hk]; cbn.
    + destruct (String.eqb_spec k k'); [congruence | reflexivity].
    + rewrite IH. reflexivity.
Qed.

Lemma PyDict_keys_set_present {V} (d : PyDict.t V) (k : string) (v v0 : V) :
  PyDict.get k d = Some v0 -> PyDict.keys (PyDict.set k v d) = PyDict.keys d.
Proof.
  induction d as [| [k0 v1] d IH]; cbn; [discriminate |].
  destruct (String.eqb k0 k) eqn:E; cbn; [reflexivity |].
  intros H. unfold PyDict.keys in IH. rewrite (IH H). reflexivity.
Qed.

Lemma PyDict_keys_set_absent {V} (d : PyDict.t V) (k : string) (v : V) :
  PyDict.get k d = None ->
  PyDict.keys (PyDict.set k v d) = (PyDict.keys d ++ [k])%list.
Proof.
  induction d as [| [k0 v1] d IH]; cbn; [reflexivity |].
  destruct (String.eqb k0 k) eqn:E; cbn; [discriminate |].
  intros H. unfold PyDict.keys in IH. rewrite (IH H). reflexivity.
Qed.

Lemma PyDict_get_None {V} (d : PyDict.t V) (k : string) :
  PyDict.get k d = None <-> ~ In k (PyDict.keys d).
Proof.
  induction d as [| [k0 v0] d IH]; cbn.
  - split; [intros _ [] | reflexivity].
  - destruct (String.eqb_spec k0 k) as [-> | Hne].
    + split; [discriminate | intros H; exfalso; apply H; left; reflexivity].
    + rewrite IH. unfold PyDict.keys. intuition congruence.
Qed.

Lemma PyDict_get_keys {V} (d : PyDict.t V) (k : string) (v : V) :
  PyDict.get k d = Some v -> In k (PyDict.keys d).
Proof.
  intros H. apply PyDict_get_In in H.
  unfold PyDict.keys. apply in_map_iff. exists (k, v). auto.
Qed.

Lemma pool_sum_set (f : Word.t -> Z) (d : PyDict.t Word.t) (k : string)
    (old v : Word.t) :
  PyDict.get k d = Some old ->
  pool_sum f (PyDict.set k v d) = pool_sum f d - f old + f v.
Proof.
  unfold pool_sum, PyDict.values.
  induction d as [| [k0 v0] d IH]; cbn; [discriminate |].
  destruct (String.eqb k0 k) eqn:E; cbn.
  - intros [= ->]. lia.
  - intros H. rewrite (IH H). lia.
Qed.

(** ** What recording an answer changes *)

(** X9. Recording an answer for a word of the pool replaces that word by
    its update and leaves every other word, the order of the keys, the
    current word and the number of words shown as they were; the answer
    goes to exactly one of the two counters of the statistics. *)
Theorem X9_record_answer_frame (cfg : Settings) (s : LearningSession.t)
    (word : string) (is_correct : bool) (w : Word.t) :
  PyDict.get word (LearningSession.words s) = Some w ->
  let s' := fst (LearningSession.record_answer cfg s word is_correct) in
  LearningSession.get_word_data s' word
  = Some (fst (AdaptiveLearning.update_word_status cfg w is_correct)) /\
  (forall k, k <> word ->
     LearningSession.get_word_data s' k = LearningSession.get_word_data s k) /\
  PyDict.keys (LearningSession.words s') = PyDict.keys (LearningSession.words s) /\
  LearningSession.current_word s' = LearningSession.current_word s /\
  LearningSession.total_words_shown s' = LearningSession.total_words_shown s /\
  SessionStats.correct_answers (LearningSession.stats s')
  + SessionStats.incorrect_answers (LearningSession.stats s')
  = SessionStats.correct_answers (LearningSession.stats s)
    + SessionStats.incorrect_answers (LearningSession.stats s) + 1.
Proof.
  intros Hget. cbn zeta.
  destruct (record_answer_unfold cfg s word is_correct w Hget)
    as (Hw & Hcur & Hshown & _ & _ & Hc & Hi & _).
  unfold LearningSession.get_word_data. rewrite Hw.
  split; [apply PyDict_get_set_same |].
  split; [intros k Hk; apply PyDict_get_set_other, Hk |].
  split; [eapply PyDict_keys_set_present, Hget |].
  split; [exact Hcur |]. split; [exact Hshown |].
  rewrite Hc, Hi. destruct is_correct; lia.
Qed.

Lemma X9_record_answer_frame_witness :
  let s' := fst (LearningSession.record_answer default_settings
                   example_session "a" false) in
  PyDict.get "a" (LearningSession.words example_session)
  = Some (Word.mk "a" 0 0 0 0 false 100) /\
  LearningSession.get_word_data s' "a" = Some (Word.mk "a" 0 1 0 1 false 100) /\
  LearningSession.get_word_data s' "b" = Some (Word.mk "b" 0 0 0 0 false 100).
Proof.
  intros s'. subst s'.
  destruct (X9_record_answer_frame default_settings example_session "a" false
              (Word.mk "a" 0 0 0 0 false 100) eq_refl)
    as (Ha & Hother & _).
  split; [reflexivity |]. split; [exact Ha |].
  rewrite (Hother "b") by discriminate. reflexivity.
Defined.

(** ** What a run of a session keeps true *)

Lemma PyDict_keys_set_In {V} (d : PyDict.t V) (k k' : string) (v : V) :
  In k' (PyDict.keys (PyDict.set k v d)) <-> k' = k \/ In k' (PyDict.keys d).
Proof.
  destruct (PyDict.get k d) as [v0 |] eqn:Hget.
  - rewrite (PyDict_keys_set_present d k v v0 Hget).
    split; [auto | intros [-> | H]; [eapply PyDict_get_keys, Hget | exact H]].
  - rewrite (PyDict_keys_set_absent d k v Hget), in_app_iff. cbn.
    intuition congruence.
Qed.

Lemma build_words_spec (l : list string) :
  forall acc d,
    for_each l (fun word d => w ← Word.new word; mret (PyDict.set word w d)) acc
    = Ok d ->
    ~ In "" l /\
    (forall k, In k (PyDict.keys d) <-> In k (PyDict.keys acc) \/ In k l) /\
    (forall k w, In (k, w) d ->
                 In (k, w) acc \/ w = Word.mk k 0 0 0 0 false 100).
Proof.
  induction l as [| x l IH]; intros acc d Hrun; cbn in Hrun.
  - injection Hrun as <-. split; [intros [] |]. split; [| auto].
    intros k. cbn. intuition.
  - unfold Word.new in Hrun.
    destruct (String.eqb_spec x "") as [-> | Hx]; [discriminate |].
    cbn in Hrun. apply IH in Hrun as (Hne & Hkeys & Hitems).
    split; [intros [H | H]; [congruence | exact (Hne H)] |]. split.
    + intros k. rewrite Hkeys, PyDict_keys_set_In. cbn. intuition congruence.
    + intros k w Hin. destruct (Hitems k w Hin) as [Hset | Hfresh]; [| auto].
      apply PyDict_set_In in Hset as [[-> ->] | Hacc]; auto.
Qed.

Lemma build_words_ok (l : list string) :
  ~ In "" l ->
  forall acc, exists d,
    for_each l (fun word d => w ← Word.new word; mret (PyDict.set word w d)) acc
    = Ok d.
Proof.
  induction l as [| x l IH]; intros Hne acc; cbn.
  - eexists. reflexivity.
  - unfold Word.new.
    destruct (String.eqb_spec x "") as [-> | Hx];
      [exfalso; apply Hne; left; reflexivity |].
    cbn. apply IH. intros H. apply Hne. right. exact H.
Qed.

Lemma build_words_keys (l : list string) :
  forall acc d,
    NoDup l -> (forall k, In k l -> PyDict.get k acc = None) ->
    for_each l (fun word d => w ← Word.new word; mret (PyDict.set word w d)) acc
    = Ok d ->
    PyDict.keys d = (PyDict.keys acc ++ l)%list.
Proof.
  induction l as [| x l IH]; intros acc d Hnd Hfresh Hrun; cbn in Hrun.
  - injection Hrun as <-. rewrite app_nil_r. reflexivity.
  - unfold Word.new in Hrun.
    destruct (String.eqb_spec x "") as [-> | Hx]; [discriminate |].
    cbn in Hrun. apply NoDup_cons in Hnd as [Hnotin Hnd].
    rewrite list_elem_of_In in Hnotin.
    apply IH in Hrun; [| exact Hnd |].
    + rewrite Hrun, PyDict_keys_set_absent by (apply Hfresh; left; reflexivity).
      rewrite <- app_assoc. reflexivity.
    + intros k Hk. rewrite PyDict_get_set_other by congruence.
      apply Hfresh. right. exact Hk.
Qed.

Lemma pool_sum_zero (f : Word.t -> Z) (d : PyDict.t Word.t) :
  (forall k w, In (k, w) d -> f w = 0) -> pool_sum f d = 0.
Proof.
  unfold pool_sum, PyDict.values.
  induction d as [| [k w] d IH]; intros H; cbn; [reflexivity |].
  rewrite (H k w) by (left; reflexivity).
  rewrite IH; [reflexivity |]. intros k' w' Hin. apply (H k' w'). right. exact Hin.
Qed.

Lemma init_unfold (user_id : Z) (dict_id dict_name : string)
    (words_list : list string) (uuid8 : string) (now : Z)
    (s : LearningSession.t) :
  LearningSession.init user_id dict_id dict_name words_list uuid8 now = Ok s ->
  exists words,
    for_each words_list
      (fun word d => w ← Word.new word; mret (PyDict.set word w d)) [] = Ok words /\
    words_list <> [] /\
    s = LearningSession.mk user_id dict_id dict_name uuid8 words None 0
          (SessionStats.mk uuid8 user_id dict_id dict_name now None
             (Z.of_nat (length words_list)) 0 0 0 []).
Proof.
  unfold LearningSession.init. intros Hinit.
  destruct (for_each _ _ _) as [words | e] eqn:Hwords; cbn in Hinit;
    [| discriminate].
  unfold SessionStats.new in Hinit.
  destruct (Z.ltb_spec (Z.of_nat (length words_list)) 1) as [Hlt | Hge];
    cbn in Hinit; [discriminate |].
  injection Hinit as <-. exists words. split; [reflexivity |].
  split; [| reflexivity]. intros ->. cbn in Hge. lia.
Qed.

Lemma init_session_inv (user_id : Z) (dict_id dict_name : string)
    (words_list : list string) (uuid8 : string) (now : Z)
    (s : LearningSession.t) :
  LearningSession.init user_id dict_id dict_name words_list uuid8 now = Ok s ->
  session_inv words_list s.
Proof.
  intros Hinit. pose proof (init_pool_wf _ _ _ _ _ _ _ Hinit) as Hpool.
  destruct (init_unfold _ _ _ _ _ _ _ Hinit) as (words & Hwords & _ & ->).
  destruct (build_words_spec _ _ _ Hwords) as (_ & Hkeys & Hitems).
  assert (Hfresh : forall k w, In (k, w) words ->
                               w = Word.mk k 0 0 0 0 false 100).
  { intros k w Hin. destruct (Hitems k w Hin) as [[] | H]. exact H. }
  constructor; cbn.
  - exact Hpool.
  - intros k. rewrite Hkeys. cbn. intuition.
  - intros k w Hin. rewrite (Hfresh k w Hin). unfold word_invariant. cbn. lia.
  - reflexivity.
  - reflexivity.
  - apply NoDup_nil_2.
  - intros k w Hin Hm. rewrite (Hfresh k w Hin) in Hm. discriminate.
  - intros k [].
  - symmetry. apply pool_sum_zero. intros k w Hin.
    rewrite (Hfresh k w Hin). reflexivity.
  - symmetry. apply pool_sum_zero. intros k w Hin.
    rewrite (Hfresh k w Hin). reflexivity.
Qed.

Lemma get_next_word_frame (s s' : LearningSession.t) (r : option string) :
  LearningSession.get_next_word s = Some (s', r) ->
  LearningSession.words s' = LearningSession.words s /\
  LearningSession.stats s' = LearningSession.stats s.
Proof.
  unfold LearningSession.get_next_word.
  destruct (AdaptiveLearning.is_session_complete _).
  - intros [= <- <-]. split; reflexivity.
  - destruct (AdaptiveLearning.get_next_word_by_priority _) as [[k |] |].
    + intros [= <- <-]. split; reflexivity.
    + intros [= <- <-]. split; reflexivity.
    + discriminate.
Qed.

Lemma existsb_eqb_In (word : string) (l : list string) :
  existsb (String.eqb word) l = true <-> In word l.
Proof.
  rewrite existsb_exists. split.
  - intros (x & Hin & Heq). apply String.eqb_eq in Heq. subst x. exact Hin.
  - intros Hin. exists word. split; [exact Hin | apply String.eqb_refl].
Qed.

Lemma record_answer_session_inv (cfg : Settings) (words_list : list string)
    (s : LearningSession.t) (word : string) (is_correct : bool) :
  session_inv words_list s ->
  session_inv words_list
    (fst (LearningSession.record_answer cfg s word is_correct)).
Proof.
  intros Hinv.
  destruct (PyDict.get word (LearningSession.words s)) as [w |] eqn:Hget;
    [| unfold LearningSession.record_answer; rewrite Hget; exact Hinv].
  pose proof (record_answer_pool_wf cfg s word is_correct (inv_pool _ _ Hinv))
    as Hpool.
  destruct (record_answer_unfold cfg s word is_correct w Hget)
    as (Hw & _ & _ & _ & Htot & Hc & Hi & Hlist & Hcount).
  set (s' := fst (LearningSession.record_answer cfg s word is_correct)) in *.
  set (w' := fst (AdaptiveLearning.update_word_status cfg w is_correct)) in *.
  pose proof (PyDict_get_In _ _ _ Hget) as Hin_w.
  pose proof (PyDict_get_keys _ _ _ Hget) as Hkey_w.
  assert (Hkeys : PyDict.keys (LearningSession.words s')
                  = PyDict.keys (LearningSession.words s)).
  { rewrite Hw. eapply PyDict_keys_set_present, Hget. }
  assert (Hmono : forall k,
            In k (SessionStats.words_mastered_list (LearningSession.stats s)) ->
            In k (SessionStats.words_mastered_list (LearningSession.stats s'))).
  { intros k Hk. rewrite Hlist.
    destruct (_ && _); [apply in_or_app; left |]; exact Hk. }
  constructor.
  - exact Hpool.
  - intros k. rewrite Hkeys. apply (inv_keys _ _ Hinv).
  - intros k v Hin. rewrite Hw in Hin.
    apply PyDict_set_In in Hin as [[-> ->] | Hin].
    + apply update_word_status_invariant. apply (inv_items _ _ Hinv word w Hin_w).
    + apply (inv_items _ _ Hinv k v Hin).
  - rewrite Htot. apply (inv_total _ _ Hinv).
  - rewrite Hcount, Hlist, (inv_count _ _ Hinv).
    destruct (_ && _); [rewrite length_app; cbn |]; lia.
  - rewrite Hlist.
    destruct (Word.is_mastered w'); cbn [andb]; [| apply (inv_nodup _ _ Hinv)].
    destruct (existsb _ _) eqn:Hex; cbn [negb]; [apply (inv_nodup _ _ Hinv) |].
    apply NoDup_app. split; [apply (inv_nodup _ _ Hinv) |].
    split; [| apply NoDup_singleton].
    intros x Hx Hx'. rewrite list_elem_of_In in Hx, Hx'.
    destruct Hx' as [<- | []].
    apply existsb_eqb_In in Hx. congruence.
  - intros k v Hin Hm. rewrite Hw in Hin.
    apply PyDict_set_In in Hin as [[-> ->] | Hin].
    + rewrite Hlist. fold w'. rewrite Hm. cbn [andb].
      destruct (existsb _ _) eqn:Hex; cbn [negb].
      * apply existsb_eqb_In, Hex.
      * apply in_or_app. right. left. reflexivity.
    + apply Hmono. apply (inv_listed _ _ Hinv k v Hin Hm).
  - intros k Hk. rewrite Hkeys. rewrite Hlist in Hk.
    destruct (_ && _); [apply in_app_or in Hk as [Hk | [<- | []]] |];
      try exact Hkey_w; apply (inv_list_keys _ _ Hinv k Hk).
  - rewrite Hc, Hw, (pool_sum_set _ _ _ w w' Hget), (inv_correct _ _ Hinv).
    unfold w', AdaptiveLearning.update_word_status.
    destruct is_correct; cbn [fst].
    + match goal with
      | |- context [if ?b then _ else _] => destruct b
      end; cbn; lia.
    + cbn. lia.
  - rewrite Hi, Hw, (pool_sum_set _ _ _ w w' Hget), (inv_incorrect _ _ Hinv).
    unfold w', AdaptiveLearning.update_word_status.
    destruct is_correct; cbn [fst].
    + match goal with
      | |- context [if ?b then _ else _] => destruct b
      end; cbn; lia.
    + cbn. lia.
Qed.

Lemma reachable_session_inv (cfg : Settings) (words_list : list string)
    (s : LearningSession.t) :
  reachable cfg words_list s -> session_inv words_list s.
Proof.
  induction 1 as [uid did dname uuid8 now s Hinit
                 | s s' r Hreach IH Hnext
                 | s word is_correct Hreach IH].
  - eapply init_session_inv, Hinit.
  - destruct (get_next_word_frame s s' r Hnext) as [Hw Hs].
    destruct IH. constructor; rewrite ?Hw, ?Hs; assumption.
  - apply record_answer_session_inv, IH.
Qed.

Lemma nodup_incl_length (l k : list string) :
  NoDup l -> (forall x, In x l -> In x k) -> (length l <= length k)%nat.
Proof.
  intros Hnd Hincl. apply submseteq_length, NoDup_submseteq; [exact Hnd |].
  intros x Hx. rewrite list_elem_of_In in *. apply Hincl, Hx.
Qed.

Lemma mastered_keys (words : PyDict.t Word.t) :
  PyDict.wf words ->
  let l := map fst (List.filter (fun item => Word.is_mastered (snd item)) words) in
  NoDup l /\
  length l = length (List.filter Word.is_mastered (PyDict.values words)) /\
  forall k, In k l <-> exists w, In (k, w) words /\ Word.is_mastered w = true.
Proof.
  unfold PyDict.wf, PyDict.keys, PyDict.values. cbn zeta.
  induction words as [| [k w] words IH]; intros Hwf; cbn.
  - split; [apply NoDup_nil_2 |]. split; [reflexivity |].
    intros k. split; [intros [] | intros (w & [] & _)].
  - cbn in Hwf. apply NoDup_cons in Hwf as [Hnotin Hwf].
    rewrite list_elem_of_In in Hnotin.
    destruct (IH Hwf) as (Hnd & Hlen & Hin).
    destruct (Word.is_mastered w) eqn:Hm; cbn.
    + split; [| split].
      * apply NoDup_cons. split; [| exact Hnd].
        rewrite list_elem_of_In, Hin. intros (w' & Hw' & _).
        apply Hnotin, in_map_iff. exists (k, w'). auto.
      * rewrite Hlen. reflexivity.
      * intros k'. rewrite Hin. split.
        -- intros [<- | (w' & Hw' & Hm')]; [exists w; auto | exists w'; auto].
        -- intros (w' & [[= <- <-] | Hw'] & Hm'); [left; reflexivity |].
           right. exists w'. auto.
    + split; [exact Hnd |]. split; [exact Hlen |].
      intros k'. rewrite Hin. split.
      * intros (w' & Hw' & Hm'). exists w'. auto.
      * intros (w' & [[= <- <-] | Hw'] & Hm'); [congruence |].
        exists w'. auto.
Qed.

(** X10. In every session a run can reach, the list of mastered words has
    no duplicate, holds only keys of the pool, holds every word that is
    mastered now, and [words_mastered] is its length; so the number of
    words mastered now is at most [words_mastered], which is at most the
    number of words. *)
Theorem X10_mastered_bookkeeping (cfg : Settings) (words_list : list string)
    (s : LearningSession.t) :
  reachable cfg words_list s ->
  let st := LearningSession.stats s in
  SessionStats.words_mastered st
  = Z.of_nat (length (SessionStats.words_mastered_list st)) /\
  NoDup (SessionStats.words_mastered_list st) /\
  (forall k, In k (SessionStats.words_mastered_list st) ->
             In k (PyDict.keys (LearningSession.words s))) /\
  (forall k w, In (k, w) (LearningSession.words s) ->
               Word.is_mastered w = true ->
               In k (SessionStats.words_mastered_list st)) /\
  LearningSession.get_mastered_count s <= SessionStats.words_mastered st
  <= Z.of_nat (length (LearningSession.words s)).
Proof.
  intros Hreach. apply reachable_session_inv in Hreach as Hinv. cbn zeta.
  destruct Hinv as [[Hwf _] _ _ _ Hcount Hnd Hlisted Hlk _ _].
  split; [exact Hcount |]. split; [exact Hnd |]. split; [exact Hlk |].
  split; [exact Hlisted |].
  destruct (mastered_keys _ Hwf) as (Hmnd & Hmlen & Hmin).
  unfold LearningSession.get_mastered_count. rewrite <- Hmlen, Hcount.
  split.
  - apply inj_le, nodup_incl_length; [exact Hmnd |].
    intros k Hk. apply Hmin in Hk as (w & Hin & Hm). eapply Hlisted; eassumption.
  - apply inj_le.
    replace (length (LearningSession.words s))
      with (length (PyDict.keys (LearningSession.words s)))
      by apply length_map.
    apply nodup_incl_length; assumption.
Qed.

Lemma X10_mastered_bookkeeping_witness :
  reachable default_settings ["a"; "b"] example_session_answered /\
  SessionStats.words_mastered (LearningSession.stats example_session_answered)
  <= Z.of_nat (length (LearningSession.words example_session_answered)).
Proof.
  assert (H : reachable default_settings ["a"; "b"] example_session_answered).
  { apply reach_answer.
    eapply reach_next; [eapply reach_init |]; reflexivity. }
  split; [exact H |].
  apply (X10_mastered_bookkeeping default_settings ["a"; "b"] _ H).
Defined.

Lemma pool_sum_add (f g : Word.t -> Z) (d : PyDict.t Word.t) :
  pool_sum (fun w => f w + g w) d = pool_sum f d + pool_sum g d.
Proof.
  unfold pool_sum, PyDict.values.
  induction d as [| [k w] d IH]; cbn; [reflexivity | rewrite IH; lia].
Qed.

Lemma pool_sum_ext (f g : Word.t -> Z) (d : PyDict.t Word.t) :
  (forall k w, In (k, w) d -> f w = g w) -> pool_sum f d = pool_sum g d.
Proof.
  unfold pool_sum, PyDict.values.
  induction d as [| [k w] d IH]; intros H; cbn; [reflexivity |].
  rewrite (H k w) by (left; reflexivity).
  rewrite IH; [reflexivity |]. intros k' w' Hin. apply (H k' w'). right. exact Hin.
Qed.

(** X11. In every session a run can reach, the counters of the statistics
    are the sums of the counters of the words: the correct answers, the
    incorrect answers, and with them the attempts. *)
Theorem X11_answer_counters (cfg : Settings) (words_list : list string)
    (s : LearningSession.t) :
  reachable cfg words_list s ->
  let st := LearningSession.stats s in
  SessionStats.correct_answers st
  = pool_sum Word.correct_count (LearningSession.words s) /\
  SessionStats.incorrect_answers st
  = pool_sum Word.incorrect_count (LearningSession.words s) /\
  SessionStats.correct_answers st + SessionStats.incorrect_answers st
  = pool_sum Word.total_attempts (LearningSession.words s).
Proof.
  intros Hreach. apply reachable_session_inv in Hreach as Hinv. cbn zeta.
  destruct Hinv as [_ _ Hitems _ _ _ _ _ Hc Hi].
  split; [exact Hc |]. split; [exact Hi |].
  rewrite Hc, Hi, <- pool_sum_add. apply pool_sum_ext.
  intros k w Hin. destruct (Hitems k w Hin) as (Hsum & _). lia.
Qed.

Lemma X11_answer_counters_witness :
  reachable default_settings ["a"; "b"] example_session_answered /\
  SessionStats.correct_answers (LearningSession.stats example_session_answered)
  = pool_sum Word.correct_count (LearningSession.words example_session_answered).
Proof.
  assert (H : reachable default_settings ["a"; "b"] example_session_answered).
  { apply reach_answer.
    eapply reach_next; [eapply reach_init |]; reflexivity. }
  split; [exact H |].
  apply (X11_answer_counters default_settings ["a"; "b"] _ H).
Defined.

(** X12. The constructor succeeds exactly on a non-empty list without an
    empty word; the session it builds has every word of the list as a key,
    each with a fresh item, no current word, no word shown, and statistics
    that count the list with its duplicates. *)
Theorem X12_init (user_id : Z) (dict_id dict_name : string)
    (words_list : list string) (uuid8 : string) (now : Z) :
  ((exists s, LearningSession.init user_id dict_id dict_name words_list
                uuid8 now = Ok s)
   <-> words_list <> [] /\ ~ In "" words_list)
  /\ forall s,
       LearningSession.init user_id dict_id dict_name words_list uuid8 now
       = Ok s ->
       (forall k, In k (PyDict.keys (LearningSession.words s))
                  <-> In k words_list) /\
       (forall k w, In (k, w) (LearningSession.words s) ->
                    w = Word.mk k 0 0 0 0 false 100) /\
       LearningSession.current_word s = None /\
       LearningSession.total_words_shown s = 0 /\
       LearningSession.session_id s = uuid8 /\
       LearningSession.stats s
       = SessionStats.mk uuid8 user_id dict_id dict_name now None
           (Z.of_nat (length words_list)) 0 0 0 [].
Proof.
  split.
  - split.
    + intros [s Hinit].
      destruct (init_unfold _ _ _ _ _ _ _ Hinit) as (words & Hwords & Hne & _).
      split; [exact Hne |]. apply (build_words_spec _ _ _ Hwords).
    + intros [Hne Hnoempty].
      destruct (build_words_ok words_list Hnoempty []) as [words Hwords].
      unfold LearningSession.init. rewrite Hwords. cbn.
      unfold SessionStats.new.
      destruct (Z.ltb_spec (Z.of_nat (length words_list)) 1) as [Hlt | Hge].
      * destruct words_list; [congruence | cbn in Hlt; lia].
      * cbn. eexists. reflexivity.
  - intros s Hinit.
    destruct (init_unfold _ _ _ _ _ _ _ Hinit) as (words & Hwords & _ & ->).
    destruct (build_words_spec _ _ _ Hwords) as (_ & Hkeys & Hitems). cbn.
    split; [intros k; rewrite Hkeys; cbn; intuition |].
    split; [| repeat split].
    intros k w Hin. destruct (Hitems k w Hin) as [[] | H]. exact H.
Qed.

Lemma reachable_keys (cfg : Settings) (words_list : list string)
    (s : LearningSession.t) :
  NoDup words_list ->
  reachable cfg words_list s ->
  PyDict.keys (LearningSession.words s) = words_list.
Proof.
  intros Hnd.
  induction 1 as [uid did dname uuid8 now s Hinit
                 | s s' r Hreach IH Hnext
                 | s word is_correct Hreach IH].
  - destruct (init_unfold _ _ _ _ _ _ _ Hinit) as (words & Hwords & _ & ->).
    cbn. apply (build_words_keys _ [] _ Hnd) in Hwords; [exact Hwords |].
    reflexivity.
  - destruct (get_next_word_frame s s' r Hnext) as [Hw _]. rewrite Hw. exact IH.
  - destruct (PyDict.get word (LearningSession.words s)) as [w |] eqn:Hget.
    + destruct (record_answer_unfold cfg s word is_correct w Hget) as (Hw & _).
      rewrite Hw, (PyDict_keys_set_present _ _ _ _ Hget). exact IH.
    + unfold LearningSession.record_answer. rewrite Hget. exact IH.
Qed.

(** X13. Along a run the pool keeps its shape: the keys are pairwise
    distinct, each is the text of its item, they are the words the session
    was built from (in the order of the list when the list has no
    duplicate), every item satisfies the state invariant, and
    [total_words] stays the length of the list. *)
Theorem X13_pool_is_stable (cfg : Settings) (words_list : list string)
    (s : LearningSession.t) :
  reachable cfg words_list s ->
  pool_wf (LearningSession.words s) /\
  (forall k, In k (PyDict.keys (LearningSession.words s)) <-> In k words_list) /\
  (NoDup words_list -> PyDict.keys (LearningSession.words s) = words_list) /\
  (forall k w, In (k, w) (LearningSession.words s) -> word_invariant w) /\
  SessionStats.total_words (LearningSession.stats s)
  = Z.of_nat (length words_list).
Proof.
  intros Hreach. pose proof (reachable_session_inv _ _ _ Hreach) as Hinv.
  destruct Hinv as [Hpool Hkeys Hitems Htot _ _ _ _ _ _].
  split; [exact Hpool |]. split; [exact Hkeys |].
  split; [intros Hnd; eapply reachable_keys; eassumption |].
  split; [exact Hitems | exact Htot].
Qed.

Lemma X13_pool_is_stable_witness :
  reachable default_settings ["a"; "b"] example_session_answered /\
  NoDup ["a"; "b"] /\
  PyDict.keys (LearningSession.words example_session_answered) = ["a"; "b"].
Proof.
  assert (H : reachable default_settings ["a"; "b"] example_session_answered).
  { apply reach_answer.
    eapply reach_next; [eapply reach_init |]; reflexivity. }
  assert (Hnd : NoDup ["a"; "b"]).
  { repeat (apply NoDup_cons; split;
            [rewrite list_elem_of_In; cbn; intuition discriminate |]).
    apply NoDup_nil_2. }
  split; [exact H |]. split; [exact Hnd |].
  apply (X13_pool_is_stable default_settings ["a"; "b"] _ H). exact Hnd.
Defined.

(** X14. When the session was built from a list without duplicates, a
    complete session has complete statistics: once every word is mastered,
    [words_mastered] has reached [total_words]. *)
Theorem X14_complete_stats (cfg : Settings) (words_list : list string)
    (s : LearningSession.t) :
  NoDup words_list ->
  reachable cfg words_list s ->
  LearningSession.is_complete s = true ->
  SessionStats.is_complete (LearningSession.stats s) = true.
Proof.
  intros Hnd Hreach Hc.
  pose proof (reachable_keys _ _ _ Hnd Hreach) as Hkeys.
  destruct (reachable_session_inv _ _ _ Hreach)
    as [_ _ _ Htot Hcount _ Hlisted _ _ _].
  unfold SessionStats.is_complete. rewrite Htot, Hcount.
  apply Z.geb_le, inj_le. rewrite <- Hkeys at 1.
  apply nodup_incl_length; [rewrite Hkeys; exact Hnd |].
  intros k Hk. unfold PyDict.keys in Hk.
  apply in_map_iff in Hk as ([k' w] & Hk' & Hin). cbn in Hk'. subst k'.
  apply (Hlisted k w Hin).
  unfold LearningSession.is_complete in Hc.
  pose proof (proj1 (is_session_complete_iff _) Hc) as Hall.
  apply Hall. unfold PyDict.values. apply in_map_iff. exists (k, w). auto.
Qed.

Lemma X14_complete_stats_witness :
  let s := LearningSession.mk 1 "d1" "Dict" "0000abcd"
             [("a", Word.mk "a" 0 0 0 0 false 100)] None 0
             (SessionStats.mk "0000abcd" 1 "d1" "Dict" 0 None 1 0 0 0 []) in
  let s3 := fst (LearningSession.record_answer default_settings
              (fst (LearningSession.record_answer default_settings
                 (fst (LearningSession.record_answer default_settings
                    s "a" true)) "a" true)) "a" true) in
  NoDup ["a"] /\ reachable default_settings ["a"] s3 /\
  LearningSession.is_complete s3 = true /\
  SessionStats.is_complete (LearningSession.stats s3) = true.
Proof.
  intros s s3.
  assert (Hnd : NoDup ["a"]) by apply NoDup_singleton.
  assert (H : reachable default_settings ["a"] s3).
  { repeat apply reach_answer.
    apply (reach_init _ _ 1 "d1" "Dict" "0000abcd" 0). reflexivity. }
  split; [exact Hnd |]. split; [exact H |]. split; [reflexivity |].
  apply (X14_complete_stats default_settings ["a"] s3 Hnd H). reflexivity.
Defined.

(** X15. With a positive streak threshold, in every session a run can
    reach the flag of each word is the value of the mastery predicate on
    it; the session is therefore complete exactly when the predicate holds
    of every word. *)
Theorem X15_session_flags (cfg : Settings) (words_list : list string)
    (s : LearningSession.t) :
  0 < MASTERY_CONSECUTIVE_CORRECT cfg ->
  reachable cfg words_list s ->
  (forall k w, In (k, w) (LearningSession.words s) ->
     Word.is_mastered w = AdaptiveLearning.is_word_mastered cfg w) /\
  (LearningSession.is_complete s = true <->
   forall w, In w (PyDict.values (LearningSession.words s)) ->
             AdaptiveLearning.is_word_mastered cfg w = true).
Proof.
  intros Hk Hreach.
  assert (Hflags : forall k w, In (k, w) (LearningSession.words s) ->
            Word.is_mastered w = AdaptiveLearning.is_word_mastered cfg w).
  { induction Hreach as [uid did dname uuid8 now s Hinit
                        | s s' r Hreach IH Hnext
                        | s word is_correct Hreach IH].
    - destruct (init_unfold _ _ _ _ _ _ _ Hinit) as (words & Hwords & _ & ->).
      destruct (build_words_spec _ _ _ Hwords) as (_ & _ & Hitems). cbn.
      intros k w Hin. destruct (Hitems k w Hin) as [[] | ->].
      unfold AdaptiveLearning.is_word_mastered. cbn.
      destruct (Z.ltb_spec 0 (MASTERY_CONSECUTIVE_CORRECT cfg));
        [reflexivity | lia].
    - destruct (get_next_word_frame s s' r Hnext) as [Hw _]. rewrite Hw.
      exact IH.
    - pose proof (reachable_session_inv _ _ _ Hreach) as Hinv.
      destruct (PyDict.get word (LearningSession.words s)) as [w0 |] eqn:Hget.
      + destruct (record_answer_unfold cfg s word is_correct w0 Hget) as (Hw & _).
        rewrite Hw. intros k w Hin.
        apply PyDict_set_In in Hin as [[-> ->] | Hin]; [| apply (IH k w Hin)].
        pose proof (PyDict_get_In _ _ _ Hget) as Hin0.
        apply update_word_status_flag;
          [exact Hk | apply (inv_items _ _ Hinv word w0 Hin0)
          | apply (IH word w0 Hin0)].
      + unfold LearningSession.record_answer. rewrite Hget. exact IH. }
  split; [exact Hflags |].
  unfold LearningSession.is_complete. rewrite is_session_complete_iff.
  split; intros H w Hw.
  - pose proof (H w Hw) as Hm. unfold PyDict.values in Hw.
    apply in_map_iff in Hw as ([k w'] & <- & Hin). cbn in *.
    rewrite <- (Hflags k w' Hin). exact Hm.
  - pose proof (H w Hw) as Hm. unfold PyDict.values in Hw.
    apply in_map_iff in Hw as ([k w'] & <- & Hin). cbn in *.
    rewrite (Hflags k w' Hin). exact Hm.
Qed.

Lemma X15_session_flags_witness :
  0 < MASTERY_CONSECUTIVE_CORRECT default_settings /\
  reachable default_settings ["a"; "b"] example_session_answered /\
  forall k w, In (k, w) (LearningSession.words example_session_answered) ->
    Word.is_mastered w = AdaptiveLearning.is_word_mastered default_settings w.
Proof.
  assert (H : reachable default_settings ["a"; "b"] example_session_answered).
  { apply reach_answer.
    eapply reach_next; [eapply reach_init |]; reflexivity. }
  split; [reflexivity |]. split; [exact H |].
  apply (X15_session_flags default_settings ["a"; "b"] _ eq_refl H).
Defined.

(** ** The JSON helpers and the session files *)

(** X16. Given a path object, [save_json] succeeds and [load_json] reads
    back what was saved; every other file reads as before. *)
Theorem X16_json_round_trip (p : string) (data : json) (files : Path.fs) :
  let files' := snd (save_json (PathObj p) data files) in
  fst (save_json (PathObj p) data files) = true /\
  load_json (PathObj p) files' = data /\
  (forall q, q <> p ->
     load_json (PathObj q) files' = load_json (PathObj q) files).
Proof.
  cbn zeta. unfold save_json, load_json. cbn.
  split; [reflexivity |]. split.
  - rewrite lookup_insert_eq.
    rewrite bool_decide_eq_true_2 by (eexists; reflexivity). reflexivity.
  - intros q Hq. rewrite lookup_insert_ne by congruence. reflexivity.
Qed.

(** X17. Given the [str] of a path, as every caller in the session store
    and the progress tracker gives it, [save_json] returns [False] and
    writes nothing, and [load_json] returns [None] even when the file is
    there. *)
Theorem X17_json_helpers_on_str (p : pathlike) (data : json)
    (files : Path.fs) :
  save_json (Path.str p) data files = (false, files) /\
  load_json (Path.str p) files = JNull.
Proof.
  split; [apply save_json_str | apply load_json_str].
Qed.

(** X18. [save_session] never changes a file, and it reports success
    exactly for a session with an empty pool. *)
Theorem X18_save_session (user_id : Z) (session : LearningSession.t)
    (files : Path.fs) :
  snd (SessionPersistence.save_session user_id session files) = files /\
  (fst (SessionPersistence.save_session user_id session files) = true
   <-> LearningSession.words session = []).
Proof.
  split; [apply save_session_files |].
  destruct (LearningSession.words session) as [| item rest] eqn:Hw.
  - split; [reflexivity | intros _].
    unfold SessionPersistence.save_session, SessionPersistence.session_data.
    rewrite Hw. reflexivity.
  - split; [| discriminate]. intros Hok. exfalso.
    unfold SessionPersistence.save_session, SessionPersistence.session_data in Hok.
    rewrite Hw, words_stats_raises in Hok by discriminate.
    discriminate Hok.
Qed.

(** X19. [load_session] returns [None] whatever the files hold, and so in
    particular right after [save_session] of the session asked for. *)
Theorem X19_load_session (user_id : Z) (session_id uuid8 : string) (now : Z)
    (session : LearningSession.t) (files : Path.fs) :
  SessionPersistence.load_session user_id session_id uuid8 now files = None /\
  SessionPersistence.load_session user_id
    (LearningSession.session_id session) uuid8 now
    (snd (SessionPersistence.save_session user_id session files)) = None.
Proof.
  split; apply load_session_none.
Qed.

Lemma delete_session_unfold (user_id : Z) (session_id : string)
    (files : Path.fs) :
  let name := Path.name (SessionPersistence.session_file user_id session_id) in
  SessionPersistence.delete_session user_id session_id files
  = if bool_decide (is_Some (files !! name))
    then (true, delete name files) else (false, files).
Proof.
  cbn zeta. unfold SessionPersistence.delete_session,
    SessionPersistence.session_file, Path.join. cbn.
  destruct (bool_decide _); reflexivity.
Qed.

(** X20. [delete_session] returns [True] exactly when the file of the
    session exists; afterwards that file is gone and every other file is as
    before.  Since [save_session] writes nothing, deleting a session that
    was only ever saved returns [False]. *)
Theorem X20_delete_session (user_id : Z) (session_id : string)
    (files : Path.fs) :
  let name := Path.name (SessionPersistence.session_file user_id session_id) in
  let r := SessionPersistence.delete_session user_id session_id files in
  (fst r = true <-> is_Some (files !! name)) /\
  snd r !! name = None /\
  (forall q, q <> name -> snd r !! q = files !! q) /\
  (forall session,
     LearningSession.session_id session = session_id ->
     files !! name = None ->
     SessionPersistence.delete_session user_id session_id
       (snd (SessionPersistence.save_session user_id session files))
     = (false, files)).
Proof.
  cbn zeta. rewrite delete_session_unfold.
  set (name := Path.name (SessionPersistence.session_file user_id session_id)).
  destruct (bool_decide (is_Some (files !! name))) eqn:Hb.
  - apply bool_decide_eq_true_1 in Hb. cbn [fst snd].
    split; [split; [intros _; exact Hb | reflexivity] |].
    split; [apply lookup_delete_eq |].
    split; [intros q Hq; apply lookup_delete_ne; congruence |].
    intros session _ Hnone. rewrite Hnone in Hb. destruct Hb; discriminate.
  - apply bool_decide_eq_false_1 in Hb. cbn [fst snd].
    split; [split; [discriminate | intros H; contradiction] |].
    split; [destruct (files !! name) eqn:E; [exfalso; apply Hb; eauto | reflexivity] |].
    split; [reflexivity |].
    intros session _ Hnone. rewrite save_session_files, delete_session_unfold.
    fold name. rewrite Hnone.
    rewrite bool_decide_eq_false_2 by (intros [? ?]; discriminate). reflexivity.
Qed.

(** ** The progress tracker *)

Lemma save_progress_unfold (self : ProgressTracker.t) (now : Z)
    (files : Path.fs) :
  ProgressTracker._save_progress self now files
  = (true,
     ProgressTracker.set_progress
       (UserProgress.set_last_activity (Some now) (ProgressTracker.progress self))
       self,
     files).
Proof.
  unfold ProgressTracker._save_progress. rewrite save_json_str. reflexivity.
Qed.

Lemma update_word_progress_unfold (self : ProgressTracker.t)
    (dict_id word : string) (is_correct is_mastered : bool) (now now' : Z)
    (files : Path.fs) :
  let p := ProgressTracker.progress self in
  let dict_progress :=
    default ∅ (UserProgress.dictionaries_progress p !! dict_id) in
  let old := default (WordProgress.new word) (dict_progress !! word) in
  let r := ProgressTracker.update_word_progress self dict_id word
             is_correct is_mastered now now' files in
  let p' := ProgressTracker.progress (snd (fst r)) in
  fst (fst r) = true /\ snd r = files /\
  UserProgress.dictionaries_progress p'
  = <[dict_id := <[word := word_progress_after old is_correct is_mastered now]>
                   dict_progress]> (UserProgress.dictionaries_progress p) /\
  UserProgress.total_attempts p' = UserProgress.total_attempts p + 1 /\
  UserProgress.total_correct p'
  = UserProgress.total_correct p + (if is_correct then 1 else 0) /\
  UserProgress.total_incorrect p'
  = UserProgress.total_incorrect p + (if is_correct then 0 else 1) /\
  UserProgress.total_words_learned p'
  = UserProgress.total_words_learned p
    + (if is_mastered && (WordProgress.times_mastered old =? 0) then 1 else 0) /\
  UserProgress.total_sessions p' = UserProgress.total_sessions p /\
  UserProgress.last_activity p' = Some now'.
Proof.
  cbn zeta. unfold ProgressTracker.update_word_progress.
  rewrite save_progress_unfold. cbn [fst snd ProgressTracker.progress
    ProgressTracker.set_progress].
  set (old := default (WordProgress.new word) _).
  unfold word_progress_after.
  destruct is_correct, is_mastered;
    cbn [andb WordProgress.times_mastered WordProgress.set_last_attempted
         WordProgress.set_total_correct WordProgress.set_total_incorrect];
    try (destruct (Z.eqb_spec (WordProgress.times_mastered old) 0) as [E | E]);
    cbn;
    try (destruct (Z.eqb_spec (WordProgress.times_mastered old + 1) 1);
         [lia |]);
    cbn; repeat split; try lia;
    try (rewrite ?Z.add_0_r; destruct old; reflexivity).
Qed.


(** X22. After [update_word_progress] the record of the word can be looked
    up and carries the answer: one more correct or incorrect answer, the
    time of the attempt, and a mastery count that goes from none to 1 or up
    by one on a mastering answer.  The record of every other word, in this
    or another dictionary, is as before. *)
Theorem X22_update_word_progress_lookup (self : ProgressTracker.t)
    (dict_id word : string) (is_correct is_mastered : bool) (now now' : Z)
    (files : Path.fs) :
  let old := default (WordProgress.new word)
               (ProgressTracker.get_word_progress self dict_id word) in
  let self' := snd (fst (ProgressTracker.update_word_progress self dict_id
                           word is_correct is_mastered now now' files)) in
  ProgressTracker.get_word_progress self' dict_id word
  = Some (word_progress_after old is_correct is_mastered now) /\
  (forall d w, (d, w) <> (dict_id, word) ->
     ProgressTracker.get_word_progress self' d w
     = ProgressTracker.get_word_progress self d w).
Proof.
  cbn zeta.
  destruct (update_word_progress_unfold self dict_id word is_correct
              is_mastered now now' files) as (_ & _ & Hd & _).
  unfold ProgressTracker.get_word_progress. rewrite Hd. split.
  - rewrite lookup_insert_eq. cbn. apply lookup_insert_eq.
  - intros d w Hne.
    destruct (decide (d = dict_id)) as [-> | Hd'].
    + rewrite lookup_insert_eq. cbn.
      rewrite lookup_insert_ne by congruence. reflexivity.
    + rewrite lookup_insert_ne by congruence. reflexivity.
Qed.

(** X23. [update_session_stats] counts one more session, adds the answers
    of the session to the correct and incorrect totals but leaves the total
    of attempts alone, leaves every per-word record as it was, and counts
    as learned each entry of the list whose record says mastered exactly
    once, a repeated entry as often as it is repeated. *)
Theorem X23_update_session_stats (self : ProgressTracker.t)
    (dict_id : string) (correct_count incorrect_count : Z)
    (words_mastered : list string) (now : Z) (files : Path.fs) :
  let p := ProgressTracker.progress self in
  let p' := ProgressTracker.progress (snd (fst
              (ProgressTracker.update_session_stats self dict_id
                 correct_count incorrect_count words_mastered now files))) in
  UserProgress.total_sessions p' = UserProgress.total_sessions p + 1 /\
  UserProgress.total_correct p' = UserProgress.total_correct p + correct_count /\
  UserProgress.total_incorrect p'
  = UserProgress.total_incorrect p + incorrect_count /\
  UserProgress.total_attempts p' = UserProgress.total_attempts p /\
  UserProgress.dictionaries_progress p' = UserProgress.dictionaries_progress p /\
  UserProgress.total_words_learned p'
  = UserProgress.total_words_learned p
    + Z.of_nat (length (List.filter
        (fun word =>
           match ProgressTracker.get_word_progress self dict_id word with
           | Some wp => WordProgress.times_mastered wp =? 1
           | None => false
           end) words_mastered)).
Proof.
  cbn zeta.
  destruct (update_session_stats_total_words_learned self dict_id
              correct_count incorrect_count words_mastered now files)
    as [Hd Hn].
  split; [| split; [| split; [| split; [| split; [exact Hd | exact Hn]]]]];
    unfold ProgressTracker.update_session_stats;
    rewrite save_progress_unfold; cbn [fst snd ProgressTracker.progress
      ProgressTracker.set_progress];
    set (p0 := UserProgress.set_total_incorrect _ _);
    set (dp := default ∅ (UserProgress.dictionaries_progress p0 !! dict_id)).
  all: assert (Hfold : forall l q,
         let q' := fold_left (ProgressTracker.count_mastered_word dp) l q in
         UserProgress.total_sessions q' = UserProgress.total_sessions q /\
         UserProgress.total_correct q' = UserProgress.total_correct q /\
         UserProgress.total_incorrect q' = UserProgress.total_incorrect q /\
         UserProgress.total_attempts q' = UserProgress.total_attempts q)
    by (induction l as [| x l IH]; intros q; cbn zeta; cbn [fold_left];
        [repeat split |];
        specialize (IH (ProgressTracker.count_mastered_word dp q x));
        cbn zeta in IH; destruct IH as (H1 & H2 & H3 & H4);
        rewrite H1, H2, H3, H4; unfold ProgressTracker.count_mastered_word;
        destruct (dp !! x) as [wp |]; [| repeat split];
        destruct (WordProgress.times_mastered wp =? 1); repeat split).
  all: destruct (Hfold words_mastered p0) as (H1 & H2 & H3 & H4); cbn.
  - rewrite H1. reflexivity.
  - rewrite H2. reflexivity.
  - rewrite H3. reflexivity.
  - rewrite H4. reflexivity.
Qed.

(** X24. Neither way of updating the tracker writes a file, and both
    report success: after [update_word_progress] and after
    [update_session_stats] the files are what they were. *)
Theorem X24_tracker_writes_nothing (self : ProgressTracker.t)
    (dict_id word : string) (is_correct is_mastered : bool)
    (correct_count incorrect_count : Z) (words_mastered : list string)
    (now now' : Z) (files : Path.fs) :
  (let r := ProgressTracker.update_word_progress self dict_id word
              is_correct is_mastered now now' files in
   fst (fst r) = true /\ snd r = files) /\
  (let r := ProgressTracker.update_session_stats self dict_id
              correct_count incorrect_count words_mastered now files in
   fst (fst r) = true /\ snd r = files).
Proof.
  split; cbn zeta.
  - destruct (update_word_progress_unfold self dict_id word is_correct
                is_mastered now now' files) as (Hok & Hfiles & _).
    split; assumption.
  - unfold ProgressTracker.update_session_stats.
    rewrite save_progress_unfold. split; reflexivity.
Qed.

Lemma load_progress_new (f : json -> result UserProgress.t) (user_id now : Z)
    (files : Path.fs) :
  ProgressTracker._load_progress f user_id now files
  = UserProgress.new user_id now.
Proof.
  unfold ProgressTracker._load_progress. rewrite load_json_str.
  unfold ProgressTracker.progress_file, Path.join. cbn.
  destruct (bool_decide _); reflexivity.
Qed.

(** X25. A tracker always starts from a new profile: whatever the files
    hold, and however a loaded document would be converted, the constructor
    yields the profile with every total at 0 and no per-word record. *)
Theorem X25_tracker_starts_new (f : json -> result UserProgress.t)
    (user_id now : Z) (files : Path.fs) :
  ProgressTracker.init f user_id now files
  = ProgressTracker.mk user_id (UserProgress.mk user_id 0 0 0 0 0 ∅ now None).
Proof.
  unfold ProgressTracker.init. rewrite load_progress_new. reflexivity.
Qed.

(** X26. What the program does at the end of a session, a new tracker
    followed by [update_session_stats], counts the session and its answers
    but never a learned word, whatever list of mastered words it is given;
    the total of attempts stays 0, so the success rate of
    [get_total_progress] is 0; and the next tracker starts from a new
    profile again. *)
Theorem X26_session_end (f : json -> result UserProgress.t)
    (user_id now now' now'' : Z) (dict_id : string)
    (correct_count incorrect_count : Z) (words_mastered : list string)
    (files : Path.fs) :
  let r := ProgressTracker.update_session_stats
             (ProgressTracker.init f user_id now files) dict_id
             correct_count incorrect_count words_mastered now' files in
  let p := ProgressTracker.progress (snd (fst r)) in
  let tp := ProgressTracker.get_total_progress (snd (fst r)) in
  UserProgress.total_words_learned p = 0 /\
  UserProgress.total_sessions p = 1 /\
  UserProgress.total_correct p = correct_count /\
  UserProgress.total_incorrect p = incorrect_count /\
  ProgressTracker.tp_total_attempts tp = 0 /\
  ProgressTracker.tp_success_rate tp = 0%Q /\
  ProgressTracker.init f user_id now'' (snd r)
  = ProgressTracker.mk user_id (UserProgress.new user_id now'').
Proof.
  cbn zeta.
  pose proof (update_session_stats_total_words_learned
                (ProgressTracker.init f user_id now files) dict_id
                correct_count incorrect_count words_mastered now' files)
    as [_ Hn].
  cbn zeta in Hn.
  unfold ProgressTracker.init in *. rewrite load_progress_new in *.
  split.
  { rewrite Hn. cbn.
    replace (List.filter _ words_mastered) with (@nil string); [reflexivity |].
    symmetry. clear Hn. induction words_mastered as [| x l IH]; [reflexivity |].
    cbn. rewrite lookup_empty. exact IH. }
  unfold ProgressTracker.update_session_stats. rewrite save_progress_unfold.
  cbn [fst snd ProgressTracker.progress ProgressTracker.set_progress].
  rewrite load_progress_new.
  assert (Hfold : forall l q,
    fold_left (ProgressTracker.count_mastered_word
                 (default ∅ (UserProgress.dictionaries_progress
                    (UserProgress.new user_id now) !! dict_id))) l q = q).
  { cbn. induction l as [| x l IH]; intros q; [reflexivity |].
    cbn [fold_left]. unfold ProgressTracker.count_mastered_word at 2.
    rewrite lookup_empty. apply IH. }
  cbn [UserProgress.dictionaries_progress UserProgress.set_total_incorrect
       UserProgress.set_total_correct UserProgress.set_total_sessions] in *.
  rewrite Hfold. cbn. repeat split; lia.
Qed.

Lemma sum_of_add {A} (f g : A -> Z) (l : list A) :
  ProgressTracker.sum_of (fun x => f x + g x) l
  = ProgressTracker.sum_of f l + ProgressTracker.sum_of g l.
Proof.
  unfold ProgressTracker.sum_of.
  induction l as [| x l IH]; cbn; [reflexivity | rewrite IH; lia].
Qed.

Lemma sum_of_ones {A} (l : list A) :
  ProgressTracker.sum_of (fun _ => 1) l = Z.of_nat (length l).
Proof.
  unfold ProgressTracker.sum_of.
  induction l as [| x l IH]; cbn [map fold_right length];
    [reflexivity | rewrite IH; lia].
Qed.

(** X27. In the progress of a dictionary the total of words is the number
    of its records, the attempts are the sum of the correct and incorrect
    answers, and the mastered words are between 0 and the total; a
    dictionary without records, known or not, gives zeros throughout and no
    last activity. *)
Theorem X27_dictionary_progress (self : ProgressTracker.t) (dict_id : string) :
  let records : gmap string WordProgress.t :=
    default ∅ (UserProgress.dictionaries_progress
                 (ProgressTracker.progress self) !! dict_id) in
  let r := ProgressTracker.get_dictionary_progress self dict_id in
  ProgressTracker.dp_total_words r = Z.of_nat (size records) /\
  ProgressTracker.dp_total_attempts r
  = ProgressTracker.dp_total_correct r + ProgressTracker.dp_total_incorrect r /\
  0 <= ProgressTracker.dp_words_mastered r <= ProgressTracker.dp_total_words r /\
  (records = ∅ ->
   r = ProgressTracker.mk_dictionary_progress 0 0 0%Q 0 0 0 None).
Proof.
  cbn zeta. unfold ProgressTracker.get_dictionary_progress.
  set (records := default ∅ _).
  pose proof (length_map_to_list records) as Hsize.
  rewrite <- (length_map snd) in Hsize.
  destruct (map snd (map_to_list records)) as [| wp values] eqn:Hvalues.
  - cbn in Hsize. rewrite <- Hsize. cbn. repeat split; lia.
  - cbn [ProgressTracker.dp_total_words ProgressTracker.dp_total_attempts
         ProgressTracker.dp_total_correct ProgressTracker.dp_total_incorrect
         ProgressTracker.dp_words_mastered].
    rewrite <- Hsize. split; [reflexivity |].
    split; [apply sum_of_add |]. split.
    + rewrite sum_of_ones.
      pose proof (filter_length_bound
                    (fun wp => WordProgress.times_mastered wp >? 0)
                    (wp :: values)) as [Hle _]. lia.
    + intros Hempty. rewrite Hempty, map_size_empty in Hsize.
      cbn in Hsize. lia.
Qed.

(** ** The temporary session of a user *)

Lemma save_user_session_unfold (user_id : Z) (o : list (string * json))
    (now : Z) (files : Path.fs) :
  save_user_session user_id (JObj o) now files
  = Ok (true, <[Path.name (user_session_file user_id)
                := JObj (PyDict.set "timestamp" (JInt now) o)]> files).
Proof. reflexivity. Qed.

Lemma load_user_session_saved (user_id : Z) (o : list (string * json))
    (now now' : Z) (files : Path.fs) :
  let name := Path.name (user_session_file user_id) in
  let data := JObj (PyDict.set "timestamp" (JInt now) o) in
  load_user_session user_id now' (<[name := data]> files)
  = if now' - now >? SESSION_TIMEOUT * 1000000
    then Ok (None, delete name files)
    else Ok (Some data, <[name := data]> files).
Proof.
  cbn zeta. unfold load_user_session, load_json, user_session_file, Path.join.
  cbn [Path.exists_ Path.name]. rewrite lookup_insert_eq.
  rewrite bool_decide_eq_true_2 by (eexists; reflexivity).
  cbn [mbind result_bind mret result_ret negb try_except Json.get].
  rewrite PyDict_get_set_same.
  cbn [mbind result_bind].
  destruct (now' - now >? SESSION_TIMEOUT * 1000000); [| reflexivity].
  unfold delete_user_session, user_session_file, Path.join.
  cbn [Path.exists_ Path.name]. rewrite lookup_insert_eq.
  rewrite bool_decide_eq_true_2 by (eexists; reflexivity).
  cbn. rewrite delete_insert_eq. reflexivity.
Qed.

(** X28. A temporary session saved as a dict is loaded back, with the time
    of the save under the key [timestamp], as long as no more than
    [SESSION_TIMEOUT] seconds have passed; the load changes no file.  Data
    that is not a dict is refused with a [TypeError]. *)
Theorem X28_user_session_round_trip (user_id : Z) (o : list (string * json))
    (now now' : Z) (files : Path.fs) :
  now' - now <= SESSION_TIMEOUT * 1000000 ->
  exists files',
    save_user_session user_id (JObj o) now files = Ok (true, files') /\
    load_user_session user_id now' files'
    = Ok (Some (JObj (PyDict.set "timestamp" (JInt now) o)), files') /\
    (forall data, (forall o', data <> JObj o') ->
       save_user_session user_id data now files = Raise TypeError).
Proof.
  intros Hfresh. eexists. split; [apply save_user_session_unfold |]. split.
  - rewrite load_user_session_saved.
    destruct (Z.gtb_spec (now' - now) (SESSION_TIMEOUT * 1000000)); [lia |].
    reflexivity.
  - intros data Hnot. destruct data; try reflexivity.
    exfalso. eapply Hnot. reflexivity.
Qed.

Lemma X28_user_session_round_trip_witness :
  5000000 - 0 <= SESSION_TIMEOUT * 1000000 /\
  exists files',
    save_user_session 7 (JObj [("words", JList [JStr "a"])]) 0 ∅
    = Ok (true, files') /\
    load_user_session 7 5000000 files'
    = Ok (Some (JObj [("words", JList [JStr "a"]); ("timestamp", JInt 0)]),
          files').
Proof.
  assert (H : 5000000 - 0 <= SESSION_TIMEOUT * 1000000)
    by (unfold SESSION_TIMEOUT; lia).
  split; [exact H |].
  destruct (X28_user_session_round_trip 7 [("words", JList [JStr "a"])]
              0 5000000 ∅ H) as (files' & Hs & Hl & _).
  exists files'. split; [exact Hs | exact Hl].
Defined.

(** X29. A temporary session older than [SESSION_TIMEOUT] seconds is not
    loaded: the load returns [None] and deletes the file, so that a later
    load, at any time, finds nothing, and every other file is as it was. *)
Theorem X29_user_session_expiry (user_id : Z) (o : list (string * json))
    (now now' now'' : Z) (files : Path.fs) :
  now' - now > SESSION_TIMEOUT * 1000000 ->
  exists files' files'',
    save_user_session user_id (JObj o) now files = Ok (true, files') /\
    load_user_session user_id now' files' = Ok (None, files'') /\
    files'' !! Path.name (user_session_file user_id) = None /\
    (forall q, q <> Path.name (user_session_file user_id) ->
               files'' !! q = files !! q) /\
    load_user_session user_id now'' files'' = Ok (None, files'').
Proof.
  intros Hold. eexists _, _.
  split; [apply save_user_session_unfold |].
  rewrite load_user_session_saved.
  destruct (Z.gtb_spec (now' - now) (SESSION_TIMEOUT * 1000000)); [| lia].
  split; [reflexivity |].
  split; [apply lookup_delete_eq |].
  split; [intros q Hq; apply lookup_delete_ne; congruence |].
  unfold load_user_session, load_json, user_session_file, Path.join.
  cbn [Path.exists_ Path.name].
  rewrite bool_decide_eq_false_2; [reflexivity |].
  rewrite lookup_delete_eq. intros [? ?]. discriminate.
Qed.

Lemma X29_user_session_expiry_witness :
  3600000001 - 0 > SESSION_TIMEOUT * 1000000 /\
  exists files' files'',
    save_user_session 7 (JObj [("words", JList [JStr "a"])]) 0 ∅
    = Ok (true, files') /\
    load_user_session 7 3600000001 files' = Ok (None, files'') /\
    files'' !! Path.name (user_session_file 7) = None.
Proof.
  assert (H : 3600000001 - 0 > SESSION_TIMEOUT * 1000000)
    by (unfold SESSION_TIMEOUT; lia).
  split; [exact H |].
  destruct (X29_user_session_expiry 7 [("words", JList [JStr "a"])]
              0 3600000001 0 ∅ H) as (files' & files'' & Hs & Hl & Hn & _).
  exists files', files''. split; [exact Hs |]. split; [exact Hl | exact Hn].
Defined.

(** ** The lines of the summary *)

Lemma range3_chunks (l : list string) (fuel : nat) :
  forall start,
    (length l - start <= fuel)%nat ->
    concat (map (fun i => firstn 3 (skipn i l))
                (LearningSession.range3 fuel start (length l)))
    = skipn start l /\
    forall i, In i (LearningSession.range3 fuel start (length l)) ->
              (i < length l)%nat.
Proof.
  induction fuel as [| fuel IH]; intros start Hfuel; cbn [LearningSession.range3].
  - split; [| intros i []]. cbn. symmetry. apply skipn_all2. lia.
  - destruct (Nat.ltb_spec start (length l)) as [Hlt | Hge].
    + destruct (IH (start + 3)%nat ltac:(lia)) as [Hcat Hin].
      split.
      * cbn [map concat]. rewrite Hcat.
        replace (start + 3)%nat with (3 + start)%nat by lia.
        rewrite <- skipn_skipn. apply firstn_skipn.
      * intros i [<- | Hi]; [exact Hlt | apply Hin, Hi].
    + split; [| intros i []]. cbn. symmetry. apply skipn_all2. lia.
Qed.

(** X30. The lines of the summary hold the mastered words in their order,
    each word once: the chunks joined back give the list, and every chunk
    has at least one and at most three words.  An empty list is shown as
    the single word for none. *)
Theorem X30_mastered_chunks (s : LearningSession.t) :
  let words := SessionStats.words_mastered_list (LearningSession.stats s) in
  concat (LearningSession.mastered_chunks words) = words /\
  (forall chunk, In chunk (LearningSession.mastered_chunks words) ->
                 (1 <= length chunk <= 3)%nat) /\
  (words = [] -> LearningSession._format_mastered_words s = "Нет").
Proof.
  cbn zeta.
  set (words := SessionStats.words_mastered_list (LearningSession.stats s)).
  destruct (range3_chunks words (length words) 0 ltac:(lia)) as [Hcat Hin].
  split; [exact Hcat |]. split.
  - intros chunk Hc. unfold LearningSession.mastered_chunks in Hc.
    apply in_map_iff in Hc as (i & <- & Hi). apply Hin in Hi.
    rewrite length_firstn, length_skipn. lia.
  - unfold LearningSession._format_mastered_words. fold words.
    intros ->. reflexivity.
Qed.
